(** * wreath-looper: the cursor engine ([head.h]) and the stereo engine
      ([stereo_looper.h]) as a shallow embedding

    The C++ sources are embedded function by function.  Conventions:

    - [int32_t] values are integers of [Z]; every arithmetic operation of the
      source is followed by the two's complement wrap-around [wrap32].
    - [float] values are IEEE 754 binary32 numbers, as specified by the
      Standard Library's [SpecFloat] at precision 24 and maximal exponent 128
      (round to nearest, ties to even, every operation rounded on its own).
    - the sample buffer is a region of bytes, four per sample, little endian;
      [buffer_[i]] decodes or encodes the four bytes of sample [i].  The
      region records the index of every element access, so that statements
      about which indices are touched can be made. *)

From Stdlib Require Import ZArith List Bool Lia.
From Stdlib Require Import Strings.Byte.
From Stdlib Require Import Floats.SpecFloat.
Import ListNotations.
Local Open Scope Z_scope.

(** ** 32-bit signed integers *)

Module Int32.

Definition min_signed : Z := - 2 ^ 31.
Definition max_signed : Z := 2 ^ 31 - 1.

(** The representable range of [int32_t]. *)
Definition in_range (z : Z) : Prop := min_signed <= z <= max_signed.

(** Two's complement wrap-around of a mathematical integer. *)
Definition wrap32 (z : Z) : Z := (z + 2 ^ 31) mod 2 ^ 32 - 2 ^ 31.

Definition add (a b : Z) : Z := wrap32 (a + b).
Definition sub (a b : Z) : Z := wrap32 (a - b).
Definition mul (a b : Z) : Z := wrap32 (a * b).

(** [std::abs] on [int32_t]. *)
Definition abs (a : Z) : Z := wrap32 (Z.abs a).

End Int32.

(** ** binary32 floating point numbers *)

Module F32.

Definition float : Type := spec_float.

Definition prec : Z := 24.
Definition emax : Z := 128.

Definition add : float -> float -> float := SFadd prec emax.
Definition sub : float -> float -> float := SFsub prec emax.
Definition mul : float -> float -> float := SFmul prec emax.
Definition div : float -> float -> float := SFdiv prec emax.
Definition abs : float -> float := SFabs.

(** [a < b], [a <= b] and [a > b]; all are false when an operand is a NaN. *)
Definition ltb (a b : float) : bool := SFltb a b.
Definition leb (a b : float) : bool := SFleb a b.
Definition gtb (a b : float) : bool := SFltb b a.
(** [a != b]; true when an operand is a NaN. *)
Definition neqb (a b : float) : bool := negb (SFeqb a b).

(** Conversion of an integer to [float] (exact up to 2^24 in magnitude,
    rounded to nearest beyond). *)
Definition of_int (z : Z) : float := binary_normalize prec emax z 0 false.

Definition zero : float := S754_zero false.
Definition one : float := of_int 1.

(** [std::numeric_limits<float>::epsilon()], that is 2^-23. *)
Definition epsilon : float := binary_normalize prec emax 1 (-23) false.

(** [std::max(a, b)] is [(a < b) ? b : a]; [std::min(a, b)] is
    [(b < a) ? b : a]. *)
Definition max (a b : float) : float := if ltb a b then b else a.
Definition min (a b : float) : float := if ltb b a then b else a.

(** The mathematical floor of a finite number. *)
Definition floorZ (x : float) : option Z :=
  match x with
  | S754_zero _ => Some 0
  | S754_finite s m e =>
      let v := if s then Z.neg m else Z.pos m in
      Some (if 0 <=? e then v * 2 ^ e else v / 2 ^ (- e))
  | S754_infinity _ | S754_nan => None
  end.

(** [static_cast<int32_t>(std::floor(x))].  The conversion is undefined in
    C++ when the floor does not fit [int32_t]; the model then saturates,
    and maps a NaN to 0, as the conversion instruction of the ARM target
    does. *)
Definition floor_to_int32 (x : float) : Z :=
  match x with
  | S754_nan => 0
  | S754_infinity s => if s then Int32.min_signed else Int32.max_signed
  | _ =>
      match floorZ x with
      | Some z => Z.max Int32.min_signed (Z.min Int32.max_signed z)
      | None => 0
      end
  end.

(** The 32-bit pattern of a number, and back. *)
Definition to_bits (x : float) : Z :=
  match x with
  | S754_zero s => if s then 2 ^ 31 else 0
  | S754_infinity s => (if s then 2 ^ 31 else 0) + 255 * 2 ^ 23
  | S754_nan => 255 * 2 ^ 23 + 2 ^ 22
  | S754_finite s m e =>
      (if s then 2 ^ 31 else 0)
      + (if Z.pos m <? 2 ^ 23 then Z.pos m
         else (e + 150) * 2 ^ 23 + (Z.pos m - 2 ^ 23))
  end.

Definition of_bits (w : Z) : float :=
  let s := Z.testbit w 31 in
  let e := Z.land (Z.shiftr w 23) 255 in
  let m := Z.land w (2 ^ 23 - 1) in
  if e =? 0 then
    match m with
    | Z.pos p => S754_finite s p (-149)
    | _ => S754_zero s
    end
  else if e =? 255 then
    if m =? 0 then S754_infinity s else S754_nan
  else
    match m + 2 ^ 23 with
    | Z.pos p => S754_finite s p (e - 150)
    | _ => S754_nan
    end.

End F32.

Definition float : Type := F32.float.

(** ** The sample buffer *)

Module Buf.

Definition byte_of_Z (z : Z) : byte :=
  match Byte.of_N (Z.to_N (z mod 256)) with
  | Some b => b
  | None => x00
  end.

Definition Z_of_byte (b : byte) : Z := Z.of_N (Byte.to_N b).

(** Little-endian combination and splitting of bytes. *)
Fixpoint le_combine (l : list byte) : Z :=
  match l with
  | [] => 0
  | b :: t => Z_of_byte b + 256 * le_combine t
  end.

Fixpoint le_split (n : nat) (w : Z) : list byte :=
  match n with
  | O => []
  | S n' => byte_of_Z w :: le_split n' (w / 256)
  end.

(** The memory region behind [float *buffer_]: its bytes, and the indices
    of the element accesses [buffer_[i]] made so far, in program order. *)
Record Mem : Type := mkMem {
  bytes : list byte;
  accesses : list Z;
}.

(** The number of whole samples the region holds. *)
Definition capacity (m : Mem) : Z := Z.of_nat (length (bytes m)) / 4.

Definition in_bounds (bs : list byte) (i : Z) : bool :=
  (0 <=? i) && (4 * i + 4 <=? Z.of_nat (length bs)).

(** The value of sample [i].  Outside the region the access is undefined
    behaviour in C++; the model yields 0 there. *)
Definition sample (bs : list byte) (i : Z) : float :=
  if in_bounds bs i
  then F32.of_bits (le_combine (firstn 4 (skipn (Z.to_nat (4 * i)) bs)))
  else F32.zero.

(** The bytes after sample [i] is overwritten.  A write outside the region
    is undefined behaviour in C++; the model drops it. *)
Definition set_sample (bs : list byte) (i : Z) (v : float) : list byte :=
  if in_bounds bs i
  then firstn (Z.to_nat (4 * i)) bs
         ++ le_split 4 (F32.to_bits v)
         ++ skipn (Z.to_nat (4 * i) + 4) bs
  else bs.

(** [memset(p, c, n)] on the region: the first [n] bytes become [c]. *)
Definition memset (bs : list byte) (c : byte) (n : nat) : list byte :=
  repeat c (Nat.min n (length bs)) ++ skipn n bs.

(** A region of [n] samples, all bytes zero, nothing accessed yet. *)
Definition fresh (n : nat) : Mem := mkMem (repeat x00 (4 * n)) [].

End Buf.

(** ** Stateful computations *)

(** A computation over a state [S] that returns an [A]. *)
Definition ST (S A : Type) : Type := S -> A * S.

Definition ret {S A : Type} (a : A) : ST S A := fun s => (a, s).

Definition bind {S A B : Type} (c : ST S A) (k : A -> ST S B)
  : ST S B :=
  fun s => let r := c s in k (fst r) (snd r).

Declare Scope state_scope.
Delimit Scope state_scope with state.
Notation "x <- c ;; k" := (bind c (fun x => k))
  (at level 100, c at next level, right associativity) : state_scope.
Notation "c ;;; k" := (bind c (fun _ => k))
  (at level 100, right associativity) : state_scope.

(** A computation that may read and write the sample buffer. *)
Definition M (A : Type) : Type := ST Buf.Mem A.

(** [buffer_[i]] as an rvalue. *)
Definition load (i : Z) : M float :=
  fun m => (Buf.sample (Buf.bytes m) i,
            Buf.mkMem (Buf.bytes m) (Buf.accesses m ++ [i])).

(** [buffer_[i] = v]. *)
Definition store (i : Z) (v : float) : M unit :=
  fun m => (tt, Buf.mkMem (Buf.set_sample (Buf.bytes m) i v)
                          (Buf.accesses m ++ [i])).

(** ** [head.h]: the cursor *)

Module Head.

Definition kMinLoopLengthSamples : Z := 48.
Definition kMinLoopLengthForFade : Z := 4800.
Definition kSamplesToFade : Z := 1200.

Inductive Fade : Type := NO_FADE | SMOOTH | IN | OUT.

(** [enum Type] of the source. *)
Inductive HeadType : Type := READ | WRITE.

Inductive Action : Type := NO_ACTION | LOOP | INVERT | STOP.

Inductive Movement : Type := NORMAL | PENDULUM | DRUNK.

(** [enum Direction { BACKWARDS = -1, FORWARD = 1 }].  The source multiplies
    and adds directions, and a value-initialized member holds 0, so a
    direction is kept as its integer value. *)
Definition Direction : Type := Z.
Definition BACKWARDS : Direction := -1.
Definition FORWARD : Direction := 1.

Definition Direction_eqb (a b : Direction) : bool := a =? b.

Definition Movement_eqb (a b : Movement) : bool :=
  match a, b with
  | NORMAL, NORMAL | PENDULUM, PENDULUM | DRUNK, DRUNK => true
  | _, _ => false
  end.

(** The members of [class Head], in the order of the source.  The pointer
    [buffer_] is the memory region the computations of [M] run over. *)
Record Head : Type := mkHead {
  type_ : HeadType;
  maxBufferSamples_ : Z;  (* the whole buffer length in samples *)
  bufferSamples_ : Z;  (* the written buffer length in samples *)
  intIndex_ : Z;
  index_ : float;
  rate_ : float;
  fadeIndex_ : float;
  loopStart_ : Z;
  loopEnd_ : Z;
  loopLength_ : Z;
  run_ : bool;
  looping_ : bool;
  movement_ : Movement;
  direction_ : Direction;
  mustFade_ : Fade;
  snapshotValue_ : float;
  fastAvg : float;
  slowAvg : float;
  prevDifference : float;
  currentValue_ : float;
  inputValue_ : float;
  isStopping_ : bool;
}.

(** Assignment to one member, the others unchanged. *)
Definition set_maxBufferSamples_ (v : Z) (h : Head) : Head :=
  mkHead (type_ h) v (bufferSamples_ h) (intIndex_ h) (index_ h) (rate_ h)
    (fadeIndex_ h) (loopStart_ h) (loopEnd_ h) (loopLength_ h) (run_ h)
    (looping_ h) (movement_ h) (direction_ h) (mustFade_ h)
    (snapshotValue_ h) (fastAvg h) (slowAvg h) (prevDifference h)
    (currentValue_ h) (inputValue_ h) (isStopping_ h).
Definition set_bufferSamples_ (v : Z) (h : Head) : Head :=
  mkHead (type_ h) (maxBufferSamples_ h) v (intIndex_ h) (index_ h)
    (rate_ h) (fadeIndex_ h) (loopStart_ h) (loopEnd_ h) (loopLength_ h)
    (run_ h) (looping_ h) (movement_ h) (direction_ h) (mustFade_ h)
    (snapshotValue_ h) (fastAvg h) (slowAvg h) (prevDifference h)
    (currentValue_ h) (inputValue_ h) (isStopping_ h).
Definition set_intIndex_ (v : Z) (h : Head) : Head :=
  mkHead (type_ h) (maxBufferSamples_ h) (bufferSamples_ h) v (index_ h)
    (rate_ h) (fadeIndex_ h) (loopStart_ h) (loopEnd_ h) (loopLength_ h)
    (run_ h) (looping_ h) (movement_ h) (direction_ h) (mustFade_ h)
    (snapshotValue_ h) (fastAvg h) (slowAvg h) (prevDifference h)
    (currentValue_ h) (inputValue_ h) (isStopping_ h).
Definition set_index_ (v : float) (h : Head) : Head :=
  mkHead (type_ h) (maxBufferSamples_ h) (bufferSamples_ h) (intIndex_ h) v
    (rate_ h) (fadeIndex_ h) (loopStart_ h) (loopEnd_ h) (loopLength_ h)
    (run_ h) (looping_ h) (movement_ h) (direction_ h) (mustFade_ h)
    (snapshotValue_ h) (fastAvg h) (slowAvg h) (prevDifference h)
    (currentValue_ h) (inputValue_ h) (isStopping_ h).
Definition set_rate_ (v : float) (h : Head) : Head :=
  mkHead (type_ h) (maxBufferSamples_ h) (bufferSamples_ h) (intIndex_ h)
    (index_ h) v (fadeIndex_ h) (loopStart_ h) (loopEnd_ h) (loopLength_ h)
    (run_ h) (looping_ h) (movement_ h) (direction_ h) (mustFade_ h)
    (snapshotValue_ h) (fastAvg h) (slowAvg h) (prevDifference h)
    (currentValue_ h) (inputValue_ h) (isStopping_ h).
Definition set_fadeIndex_ (v : float) (h : Head) : Head :=
  mkHead (type_ h) (maxBufferSamples_ h) (bufferSamples_ h) (intIndex_ h)
    (index_ h) (rate_ h) v (loopStart_ h) (loopEnd_ h) (loopLength_ h)
    (run_ h) (looping_ h) (movement_ h) (direction_ h) (mustFade_ h)
    (snapshotValue_ h) (fastAvg h) (slowAvg h) (prevDifference h)
    (currentValue_ h) (inputValue_ h) (isStopping_ h).
Definition set_loopStart_ (v : Z) (h : Head) : Head :=
  mkHead (type_ h) (maxBufferSamples_ h) (bufferSamples_ h) (intIndex_ h)
    (index_ h) (rate_ h) (fadeIndex_ h) v (loopEnd_ h) (loopLength_ h)
    (run_ h) (looping_ h) (movement_ h) (direction_ h) (mustFade_ h)
    (snapshotValue_ h) (fastAvg h) (slowAvg h) (prevDifference h)
    (currentValue_ h) (inputValue_ h) (isStopping_ h).
Definition set_loopEnd_ (v : Z) (h : Head) : Head :=
  mkHead (type_ h) (maxBufferSamples_ h) (bufferSamples_ h) (intIndex_ h)
    (index_ h) (rate_ h) (fadeIndex_ h) (loopStart_ h) v (loopLength_ h)
    (run_ h) (looping_ h) (movement_ h) (direction_ h) (mustFade_ h)
    (snapshotValue_ h) (fastAvg h) (slowAvg h) (prevDifference h)
    (currentValue_ h) (inputValue_ h) (isStopping_ h).
Definition set_loopLength_ (v : Z) (h : Head) : Head :=
  mkHead (type_ h) (maxBufferSamples_ h) (bufferSamples_ h) (intIndex_ h)
    (index_ h) (rate_ h) (fadeIndex_ h) (loopStart_ h) (loopEnd_ h) v
    (run_ h) (looping_ h) (movement_ h) (direction_ h) (mustFade_ h)
    (snapshotValue_ h) (fastAvg h) (slowAvg h) (prevDifference h)
    (currentValue_ h) (inputValue_ h) (isStopping_ h).
Definition set_run_ (v : bool) (h : Head) : Head :=
  mkHead (type_ h) (maxBufferSamples_ h) (bufferSamples_ h) (intIndex_ h)
    (index_ h) (rate_ h) (fadeIndex_ h) (loopStart_ h) (loopEnd_ h)
    (loopLength_ h) v (looping_ h) (movement_ h) (direction_ h)
    (mustFade_ h) (snapshotValue_ h) (fastAvg h) (slowAvg h)
    (prevDifference h) (currentValue_ h) (inputValue_ h) (isStopping_ h).
Definition set_looping_ (v : bool) (h : Head) : Head :=
  mkHead (type_ h) (maxBufferSamples_ h) (bufferSamples_ h) (intIndex_ h)
    (index_ h) (rate_ h) (fadeIndex_ h) (loopStart_ h) (loopEnd_ h)
    (loopLength_ h) (run_ h) v (movement_ h) (direction_ h) (mustFade_ h)
    (snapshotValue_ h) (fastAvg h) (slowAvg h) (prevDifference h)
    (currentValue_ h) (inputValue_ h) (isStopping_ h).
Definition set_movement_ (v : Movement) (h : Head) : Head :=
  mkHead (type_ h) (maxBufferSamples_ h) (bufferSamples_ h) (intIndex_ h)
    (index_ h) (rate_ h) (fadeIndex_ h) (loopStart_ h) (loopEnd_ h)
    (loopLength_ h) (run_ h) (looping_ h) v (direction_ h) (mustFade_ h)
    (snapshotValue_ h) (fastAvg h) (slowAvg h) (prevDifference h)
    (currentValue_ h) (inputValue_ h) (isStopping_ h).
Definition set_direction_ (v : Direction) (h : Head) : Head :=
  mkHead (type_ h) (maxBufferSamples_ h) (bufferSamples_ h) (intIndex_ h)
    (index_ h) (rate_ h) (fadeIndex_ h) (loopStart_ h) (loopEnd_ h)
    (loopLength_ h) (run_ h) (looping_ h) (movement_ h) v (mustFade_ h)
    (snapshotValue_ h) (fastAvg h) (slowAvg h) (prevDifference h)
    (currentValue_ h) (inputValue_ h) (isStopping_ h).
Definition set_mustFade_ (v : Fade) (h : Head) : Head :=
  mkHead (type_ h) (maxBufferSamples_ h) (bufferSamples_ h) (intIndex_ h)
    (index_ h) (rate_ h) (fadeIndex_ h) (loopStart_ h) (loopEnd_ h)
    (loopLength_ h) (run_ h) (looping_ h) (movement_ h) (direction_ h) v
    (snapshotValue_ h) (fastAvg h) (slowAvg h) (prevDifference h)
    (currentValue_ h) (inputValue_ h) (isStopping_ h).
Definition set_snapshotValue_ (v : float) (h : Head) : Head :=
  mkHead (type_ h) (maxBufferSamples_ h) (bufferSamples_ h) (intIndex_ h)
    (index_ h) (rate_ h) (fadeIndex_ h) (loopStart_ h) (loopEnd_ h)
    (loopLength_ h) (run_ h) (looping_ h) (movement_ h) (direction_ h)
    (mustFade_ h) v (fastAvg h) (slowAvg h) (prevDifference h)
    (currentValue_ h) (inputValue_ h) (isStopping_ h).
Definition set_currentValue_ (v : float) (h : Head) : Head :=
  mkHead (type_ h) (maxBufferSamples_ h) (bufferSamples_ h) (intIndex_ h)
    (index_ h) (rate_ h) (fadeIndex_ h) (loopStart_ h) (loopEnd_ h)
    (loopLength_ h) (run_ h) (looping_ h) (movement_ h) (direction_ h)
    (mustFade_ h) (snapshotValue_ h) (fastAvg h) (slowAvg h)
    (prevDifference h) v (inputValue_ h) (isStopping_ h).
Definition set_isStopping_ (v : bool) (h : Head) : Head :=
  mkHead (type_ h) (maxBufferSamples_ h) (bufferSamples_ h) (intIndex_ h)
    (index_ h) (rate_ h) (fadeIndex_ h) (loopStart_ h) (loopEnd_ h)
    (loopLength_ h) (run_ h) (looping_ h) (movement_ h) (direction_ h)
    (mustFade_ h) (snapshotValue_ h) (fastAvg h) (slowAvg h)
    (prevDifference h) (currentValue_ h) (inputValue_ h) v.

Definition SetIndex (index : float) (h : Head) : Head :=
  let h := set_index_ index h in
  set_intIndex_ (F32.floor_to_int32 index) h.

Definition SamplesToFade (h : Head) : Z :=
  Z.min kSamplesToFade (loopLength_ h).

(** The boundary action, together with the repositioned cursor. *)
Definition HandleLoopAction (h : Head) : Action * Head :=
  let ls := F32.of_int (loopStart_ h) in
  let le := F32.of_int (loopEnd_ h) in
  let index := index_ h in
  (* Handle normal loop boundaries. *)
  if loopEnd_ h >? loopStart_ h then
    (* Forward direction. *)
    if Direction_eqb FORWARD (direction_ h) then
      if looping_ h && (intIndex_ h >? loopEnd_ h) then
        if Movement_eqb PENDULUM (movement_ h) && looping_ h then
          (INVERT, SetIndex (F32.sub le (F32.sub index le)) h)
        else
          (LOOP, SetIndex (F32.sub (F32.add ls (F32.sub index le)) F32.one) h)
      else if negb (isStopping_ h) && negb (looping_ h)
              && (intIndex_ h
                  >? Int32.sub (loopEnd_ h) (SamplesToFade h)) then
        (STOP, h)
      else (NO_ACTION, h)
    (* Backwards direction. *)
    else
      if looping_ h && (intIndex_ h <? loopStart_ h) then
        if Movement_eqb PENDULUM (movement_ h) && looping_ h then
          (INVERT, SetIndex (F32.add ls (F32.sub ls index)) h)
        else
          (LOOP, SetIndex (F32.add (F32.sub le (F32.abs (F32.sub ls index)))
                                   F32.one) h)
      else if negb (isStopping_ h) && negb (looping_ h)
              && (intIndex_ h
                  <? Int32.add (loopStart_ h) (SamplesToFade h)) then
        (STOP, h)
      else (NO_ACTION, h)
  (* Handle inverted loop boundaries (end point comes before start point). *)
  else
    let frame := F32.of_int (Int32.sub (bufferSamples_ h) 1) in
    if Direction_eqb FORWARD (direction_ h) then
      if F32.gtb (F32.of_int (intIndex_ h)) frame then
        (* Wrap-around. *)
        (if looping_ h then LOOP else STOP,
         SetIndex (F32.sub (F32.sub index frame) F32.one) h)
      else if (intIndex_ h >? loopEnd_ h) && (intIndex_ h <? loopStart_ h) then
        if Movement_eqb PENDULUM (movement_ h) && looping_ h then
          (INVERT,
           SetIndex (F32.max (F32.sub le (F32.sub index le)) F32.zero) h)
        else
          (if looping_ h then LOOP else STOP,
           SetIndex (F32.min (F32.sub (F32.add ls (F32.sub index le)) F32.one)
                             frame) h)
      else (NO_ACTION, h)
    else
      if intIndex_ h <? 0 then
        (* Wrap-around. *)
        (if looping_ h then LOOP else STOP,
         SetIndex (F32.add (F32.sub frame (F32.abs index)) F32.one) h)
      else if (intIndex_ h >? loopEnd_ h) && (intIndex_ h <? loopStart_ h) then
        if Movement_eqb PENDULUM (movement_ h) && looping_ h then
          (INVERT, SetIndex (F32.min (F32.add ls (F32.sub ls index)) frame) h)
        else
          (if looping_ h then LOOP else STOP,
           SetIndex (F32.max (F32.add (F32.sub le (F32.sub ls index)) F32.one)
                             F32.zero) h)
      else (NO_ACTION, h).

Definition WrapIndex (h : Head) (index : Z) : Z :=
  (* Handle normal loop boundaries. *)
  if loopEnd_ h >? loopStart_ h then
    (* Forward direction. *)
    if index >? loopEnd_ h then
      if Movement_eqb PENDULUM (movement_ h) then
        Int32.sub (loopEnd_ h) (Int32.sub index (loopEnd_ h))
      else if Direction_eqb FORWARD (direction_ h) then
        Int32.sub (Int32.add (loopStart_ h) (Int32.sub index (loopEnd_ h))) 1
      else 0
    (* Backwards direction. *)
    else if index <? loopStart_ h then
      if Movement_eqb PENDULUM (movement_ h) then
        Int32.add (loopStart_ h) (Int32.sub (loopStart_ h) index)
      else if Direction_eqb BACKWARDS (direction_ h) then
        Int32.add (Int32.sub (loopEnd_ h)
                             (Int32.abs (Int32.sub (loopStart_ h) index))) 1
      else 0
    else index
  (* Handle inverted loop boundaries (end point comes before start point). *)
  else
    let frame := Int32.sub (bufferSamples_ h) 1 in
    if index >? frame then
      Int32.sub (Int32.sub index frame) 1
    else if index <? 0 then
      (* Wrap-around. *)
      Int32.add (Int32.sub frame (Int32.abs index)) 1
    else if (index >? loopEnd_ h) && (index <? loopStart_ h) then
      if Direction_eqb FORWARD (direction_ h) then
        (* Max/min to avoid overflow. *)
        if Movement_eqb PENDULUM (movement_ h)
        then Z.max (Int32.sub (loopEnd_ h) (Int32.sub index (loopEnd_ h))) 0
        else Z.min (Int32.sub (Int32.add (loopStart_ h)
                                         (Int32.sub index (loopEnd_ h))) 1)
                   frame
      else
        (* Max/min to avoid overflow. *)
        if Movement_eqb PENDULUM (movement_ h)
        then Z.min (Int32.add (loopStart_ h) (Int32.sub (loopStart_ h) index))
                   frame
        else Z.max (Int32.add (Int32.sub (loopEnd_ h)
                                         (Int32.sub (loopStart_ h) index)) 1)
                   0
    else index.

Definition CalculateLoopEnd (h : Head) : Head :=
  if Int32.add (loopStart_ h) (loopLength_ h) >? bufferSamples_ h then
    set_loopEnd_
      (Int32.sub (Int32.sub (Int32.add (loopStart_ h) (loopLength_ h))
                            (bufferSamples_ h)) 1) h
  else
    set_loopEnd_ (Int32.sub (Int32.add (loopStart_ h) (loopLength_ h)) 1) h.

Definition Reset (h : Head) : Head :=
  let h := set_intIndex_ 0 h in
  let h := set_index_ F32.zero h in
  let h := set_rate_ F32.one h in
  let h := set_loopStart_ 0 h in
  let h := set_loopEnd_ 0 h in
  let h := set_loopLength_ 0 h in
  let h := set_run_ true h in
  let h := set_looping_ true h in
  let h := set_movement_ NORMAL h in
  set_direction_ FORWARD h.

(** [Init(buffer, maxBufferSamples)]; the buffer bound is the region of [M]. *)
Definition Init (maxBufferSamples : Z) (h : Head) : Head :=
  let h := set_maxBufferSamples_ maxBufferSamples h in
  Reset h.

Definition ResetPosition (h : Head) : Head :=
  SetIndex (F32.of_int (if Direction_eqb FORWARD (direction_ h)
                        then loopStart_ h else loopEnd_ h)) h.

Definition SetLoopStart (start : Z) (h : Head) : Z * Head :=
  let h := set_loopStart_
             (Z.min (Z.max start 0) (Int32.sub (bufferSamples_ h) 1)) h in
  let h := CalculateLoopEnd h in
  let h := if negb (looping_ h) then ResetPosition h else h in
  (loopStart_ h, h).

Definition SetLoopLength (length : Z) (h : Head) : Z * Head :=
  let h := set_loopLength_
             (Z.min (Z.max length kMinLoopLengthSamples)
                    (bufferSamples_ h)) h in
  let h := CalculateLoopEnd h in
  (loopLength_ h, h).

Definition SetRate (rate : float) (h : Head) : Head := set_rate_ rate h.
Definition SetMovement (movement : Movement) (h : Head) : Head :=
  set_movement_ movement h.
Definition SetDirection (direction : Direction) (h : Head) : Head :=
  set_direction_ direction h.
Definition SetLooping (looping : bool) (h : Head) : Head :=
  set_looping_ looping h.

Definition ToggleDirection (h : Head) : Direction * Head :=
  let h := set_direction_
             (Int32.mul (direction_ h) (-1))
             h in
  (direction_ h, h).

Definition ToggleRun (h : Head) : bool * Head :=
  let h := set_run_ (negb (run_ h)) h in
  (run_ h, h).

Definition IsFading (h : Head) : bool :=
  match mustFade_ h with
  | NO_FADE => false
  | _ => true
  end.

Definition InitBuffer (bufferSamples : Z) (h : Head) : Head :=
  let h := set_bufferSamples_ bufferSamples h in
  let h := set_loopLength_ (bufferSamples_ h) h in
  set_loopEnd_ (Int32.sub (loopLength_ h) 1) h.

Definition StopBuffering (h : Head) : Z * Head :=
  let h := set_intIndex_ 0 h in
  let h := set_loopLength_ (bufferSamples_ h) h in
  let h := set_loopEnd_ (Int32.sub (loopLength_ h) 1) h in
  let h := ResetPosition h in
  (bufferSamples_ h, h).

Definition GetBufferSamples (h : Head) : Z := bufferSamples_ h.
Definition GetLoopEnd (h : Head) : Z := loopEnd_ h.
Definition GetRate (h : Head) : float := rate_ h.
Definition GetPosition (h : Head) : float := index_ h.
Definition GetIntPosition (h : Head) : Z := intIndex_ h.
Definition IsGoingForward (h : Head) : bool :=
  Direction_eqb FORWARD (direction_ h).

(** [size_t] is 32 bits wide on the target; an [int32_t] converts to it
    modulo 2^32. *)
Definition size_t_of_int32 (z : Z) : Z := z mod 2 ^ 32.

Local Open Scope state_scope.

Definition ReadAt (h : Head) (index : float) : M float :=
  let intPos := F32.floor_to_int32 index in
  value <- load intPos ;;
  let frac := F32.sub index (F32.of_int intPos) in
  (* Interpolate value only it the index has a fractional part. *)
  if F32.gtb frac F32.epsilon then
    value2 <- load (WrapIndex h (Int32.add intPos (direction_ h))) ;;
    ret (F32.add value (F32.mul (F32.sub value2 value) frac))
  else ret value.

Definition SetUpFade (fade : Fade) (h : Head) : M Head :=
  v <- ReadAt h (index_ h) ;;
  let h := set_snapshotValue_ v h in
  let h := set_mustFade_ fade h in
  ret (set_fadeIndex_ (F32.of_int 0) h).

Definition Run (fade : bool) (h : Head) : M Head :=
  if fade then SetUpFade IN h
  else ret (set_run_ true h).

Definition Stop (fade : bool) (h : Head) : M Head :=
  if fade && negb (isStopping_ h) then
    let h := set_isStopping_ true h in
    SetUpFade OUT h
  else
    let h := set_isStopping_ false h in
    let h := set_run_ false h in
    ret (ResetPosition h).

Definition UpdatePosition (h : Head) : M (float * Head) :=
  if negb (run_ h) then ret (index_ h, h)
  else
    let index :=
      F32.add (index_ h)
              (F32.mul (rate_ h) (F32.of_int (direction_ h))) in
    let h := SetIndex index h in
    let (action, h) := HandleLoopAction h in
    h <- match type_ h with
         | READ =>
             match action with
             | STOP => Stop true h
             | INVERT => ret (snd (ToggleDirection h))
             | LOOP => ret h
             | NO_ACTION => ret h
             end
         | WRITE => ret h
         end ;;
    ret (index_ h, h).

Definition Read (h : Head) : M (float * Head) :=
  v <- ReadAt h (index_ h) ;;
  let h := set_currentValue_ v h in
  let samplesToFade := SamplesToFade h in
  h <- match mustFade_ h with
       (* Gradually start reading, fading from zero to the buffered value. *)
       | IN =>
           (* Actually start reading. *)
           h <- Run false h ;;
           let pos := F32.mul (fadeIndex_ h)
                        (F32.div F32.one (F32.of_int samplesToFade)) in
           if F32.ltb (fadeIndex_ h) (F32.of_int (Int32.sub samplesToFade 1))
           then
             let h := set_currentValue_ (F32.mul (currentValue_ h) pos) h in
             ret (set_fadeIndex_ (F32.add (fadeIndex_ h) (rate_ h)) h)
           else ret (set_mustFade_ NO_FADE h)
       (* Gradually stop reading, fading from the buffered value to zero. *)
       | OUT =>
           let pos := F32.mul (fadeIndex_ h)
                        (F32.div F32.one (F32.of_int samplesToFade)) in
           if F32.ltb (fadeIndex_ h) (F32.of_int (Int32.sub samplesToFade 1))
           then
             let h := set_currentValue_
                        (F32.mul (currentValue_ h) (F32.sub F32.one pos)) h in
             ret (set_fadeIndex_ (F32.add (fadeIndex_ h) (rate_ h)) h)
           else
             let h := set_mustFade_ NO_FADE h in
             (* Actually stop reading. *)
             Stop false h
       | _ => ret h
       end ;;
  (* Apply switch-and-ramp technique to smooth the read value. *)
  let h :=
    match mustFade_ h with
    | SMOOTH =>
        let pos := F32.mul (fadeIndex_ h)
                     (F32.div F32.one (F32.of_int samplesToFade)) in
        if F32.ltb (fadeIndex_ h) (F32.of_int (Int32.sub samplesToFade 1))
        then
          let delta := F32.sub (snapshotValue_ h) (currentValue_ h) in
          let h := set_currentValue_
                     (F32.add (currentValue_ h)
                              (F32.mul delta (F32.sub F32.one pos))) h in
          set_fadeIndex_ (F32.add (fadeIndex_ h) (rate_ h)) h
        else set_mustFade_ NO_FADE h
    | _ => h
    end in
  ret (if run_ h then currentValue_ h else F32.of_int 0, h).

Definition Write (value : float) (h : Head) : M Head :=
  v <- ReadAt h (index_ h) ;;
  let h := set_currentValue_ v h in
  let samplesToFade := SamplesToFade h in
  r <- match mustFade_ h with
       (* Gradually start writing, fading from the buffered value to the
          input signal. *)
       | IN =>
           (* Actually start writing. *)
           h <- Run false h ;;
           let pos := F32.mul (fadeIndex_ h)
                        (F32.div F32.one (F32.of_int samplesToFade)) in
           if F32.ltb (fadeIndex_ h) (F32.of_int (Int32.sub samplesToFade 1))
           then
             let value :=
               F32.add (F32.mul (currentValue_ h) (F32.sub F32.one pos))
                       (F32.mul value pos) in
             ret (value, set_fadeIndex_ (F32.add (fadeIndex_ h) (rate_ h)) h)
           else ret (value, set_mustFade_ NO_FADE h)
       (* Gradually stop writing, fading from the input signal to the
          buffered value. *)
       | OUT =>
           let pos := F32.mul (fadeIndex_ h)
                        (F32.div F32.one (F32.of_int samplesToFade)) in
           if F32.ltb (fadeIndex_ h) (F32.of_int (Int32.sub samplesToFade 1))
           then
             let value := F32.add (F32.mul value (F32.sub F32.one pos))
                                  (F32.mul (currentValue_ h) pos) in
             ret (value, set_fadeIndex_ (F32.add (fadeIndex_ h) (rate_ h)) h)
           else
             let h := set_mustFade_ NO_FADE h in
             (* Actually stop writing. *)
             h <- Stop false h ;;
             ret (value, h)
       | _ => ret (value, h)
       end ;;
  let (value, h) := r in
  if run_ h then
    store (WrapIndex h (intIndex_ h)) value ;;;
    ret h
  else ret h.

(** [memset(buffer_, 0.f, maxBufferSamples_)]: the value converts to the
    byte 0 and the count to [size_t]. *)
Definition ClearBuffer (h : Head) : M unit :=
  fun m =>
    (tt, Buf.mkMem (Buf.memset (Buf.bytes m) x00
                      (Z.to_nat (size_t_of_int32 (maxBufferSamples_ h))))
                   (Buf.accesses m)).

Definition Buffer (value : float) (h : Head) : M (bool * Head) :=
  store (intIndex_ h) value ;;;
  (* Handle end of buffer. *)
  if bufferSamples_ h >? Int32.sub (maxBufferSamples_ h) 1 then
    ret (true, h)
  else
    let h := set_intIndex_ (Int32.add (intIndex_ h) 1) h in
    let h := set_bufferSamples_ (intIndex_ h) h in
    ret (false, h).

(** *** Sequences of public calls

    One constructor per public member function of [class Head], with its
    arguments; [exec] performs the call and [run] a sequence of calls from
    left to right, collecting what each returns. *)

Inductive Call : Type :=
| CReset
| CInit (maxBufferSamples : Z)
| CSetLoopStart (start : Z)
| CSetLoopLength (length : Z)
| CSamplesToFade
| CSetRate (rate : float)
| CSetMovement (movement : Movement)
| CSetDirection (direction : Direction)
| CSetIndex (index : float)
| CResetPosition
| CUpdatePosition
| CIsFading
| CSetUpFade (fade : Fade)
| CRead
| CReadAt (index : float)
| CWrite (value : float)
| CClearBuffer
| CBuffer (value : float)
| CInitBuffer (bufferSamples : Z)
| CStopBuffering
| CToggleDirection
| CRun (fade : bool)
| CStop (fade : bool)
| CToggleRun
| CSetLooping (looping : bool)
| CGetBufferSamples
| CGetLoopEnd
| CGetRate
| CGetPosition
| CGetIntPosition
| CIsGoingForward.

Inductive Ret : Type :=
| RVoid
| RBool (b : bool)
| RInt (z : Z)
| RFloat (x : float)
| RDirection (d : Direction).

Definition exec (c : Call) (h : Head) : M (Ret * Head) :=
  match c with
  | CReset => ret (RVoid, Reset h)
  | CInit n => ret (RVoid, Init n h)
  | CSetLoopStart start =>
      let (r, h) := SetLoopStart start h in ret (RInt r, h)
  | CSetLoopLength length =>
      let (r, h) := SetLoopLength length h in ret (RInt r, h)
  | CSamplesToFade => ret (RInt (SamplesToFade h), h)
  | CSetRate rate => ret (RVoid, SetRate rate h)
  | CSetMovement movement => ret (RVoid, SetMovement movement h)
  | CSetDirection direction => ret (RVoid, SetDirection direction h)
  | CSetIndex index => ret (RVoid, SetIndex index h)
  | CResetPosition => ret (RVoid, ResetPosition h)
  | CUpdatePosition => r <- UpdatePosition h ;; ret (RFloat (fst r), snd r)
  | CIsFading => ret (RBool (IsFading h), h)
  | CSetUpFade fade => h <- SetUpFade fade h ;; ret (RVoid, h)
  | CRead => r <- Read h ;; ret (RFloat (fst r), snd r)
  | CReadAt index => v <- ReadAt h index ;; ret (RFloat v, h)
  | CWrite value => h <- Write value h ;; ret (RVoid, h)
  | CClearBuffer => ClearBuffer h ;;; ret (RVoid, h)
  | CBuffer value => r <- Buffer value h ;; ret (RBool (fst r), snd r)
  | CInitBuffer n => ret (RVoid, InitBuffer n h)
  | CStopBuffering => let (r, h) := StopBuffering h in ret (RInt r, h)
  | CToggleDirection =>
      let (r, h) := ToggleDirection h in ret (RDirection r, h)
  | CRun fade => h <- Run fade h ;; ret (RVoid, h)
  | CStop fade => h <- Stop fade h ;; ret (RVoid, h)
  | CToggleRun => let (r, h) := ToggleRun h in ret (RBool r, h)
  | CSetLooping looping => ret (RVoid, SetLooping looping h)
  | CGetBufferSamples => ret (RInt (GetBufferSamples h), h)
  | CGetLoopEnd => ret (RInt (GetLoopEnd h), h)
  | CGetRate => ret (RFloat (GetRate h), h)
  | CGetPosition => ret (RFloat (GetPosition h), h)
  | CGetIntPosition => ret (RInt (GetIntPosition h), h)
  | CIsGoingForward => ret (RBool (IsGoingForward h), h)
  end.

Fixpoint run (cs : list Call) (h : Head) : M (list Ret * Head) :=
  match cs with
  | [] => ret ([], h)
  | c :: cs' =>
      r <- exec c h ;;
      rs <- run cs' (snd r) ;;
      ret (fst r :: fst rs, snd rs)
  end.

(** A cursor as its constructor [Head(type)] leaves it: every other member
    is value-initialized. *)
Definition new (type : HeadType) : Head :=
  mkHead type 0 0 0 F32.zero F32.zero F32.zero 0 0 0 false false NORMAL 0
         NO_FADE F32.zero F32.zero F32.zero F32.zero F32.zero F32.zero false.

Local Close Scope state_scope.

End Head.

(** ** [stereo_looper.h]: the stereo engine *)

Module StereoLooper.

Definition kSampleRate : Z := 48000.
Definition kBufferSeconds : Z := 1.
Definition kBufferSamples : Z := Int32.mul kSampleRate kBufferSeconds.
Definition kParamSlewCoeff : float := F32.one.

(** The channel selector of the engine's anonymous [enum]. *)
Definition LEFT : Z := 0.
Definition RIGHT : Z := 1.
Definition BOTH : Z := 2.
Definition NONE : Z := 3.

Inductive State : Type := STARTUP | BUFFERING | READY | RECORDING | FROZEN.

Inductive FilterType : Type := LP | BP | HP.

(** Modelled from the spec: [Looper::TriggerMode], whose declaration is not
    part of the sources; the glossary names the trigger modes Loop
    (free-running), Gate (active while held) and Trigger (one-shot restart
    per edge). *)
Inductive TriggerMode : Type := LOOP | GATE | TRIGGER.

Definition TriggerMode_eqb (a b : TriggerMode) : bool :=
  match a, b with
  | LOOP, LOOP | GATE, GATE | TRIGGER, TRIGGER => true
  | _, _ => false
  end.

(** The member functions of [class Looper] that the engine calls, each with
    the type of what it returns.  The bodies of [Looper] are not part of the
    sources: the engine is embedded over any implementation of them. *)
Inductive LooperCall : Type -> Type :=
| Looper_Buffer (value : float) : LooperCall bool
| Looper_StopBuffering : LooperCall unit
| Looper_ClearBuffer : LooperCall unit
| Looper_Reset : LooperCall unit
| Looper_Start (fade : bool) : LooperCall bool
| Looper_Stop (fade : bool) : LooperCall bool
| Looper_Trigger : LooperCall unit
| Looper_Read (dry : float) : LooperCall float
| Looper_Write (value : float) : LooperCall unit
| Looper_UpdateReadPos : LooperCall unit
| Looper_UpdateWritePos : LooperCall unit
| Looper_HandleFade : LooperCall bool
| Looper_GetTriggerMode : LooperCall TriggerMode
| Looper_SetTriggerMode (mode : TriggerMode) : LooperCall unit
| Looper_GetDirection : LooperCall Head.Direction
| Looper_SetDirection (direction : Head.Direction) : LooperCall unit
| Looper_GetLoopLength : LooperCall Z
| Looper_SetLoopLength (length : float) : LooperCall unit
| Looper_GetLoopStart : LooperCall Z
| Looper_SetLoopStart (start : float) : LooperCall unit
| Looper_GetReadRate : LooperCall float
| Looper_SetReadRate (rate : float) : LooperCall unit.

(** An implementation of the channel looper over a state [L]. *)
Class LooperImpl (L : Type) : Type :=
  looper_call : forall R : Type, LooperCall R -> L -> R * L.

(** The DaisySP collaborators: the soft clipper, the one-pole smoother, the
    clamp, the crossfader over a state [CF] and the state variable filter
    over a state [SVF]. *)
Class DaisySP (CF SVF : Type) : Type := {
  SoftClip : float -> float;
  fonepole : float -> float -> float -> float;
  fclamp : float -> float -> float -> float;
  cf_SetPos : float -> CF -> CF;
  cf_Process : float -> float -> CF -> float * CF;
  svf_Process : float -> SVF -> SVF;
  svf_Low : SVF -> float;
  svf_Band : SVF -> float;
  svf_High : SVF -> float;
}.

(** A call made on one of the two channel loopers, with what it returned. *)
Inductive Invocation : Type :=
| Invoked (channel : Z) (R : Type) (call : LooperCall R) (result : R).

Section Engine.

Context {L CF SVF : Type} {looper : LooperImpl L} {dsp : DaisySP CF SVF}.

(** The members of [class StereoLooper] that the embedded functions read or
    write, in the order of the source; [loopers_LEFT] and [loopers_RIGHT] are
    the two elements of [loopers_], [fadeIndex] is the static local of
    [Process], and [calls_] lists the calls made on the loopers so far, in
    program order. *)
Record Engine : Type := mkEngine {
  mustResetLooper : bool;
  mustClearBuffer : bool;
  mustStopBuffering : bool;
  resetPosition : bool;
  gain : float;
  mix : float;
  feedback : float;
  rateSlew : float;
  nextLeftLoopStart : Z;
  nextRightLoopStart : Z;
  leftDirection : Head.Direction;
  rightDirection : Head.Direction;
  nextLeftLoopLength : Z;
  nextRightLoopLength : Z;
  nextLeftReadRate : float;
  nextRightReadRate : float;
  mustSetChannelWriteRate : Z;
  nextWriteRate : float;
  leftTriggerMode : TriggerMode;
  rightTriggerMode : TriggerMode;
  mustStart : bool;
  mustStop : bool;
  mustRestart : bool;
  stereoImage : float;
  dryLevel : float;
  filterType : FilterType;
  loopers_LEFT : L;
  loopers_RIGHT : L;
  state_ : State;
  cf_ : CF;
  feedbackFilter_ : SVF;
  outputFilter_ : SVF;
  sampleRate_ : Z;
  freeze_ : float;
  filterValue_ : float;
  fadeIndex : Z;
  calls_ : list Invocation;
}.

(** Assignment to one member, the others unchanged. *)
Definition set_mustResetLooper (v : bool) (e : Engine) : Engine :=
  mkEngine v (mustClearBuffer e) (mustStopBuffering e) (resetPosition e)
    (gain e) (mix e) (feedback e) (rateSlew e) (nextLeftLoopStart e)
    (nextRightLoopStart e) (leftDirection e) (rightDirection e)
    (nextLeftLoopLength e) (nextRightLoopLength e) (nextLeftReadRate e)
    (nextRightReadRate e) (mustSetChannelWriteRate e) (nextWriteRate e)
    (leftTriggerMode e) (rightTriggerMode e) (mustStart e) (mustStop e)
    (mustRestart e) (stereoImage e) (dryLevel e) (filterType e)
    (loopers_LEFT e) (loopers_RIGHT e) (state_ e) (cf_ e)
    (feedbackFilter_ e) (outputFilter_ e) (sampleRate_ e) (freeze_ e)
    (filterValue_ e) (fadeIndex e) (calls_ e).
Definition set_mustClearBuffer (v : bool) (e : Engine) : Engine :=
  mkEngine (mustResetLooper e) v (mustStopBuffering e) (resetPosition e)
    (gain e) (mix e) (feedback e) (rateSlew e) (nextLeftLoopStart e)
    (nextRightLoopStart e) (leftDirection e) (rightDirection e)
    (nextLeftLoopLength e) (nextRightLoopLength e) (nextLeftReadRate e)
    (nextRightReadRate e) (mustSetChannelWriteRate e) (nextWriteRate e)
    (leftTriggerMode e) (rightTriggerMode e) (mustStart e) (mustStop e)
    (mustRestart e) (stereoImage e) (dryLevel e) (filterType e)
    (loopers_LEFT e) (loopers_RIGHT e) (state_ e) (cf_ e)
    (feedbackFilter_ e) (outputFilter_ e) (sampleRate_ e) (freeze_ e)
    (filterValue_ e) (fadeIndex e) (calls_ e).
Definition set_mustStopBuffering (v : bool) (e : Engine) : Engine :=
  mkEngine (mustResetLooper e) (mustClearBuffer e) v (resetPosition e)
    (gain e) (mix e) (feedback e) (rateSlew e) (nextLeftLoopStart e)
    (nextRightLoopStart e) (leftDirection e) (rightDirection e)
    (nextLeftLoopLength e) (nextRightLoopLength e) (nextLeftReadRate e)
    (nextRightReadRate e) (mustSetChannelWriteRate e) (nextWriteRate e)
    (leftTriggerMode e) (rightTriggerMode e) (mustStart e) (mustStop e)
    (mustRestart e) (stereoImage e) (dryLevel e) (filterType e)
    (loopers_LEFT e) (loopers_RIGHT e) (state_ e) (cf_ e)
    (feedbackFilter_ e) (outputFilter_ e) (sampleRate_ e) (freeze_ e)
    (filterValue_ e) (fadeIndex e) (calls_ e).
Definition set_resetPosition (v : bool) (e : Engine) : Engine :=
  mkEngine (mustResetLooper e) (mustClearBuffer e) (mustStopBuffering e) v
    (gain e) (mix e) (feedback e) (rateSlew e) (nextLeftLoopStart e)
    (nextRightLoopStart e) (leftDirection e) (rightDirection e)
    (nextLeftLoopLength e) (nextRightLoopLength e) (nextLeftReadRate e)
    (nextRightReadRate e) (mustSetChannelWriteRate e) (nextWriteRate e)
    (leftTriggerMode e) (rightTriggerMode e) (mustStart e) (mustStop e)
    (mustRestart e) (stereoImage e) (dryLevel e) (filterType e)
    (loopers_LEFT e) (loopers_RIGHT e) (state_ e) (cf_ e)
    (feedbackFilter_ e) (outputFilter_ e) (sampleRate_ e) (freeze_ e)
    (filterValue_ e) (fadeIndex e) (calls_ e).
Definition set_nextLeftLoopStart (v : Z) (e : Engine) : Engine :=
  mkEngine (mustResetLooper e) (mustClearBuffer e) (mustStopBuffering e)
    (resetPosition e) (gain e) (mix e) (feedback e) (rateSlew e) v
    (nextRightLoopStart e) (leftDirection e) (rightDirection e)
    (nextLeftLoopLength e) (nextRightLoopLength e) (nextLeftReadRate e)
    (nextRightReadRate e) (mustSetChannelWriteRate e) (nextWriteRate e)
    (leftTriggerMode e) (rightTriggerMode e) (mustStart e) (mustStop e)
    (mustRestart e) (stereoImage e) (dryLevel e) (filterType e)
    (loopers_LEFT e) (loopers_RIGHT e) (state_ e) (cf_ e)
    (feedbackFilter_ e) (outputFilter_ e) (sampleRate_ e) (freeze_ e)
    (filterValue_ e) (fadeIndex e) (calls_ e).
Definition set_nextRightLoopStart (v : Z) (e : Engine) : Engine :=
  mkEngine (mustResetLooper e) (mustClearBuffer e) (mustStopBuffering e)
    (resetPosition e) (gain e) (mix e) (feedback e) (rateSlew e)
    (nextLeftLoopStart e) v (leftDirection e) (rightDirection e)
    (nextLeftLoopLength e) (nextRightLoopLength e) (nextLeftReadRate e)
    (nextRightReadRate e) (mustSetChannelWriteRate e) (nextWriteRate e)
    (leftTriggerMode e) (rightTriggerMode e) (mustStart e) (mustStop e)
    (mustRestart e) (stereoImage e) (dryLevel e) (filterType e)
    (loopers_LEFT e) (loopers_RIGHT e) (state_ e) (cf_ e)
    (feedbackFilter_ e) (outputFilter_ e) (sampleRate_ e) (freeze_ e)
    (filterValue_ e) (fadeIndex e) (calls_ e).
Definition set_nextLeftLoopLength (v : Z) (e : Engine) : Engine :=
  mkEngine (mustResetLooper e) (mustClearBuffer e) (mustStopBuffering e)
    (resetPosition e) (gain e) (mix e) (feedback e) (rateSlew e)
    (nextLeftLoopStart e) (nextRightLoopStart e) (leftDirection e)
    (rightDirection e) v (nextRightLoopLength e) (nextLeftReadRate e)
    (nextRightReadRate e) (mustSetChannelWriteRate e) (nextWriteRate e)
    (leftTriggerMode e) (rightTriggerMode e) (mustStart e) (mustStop e)
    (mustRestart e) (stereoImage e) (dryLevel e) (filterType e)
    (loopers_LEFT e) (loopers_RIGHT e) (state_ e) (cf_ e)
    (feedbackFilter_ e) (outputFilter_ e) (sampleRate_ e) (freeze_ e)
    (filterValue_ e) (fadeIndex e) (calls_ e).
Definition set_nextRightLoopLength (v : Z) (e : Engine) : Engine :=
  mkEngine (mustResetLooper e) (mustClearBuffer e) (mustStopBuffering e)
    (resetPosition e) (gain e) (mix e) (feedback e) (rateSlew e)
    (nextLeftLoopStart e) (nextRightLoopStart e) (leftDirection e)
    (rightDirection e) (nextLeftLoopLength e) v (nextLeftReadRate e)
    (nextRightReadRate e) (mustSetChannelWriteRate e) (nextWriteRate e)
    (leftTriggerMode e) (rightTriggerMode e) (mustStart e) (mustStop e)
    (mustRestart e) (stereoImage e) (dryLevel e) (filterType e)
    (loopers_LEFT e) (loopers_RIGHT e) (state_ e) (cf_ e)
    (feedbackFilter_ e) (outputFilter_ e) (sampleRate_ e) (freeze_ e)
    (filterValue_ e) (fadeIndex e) (calls_ e).
Definition set_nextLeftReadRate (v : float) (e : Engine) : Engine :=
  mkEngine (mustResetLooper e) (mustClearBuffer e) (mustStopBuffering e)
    (resetPosition e) (gain e) (mix e) (feedback e) (rateSlew e)
    (nextLeftLoopStart e) (nextRightLoopStart e) (leftDirection e)
    (rightDirection e) (nextLeftLoopLength e) (nextRightLoopLength e) v
    (nextRightReadRate e) (mustSetChannelWriteRate e) (nextWriteRate e)
    (leftTriggerMode e) (rightTriggerMode e) (mustStart e) (mustStop e)
    (mustRestart e) (stereoImage e) (dryLevel e) (filterType e)
    (loopers_LEFT e) (loopers_RIGHT e) (state_ e) (cf_ e)
    (feedbackFilter_ e) (outputFilter_ e) (sampleRate_ e) (freeze_ e)
    (filterValue_ e) (fadeIndex e) (calls_ e).
Definition set_nextRightReadRate (v : float) (e : Engine) : Engine :=
  mkEngine (mustResetLooper e) (mustClearBuffer e) (mustStopBuffering e)
    (resetPosition e) (gain e) (mix e) (feedback e) (rateSlew e)
    (nextLeftLoopStart e) (nextRightLoopStart e) (leftDirection e)
    (rightDirection e) (nextLeftLoopLength e) (nextRightLoopLength e)
    (nextLeftReadRate e) v (mustSetChannelWriteRate e) (nextWriteRate e)
    (leftTriggerMode e) (rightTriggerMode e) (mustStart e) (mustStop e)
    (mustRestart e) (stereoImage e) (dryLevel e) (filterType e)
    (loopers_LEFT e) (loopers_RIGHT e) (state_ e) (cf_ e)
    (feedbackFilter_ e) (outputFilter_ e) (sampleRate_ e) (freeze_ e)
    (filterValue_ e) (fadeIndex e) (calls_ e).
Definition set_mustSetChannelWriteRate (v : Z) (e : Engine) : Engine :=
  mkEngine (mustResetLooper e) (mustClearBuffer e) (mustStopBuffering e)
    (resetPosition e) (gain e) (mix e) (feedback e) (rateSlew e)
    (nextLeftLoopStart e) (nextRightLoopStart e) (leftDirection e)
    (rightDirection e) (nextLeftLoopLength e) (nextRightLoopLength e)
    (nextLeftReadRate e) (nextRightReadRate e) v (nextWriteRate e)
    (leftTriggerMode e) (rightTriggerMode e) (mustStart e) (mustStop e)
    (mustRestart e) (stereoImage e) (dryLevel e) (filterType e)
    (loopers_LEFT e) (loopers_RIGHT e) (state_ e) (cf_ e)
    (feedbackFilter_ e) (outputFilter_ e) (sampleRate_ e) (freeze_ e)
    (filterValue_ e) (fadeIndex e) (calls_ e).
Definition set_nextWriteRate (v : float) (e : Engine) : Engine :=
  mkEngine (mustResetLooper e) (mustClearBuffer e) (mustStopBuffering e)
    (resetPosition e) (gain e) (mix e) (feedback e) (rateSlew e)
    (nextLeftLoopStart e) (nextRightLoopStart e) (leftDirection e)
    (rightDirection e) (nextLeftLoopLength e) (nextRightLoopLength e)
    (nextLeftReadRate e) (nextRightReadRate e) (mustSetChannelWriteRate e) v
    (leftTriggerMode e) (rightTriggerMode e) (mustStart e) (mustStop e)
    (mustRestart e) (stereoImage e) (dryLevel e) (filterType e)
    (loopers_LEFT e) (loopers_RIGHT e) (state_ e) (cf_ e)
    (feedbackFilter_ e) (outputFilter_ e) (sampleRate_ e) (freeze_ e)
    (filterValue_ e) (fadeIndex e) (calls_ e).
Definition set_leftTriggerMode (v : TriggerMode) (e : Engine) : Engine :=
  mkEngine (mustResetLooper e) (mustClearBuffer e) (mustStopBuffering e)
    (resetPosition e) (gain e) (mix e) (feedback e) (rateSlew e)
    (nextLeftLoopStart e) (nextRightLoopStart e) (leftDirection e)
    (rightDirection e) (nextLeftLoopLength e) (nextRightLoopLength e)
    (nextLeftReadRate e) (nextRightReadRate e) (mustSetChannelWriteRate e)
    (nextWriteRate e) v (rightTriggerMode e) (mustStart e) (mustStop e)
    (mustRestart e) (stereoImage e) (dryLevel e) (filterType e)
    (loopers_LEFT e) (loopers_RIGHT e) (state_ e) (cf_ e)
    (feedbackFilter_ e) (outputFilter_ e) (sampleRate_ e) (freeze_ e)
    (filterValue_ e) (fadeIndex e) (calls_ e).
Definition set_rightTriggerMode (v : TriggerMode) (e : Engine) : Engine :=
  mkEngine (mustResetLooper e) (mustClearBuffer e) (mustStopBuffering e)
    (resetPosition e) (gain e) (mix e) (feedback e) (rateSlew e)
    (nextLeftLoopStart e) (nextRightLoopStart e) (leftDirection e)
    (rightDirection e) (nextLeftLoopLength e) (nextRightLoopLength e)
    (nextLeftReadRate e) (nextRightReadRate e) (mustSetChannelWriteRate e)
    (nextWriteRate e) (leftTriggerMode e) v (mustStart e) (mustStop e)
    (mustRestart e) (stereoImage e) (dryLevel e) (filterType e)
    (loopers_LEFT e) (loopers_RIGHT e) (state_ e) (cf_ e)
    (feedbackFilter_ e) (outputFilter_ e) (sampleRate_ e) (freeze_ e)
    (filterValue_ e) (fadeIndex e) (calls_ e).
Definition set_mustStart (v : bool) (e : Engine) : Engine :=
  mkEngine (mustResetLooper e) (mustClearBuffer e) (mustStopBuffering e)
    (resetPosition e) (gain e) (mix e) (feedback e) (rateSlew e)
    (nextLeftLoopStart e) (nextRightLoopStart e) (leftDirection e)
    (rightDirection e) (nextLeftLoopLength e) (nextRightLoopLength e)
    (nextLeftReadRate e) (nextRightReadRate e) (mustSetChannelWriteRate e)
    (nextWriteRate e) (leftTriggerMode e) (rightTriggerMode e) v
    (mustStop e) (mustRestart e) (stereoImage e) (dryLevel e) (filterType e)
    (loopers_LEFT e) (loopers_RIGHT e) (state_ e) (cf_ e)
    (feedbackFilter_ e) (outputFilter_ e) (sampleRate_ e) (freeze_ e)
    (filterValue_ e) (fadeIndex e) (calls_ e).
Definition set_mustStop (v : bool) (e : Engine) : Engine :=
  mkEngine (mustResetLooper e) (mustClearBuffer e) (mustStopBuffering e)
    (resetPosition e) (gain e) (mix e) (feedback e) (rateSlew e)
    (nextLeftLoopStart e) (nextRightLoopStart e) (leftDirection e)
    (rightDirection e) (nextLeftLoopLength e) (nextRightLoopLength e)
    (nextLeftReadRate e) (nextRightReadRate e) (mustSetChannelWriteRate e)
    (nextWriteRate e) (leftTriggerMode e) (rightTriggerMode e) (mustStart e)
    v (mustRestart e) (stereoImage e) (dryLevel e) (filterType e)
    (loopers_LEFT e) (loopers_RIGHT e) (state_ e) (cf_ e)
    (feedbackFilter_ e) (outputFilter_ e) (sampleRate_ e) (freeze_ e)
    (filterValue_ e) (fadeIndex e) (calls_ e).
Definition set_mustRestart (v : bool) (e : Engine) : Engine :=
  mkEngine (mustResetLooper e) (mustClearBuffer e) (mustStopBuffering e)
    (resetPosition e) (gain e) (mix e) (feedback e) (rateSlew e)
    (nextLeftLoopStart e) (nextRightLoopStart e) (leftDirection e)
    (rightDirection e) (nextLeftLoopLength e) (nextRightLoopLength e)
    (nextLeftReadRate e) (nextRightReadRate e) (mustSetChannelWriteRate e)
    (nextWriteRate e) (leftTriggerMode e) (rightTriggerMode e) (mustStart e)
    (mustStop e) v (stereoImage e) (dryLevel e) (filterType e)
    (loopers_LEFT e) (loopers_RIGHT e) (state_ e) (cf_ e)
    (feedbackFilter_ e) (outputFilter_ e) (sampleRate_ e) (freeze_ e)
    (filterValue_ e) (fadeIndex e) (calls_ e).
Definition set_dryLevel (v : float) (e : Engine) : Engine :=
  mkEngine (mustResetLooper e) (mustClearBuffer e) (mustStopBuffering e)
    (resetPosition e) (gain e) (mix e) (feedback e) (rateSlew e)
    (nextLeftLoopStart e) (nextRightLoopStart e) (leftDirection e)
    (rightDirection e) (nextLeftLoopLength e) (nextRightLoopLength e)
    (nextLeftReadRate e) (nextRightReadRate e) (mustSetChannelWriteRate e)
    (nextWriteRate e) (leftTriggerMode e) (rightTriggerMode e) (mustStart e)
    (mustStop e) (mustRestart e) (stereoImage e) v (filterType e)
    (loopers_LEFT e) (loopers_RIGHT e) (state_ e) (cf_ e)
    (feedbackFilter_ e) (outputFilter_ e) (sampleRate_ e) (freeze_ e)
    (filterValue_ e) (fadeIndex e) (calls_ e).
Definition set_loopers_LEFT (v : L) (e : Engine) : Engine :=
  mkEngine (mustResetLooper e) (mustClearBuffer e) (mustStopBuffering e)
    (resetPosition e) (gain e) (mix e) (feedback e) (rateSlew e)
    (nextLeftLoopStart e) (nextRightLoopStart e) (leftDirection e)
    (rightDirection e) (nextLeftLoopLength e) (nextRightLoopLength e)
    (nextLeftReadRate e) (nextRightReadRate e) (mustSetChannelWriteRate e)
    (nextWriteRate e) (leftTriggerMode e) (rightTriggerMode e) (mustStart e)
    (mustStop e) (mustRestart e) (stereoImage e) (dryLevel e) (filterType e)
    v (loopers_RIGHT e) (state_ e) (cf_ e) (feedbackFilter_ e)
    (outputFilter_ e) (sampleRate_ e) (freeze_ e) (filterValue_ e)
    (fadeIndex e) (calls_ e).
Definition set_loopers_RIGHT (v : L) (e : Engine) : Engine :=
  mkEngine (mustResetLooper e) (mustClearBuffer e) (mustStopBuffering e)
    (resetPosition e) (gain e) (mix e) (feedback e) (rateSlew e)
    (nextLeftLoopStart e) (nextRightLoopStart e) (leftDirection e)
    (rightDirection e) (nextLeftLoopLength e) (nextRightLoopLength e)
    (nextLeftReadRate e) (nextRightReadRate e) (mustSetChannelWriteRate e)
    (nextWriteRate e) (leftTriggerMode e) (rightTriggerMode e) (mustStart e)
    (mustStop e) (mustRestart e) (stereoImage e) (dryLevel e) (filterType e)
    (loopers_LEFT e) v (state_ e) (cf_ e) (feedbackFilter_ e)
    (outputFilter_ e) (sampleRate_ e) (freeze_ e) (filterValue_ e)
    (fadeIndex e) (calls_ e).
Definition set_state_ (v : State) (e : Engine) : Engine :=
  mkEngine (mustResetLooper e) (mustClearBuffer e) (mustStopBuffering e)
    (resetPosition e) (gain e) (mix e) (feedback e) (rateSlew e)
    (nextLeftLoopStart e) (nextRightLoopStart e) (leftDirection e)
    (rightDirection e) (nextLeftLoopLength e) (nextRightLoopLength e)
    (nextLeftReadRate e) (nextRightReadRate e) (mustSetChannelWriteRate e)
    (nextWriteRate e) (leftTriggerMode e) (rightTriggerMode e) (mustStart e)
    (mustStop e) (mustRestart e) (stereoImage e) (dryLevel e) (filterType e)
    (loopers_LEFT e) (loopers_RIGHT e) v (cf_ e) (feedbackFilter_ e)
    (outputFilter_ e) (sampleRate_ e) (freeze_ e) (filterValue_ e)
    (fadeIndex e) (calls_ e).
Definition set_cf_ (v : CF) (e : Engine) : Engine :=
  mkEngine (mustResetLooper e) (mustClearBuffer e) (mustStopBuffering e)
    (resetPosition e) (gain e) (mix e) (feedback e) (rateSlew e)
    (nextLeftLoopStart e) (nextRightLoopStart e) (leftDirection e)
    (rightDirection e) (nextLeftLoopLength e) (nextRightLoopLength e)
    (nextLeftReadRate e) (nextRightReadRate e) (mustSetChannelWriteRate e)
    (nextWriteRate e) (leftTriggerMode e) (rightTriggerMode e) (mustStart e)
    (mustStop e) (mustRestart e) (stereoImage e) (dryLevel e) (filterType e)
    (loopers_LEFT e) (loopers_RIGHT e) (state_ e) v (feedbackFilter_ e)
    (outputFilter_ e) (sampleRate_ e) (freeze_ e) (filterValue_ e)
    (fadeIndex e) (calls_ e).
Definition set_feedbackFilter_ (v : SVF) (e : Engine) : Engine :=
  mkEngine (mustResetLooper e) (mustClearBuffer e) (mustStopBuffering e)
    (resetPosition e) (gain e) (mix e) (feedback e) (rateSlew e)
    (nextLeftLoopStart e) (nextRightLoopStart e) (leftDirection e)
    (rightDirection e) (nextLeftLoopLength e) (nextRightLoopLength e)
    (nextLeftReadRate e) (nextRightReadRate e) (mustSetChannelWriteRate e)
    (nextWriteRate e) (leftTriggerMode e) (rightTriggerMode e) (mustStart e)
    (mustStop e) (mustRestart e) (stereoImage e) (dryLevel e) (filterType e)
    (loopers_LEFT e) (loopers_RIGHT e) (state_ e) (cf_ e) v
    (outputFilter_ e) (sampleRate_ e) (freeze_ e) (filterValue_ e)
    (fadeIndex e) (calls_ e).
Definition set_outputFilter_ (v : SVF) (e : Engine) : Engine :=
  mkEngine (mustResetLooper e) (mustClearBuffer e) (mustStopBuffering e)
    (resetPosition e) (gain e) (mix e) (feedback e) (rateSlew e)
    (nextLeftLoopStart e) (nextRightLoopStart e) (leftDirection e)
    (rightDirection e) (nextLeftLoopLength e) (nextRightLoopLength e)
    (nextLeftReadRate e) (nextRightReadRate e) (mustSetChannelWriteRate e)
    (nextWriteRate e) (leftTriggerMode e) (rightTriggerMode e) (mustStart e)
    (mustStop e) (mustRestart e) (stereoImage e) (dryLevel e) (filterType e)
    (loopers_LEFT e) (loopers_RIGHT e) (state_ e) (cf_ e)
    (feedbackFilter_ e) v (sampleRate_ e) (freeze_ e) (filterValue_ e)
    (fadeIndex e) (calls_ e).
Definition set_fadeIndex (v : Z) (e : Engine) : Engine :=
  mkEngine (mustResetLooper e) (mustClearBuffer e) (mustStopBuffering e)
    (resetPosition e) (gain e) (mix e) (feedback e) (rateSlew e)
    (nextLeftLoopStart e) (nextRightLoopStart e) (leftDirection e)
    (rightDirection e) (nextLeftLoopLength e) (nextRightLoopLength e)
    (nextLeftReadRate e) (nextRightReadRate e) (mustSetChannelWriteRate e)
    (nextWriteRate e) (leftTriggerMode e) (rightTriggerMode e) (mustStart e)
    (mustStop e) (mustRestart e) (stereoImage e) (dryLevel e) (filterType e)
    (loopers_LEFT e) (loopers_RIGHT e) (state_ e) (cf_ e)
    (feedbackFilter_ e) (outputFilter_ e) (sampleRate_ e) (freeze_ e)
    (filterValue_ e) v (calls_ e).
Definition set_calls_ (v : list Invocation) (e : Engine) : Engine :=
  mkEngine (mustResetLooper e) (mustClearBuffer e) (mustStopBuffering e)
    (resetPosition e) (gain e) (mix e) (feedback e) (rateSlew e)
    (nextLeftLoopStart e) (nextRightLoopStart e) (leftDirection e)
    (rightDirection e) (nextLeftLoopLength e) (nextRightLoopLength e)
    (nextLeftReadRate e) (nextRightReadRate e) (mustSetChannelWriteRate e)
    (nextWriteRate e) (leftTriggerMode e) (rightTriggerMode e) (mustStart e)
    (mustStop e) (mustRestart e) (stereoImage e) (dryLevel e) (filterType e)
    (loopers_LEFT e) (loopers_RIGHT e) (state_ e) (cf_ e)
    (feedbackFilter_ e) (outputFilter_ e) (sampleRate_ e) (freeze_ e)
    (filterValue_ e) (fadeIndex e) v.

Local Open Scope state_scope.

(** The engine itself, to read its members, and an assignment to one. *)
Definition this : ST Engine Engine := fun e => (e, e).

Definition assign (f : Engine -> Engine) : ST Engine unit :=
  fun e => (tt, f e).

(** [loopers_[LEFT].call(...)] and [loopers_[RIGHT].call(...)]. *)
Definition on_left {R : Type} (c : LooperCall R) : ST Engine R :=
  fun e =>
    let r := looper_call R c (loopers_LEFT e) in
    let e := set_loopers_LEFT (snd r) e in
    (fst r, set_calls_ (calls_ e ++ [Invoked LEFT R c (fst r)]) e).

Definition on_right {R : Type} (c : LooperCall R) : ST Engine R :=
  fun e =>
    let r := looper_call R c (loopers_RIGHT e) in
    let e := set_loopers_RIGHT (snd r) e in
    (fst r, set_calls_ (calls_ e ++ [Invoked RIGHT R c (fst r)]) e).

Definition IsFrozen (e : Engine) : bool :=
  match state_ e with
  | FROZEN => true
  | _ => false
  end.

Definition SetTriggerMode (mode : TriggerMode) : ST Engine unit :=
  assign (set_leftTriggerMode mode) ;;;
  assign (set_rightTriggerMode mode) ;;;
  match mode with
  | GATE =>
      assign (set_dryLevel F32.zero) ;;;
      assign (set_resetPosition false) ;;;
      assign (set_mustRestart true)
  | TRIGGER =>
      assign (set_dryLevel F32.one) ;;;
      assign (set_resetPosition true) ;;;
      assign (set_mustStop true)
  | LOOP =>
      assign (set_dryLevel F32.one) ;;;
      assign (set_resetPosition true) ;;;
      assign (set_mustStart true)
  end.

Definition SetWriteRate (channel : Z) (rate : float) : ST Engine unit :=
  assign (set_mustSetChannelWriteRate channel) ;;;
  assign (set_nextWriteRate rate).

Definition Start : ST Engine unit := assign (set_state_ RECORDING).

Definition Reset : ST Engine unit :=
  on_left Looper_Reset ;;;
  on_right Looper_Reset.

Definition Mix (a b : float) : float := SoftClip (F32.add a b).

(** [Filter(filter, value)], where [filter] points to one of the engine's two
    filters, given here by how that member is read and assigned. *)
Definition Filter (filter : Engine -> SVF)
  (set_filter : SVF -> Engine -> Engine) (value : float)
  : ST Engine float :=
  e <- this ;;
  assign (set_filter (svf_Process value (filter e))) ;;;
  e <- this ;;
  ret (match filterType e with
       | BP => svf_Band (filter e)
       | HP => svf_High (filter e)
       | LP => svf_Low (filter e)
       end).

Definition UpdateParameters : ST Engine unit :=
  e <- this ;;
  mode <- on_left Looper_GetTriggerMode ;;
  (if negb (TriggerMode_eqb (leftTriggerMode e) mode)
   then on_left (Looper_SetTriggerMode (leftTriggerMode e))
   else ret tt) ;;;
  mode <- on_right Looper_GetTriggerMode ;;
  (if negb (TriggerMode_eqb (rightTriggerMode e) mode)
   then on_right (Looper_SetTriggerMode (rightTriggerMode e))
   else ret tt) ;;;

  direction <- on_left Looper_GetDirection ;;
  (if negb (Head.Direction_eqb (leftDirection e) direction)
   then on_left (Looper_SetDirection (leftDirection e))
   else ret tt) ;;;
  direction <- on_right Looper_GetDirection ;;
  (if negb (Head.Direction_eqb (rightDirection e) direction)
   then on_right (Looper_SetDirection (rightDirection e))
   else ret tt) ;;;

  length <- on_left Looper_GetLoopLength ;;
  let leftLoopLength := F32.of_int length in
  (if F32.neqb leftLoopLength (F32.of_int (nextLeftLoopLength e))
   then
     let leftLoopLength :=
       fonepole leftLoopLength (F32.of_int (nextLeftLoopLength e))
                kParamSlewCoeff in
     on_left (Looper_SetLoopLength leftLoopLength)
   else ret tt) ;;;
  length <- on_right Looper_GetLoopLength ;;
  let rightLoopLength := F32.of_int length in
  (if F32.neqb rightLoopLength (F32.of_int (nextRightLoopLength e))
   then
     let rightLoopLength :=
       fonepole rightLoopLength (F32.of_int (nextRightLoopLength e))
                kParamSlewCoeff in
     on_right (Looper_SetLoopLength rightLoopLength)
   else ret tt) ;;;

  start <- on_left Looper_GetLoopStart ;;
  let leftLoopStart := F32.of_int start in
  (if F32.neqb leftLoopStart (F32.of_int (nextLeftLoopStart e))
   then
     let leftLoopStart :=
       fonepole leftLoopStart (F32.of_int (nextLeftLoopStart e))
                kParamSlewCoeff in
     on_left (Looper_SetLoopStart leftLoopStart)
   else ret tt) ;;;
  start <- on_right Looper_GetLoopStart ;;
  let rightLoopStart := F32.of_int start in
  (if F32.neqb rightLoopStart (F32.of_int (nextRightLoopStart e))
   then
     let rightLoopStart :=
       fonepole rightLoopStart (F32.of_int (nextRightLoopStart e))
                kParamSlewCoeff in
     on_right (Looper_SetLoopStart rightLoopStart)
   else ret tt) ;;;

  leftReadRate <- on_left Looper_GetReadRate ;;
  (if F32.neqb leftReadRate (nextLeftReadRate e)
   then
     let leftReadRate :=
       fonepole leftReadRate (nextLeftReadRate e) (rateSlew e) in
     on_left (Looper_SetReadRate leftReadRate)
   else ret tt) ;;;
  rightReadRate <- on_right Looper_GetReadRate ;;
  (if F32.neqb rightReadRate (nextRightReadRate e)
   then
     let rightReadRate :=
       fonepole rightReadRate (nextRightReadRate e) (rateSlew e) in
     on_right (Looper_SetReadRate rightReadRate)
   else ret tt).

Definition Process (leftIn rightIn : float) : ST Engine (float * float) :=
  e <- this ;;
  (* Input gain stage. *)
  let leftDry := SoftClip (F32.mul leftIn (gain e)) in
  let rightDry := SoftClip (F32.mul rightIn (gain e)) in

  let leftWet := F32.zero in
  let rightWet := F32.zero in

  r <- match state_ e with
       | STARTUP =>
           (if fadeIndex e >? sampleRate_ e then
              assign (set_fadeIndex 0) ;;;
              assign (set_state_ BUFFERING)
            else ret tt) ;;;
           e <- this ;;
           assign (set_fadeIndex (Int32.add (fadeIndex e) 1)) ;;;
           ret (leftDry, rightDry, leftWet, rightWet)
       | BUFFERING =>
           doneLeft <- on_left (Looper_Buffer leftDry) ;;
           doneRight <- on_right (Looper_Buffer rightDry) ;;
           (if (doneLeft && doneRight) || mustStopBuffering e then
              assign (set_mustStopBuffering false) ;;;
              on_left Looper_StopBuffering ;;;
              on_right Looper_StopBuffering ;;;
              assign (set_state_ READY)
            else ret tt) ;;;
           (* Pass the audio through. *)
           ret (leftDry, rightDry, leftDry, rightDry)
       | READY =>
           length <- on_left Looper_GetLoopLength ;;
           assign (set_nextLeftLoopLength length) ;;;
           length <- on_right Looper_GetLoopLength ;;
           assign (set_nextRightLoopLength length) ;;;
           start <- on_left Looper_GetLoopStart ;;
           assign (set_nextLeftLoopStart start) ;;;
           start <- on_right Looper_GetLoopStart ;;
           assign (set_nextRightLoopStart start) ;;;
           assign (set_nextLeftReadRate F32.one) ;;;
           assign (set_nextRightReadRate F32.one) ;;;
           ret (leftDry, rightDry, leftWet, rightWet)
       | RECORDING | FROZEN =>
           UpdateParameters ;;;

           e <- this ;;
           let leftDry := F32.mul leftDry (dryLevel e) in
           let rightDry := F32.mul rightDry (dryLevel e) in

           (if mustClearBuffer e then
              assign (set_mustClearBuffer false) ;;;
              on_left Looper_ClearBuffer ;;;
              on_right Looper_ClearBuffer
            else ret tt) ;;;

           e <- this ;;
           (if mustResetLooper e then
              assign (set_mustResetLooper false) ;;;
              on_left (Looper_Stop true) ;;;
              on_right (Looper_Stop true) ;;;
              Reset ;;;
              assign (set_state_ BUFFERING)
            else ret tt) ;;;

           e <- this ;;
           (if mustRestart e then
              on_left Looper_Trigger ;;;
              on_right Looper_Trigger ;;;
              assign (set_mustRestart false)
            else ret tt) ;;;

           e <- this ;;
           (if mustStart e then
              doneLeft <- on_left (Looper_Start false) ;;
              doneRight <- on_right (Looper_Start false) ;;
              if doneLeft && doneRight
              then assign (set_mustStart false)
              else ret tt
            else ret tt) ;;;

           e <- this ;;
           (if mustStop e then
              doneLeft <- on_left (Looper_Stop false) ;;
              doneRight <- on_right (Looper_Stop false) ;;
              if doneLeft && doneRight
              then assign (set_mustStop false)
              else ret tt
            else ret tt) ;;;

           leftWet <- on_left (Looper_Read leftDry) ;;
           rightWet <- on_right (Looper_Read rightDry) ;;

           e <- this ;;
           let leftFeedback := F32.mul leftWet (feedback e) in
           let rightFeedback := F32.mul rightWet (feedback e) in
           r <- (if F32.leb (F32.of_int 20) (filterValue_ e) then
                   wet <- (if F32.gtb (freeze_ e) F32.zero then
                             out <- Filter outputFilter_ set_outputFilter_
                                           leftWet ;;
                             let leftWet :=
                               Mix leftWet (F32.mul out (freeze_ e)) in
                             out <- Filter outputFilter_ set_outputFilter_
                                           rightWet ;;
                             let rightWet :=
                               Mix rightWet (F32.mul out (freeze_ e)) in
                             ret (leftWet, rightWet)
                           else ret (leftWet, rightWet)) ;;
                   if F32.ltb (freeze_ e) F32.one then
                     out <- Filter feedbackFilter_ set_feedbackFilter_
                                   leftDry ;;
                     let leftFeedback :=
                       Mix leftFeedback
                           (F32.mul out (F32.sub F32.one (freeze_ e))) in
                     out <- Filter feedbackFilter_ set_feedbackFilter_
                                   rightDry ;;
                     let rightFeedback :=
                       Mix rightFeedback
                           (F32.mul out (F32.sub F32.one (freeze_ e))) in
                     ret (wet, leftFeedback, rightFeedback)
                   else ret (wet, leftFeedback, rightFeedback)
                 else ret ((leftWet, rightWet), leftFeedback, rightFeedback)) ;;
           let '(leftWet, rightWet, leftFeedback, rightFeedback) := r in

           on_left (Looper_Write (Mix leftDry leftFeedback)) ;;;
           on_right (Looper_Write (Mix rightDry rightFeedback)) ;;;

           on_left Looper_UpdateReadPos ;;;
           on_right Looper_UpdateReadPos ;;;

           on_left Looper_UpdateWritePos ;;;
           on_right Looper_UpdateWritePos ;;;

           on_left Looper_HandleFade ;;;
           on_right Looper_HandleFade ;;;
           ret (leftDry, rightDry, leftWet, rightWet)
       end ;;
  let '(leftDry, rightDry, leftWet, rightWet) := r in

  e <- this ;;
  let stereoLeft :=
    F32.add (F32.mul leftWet (stereoImage e))
            (F32.mul rightWet (F32.sub F32.one (stereoImage e))) in
  let stereoRight :=
    F32.add (F32.mul rightWet (stereoImage e))
            (F32.mul leftWet (F32.sub F32.one (stereoImage e))) in

  assign (set_cf_ (cf_SetPos (fclamp (mix e) F32.zero F32.one) (cf_ e))) ;;;
  e <- this ;;
  let r := cf_Process leftDry stereoLeft (cf_ e) in
  let leftOut := fst r in
  assign (set_cf_ (snd r)) ;;;
  e <- this ;;
  let r := cf_Process rightDry stereoRight (cf_ e) in
  let rightOut := fst r in
  assign (set_cf_ (snd r)) ;;;
  ret (leftOut, rightOut).

Local Close Scope state_scope.

End Engine.

Arguments Engine : clear implicits.

End StereoLooper.

(** ** Notions used in the statements about the cursor *)

Module HeadSpec.

Import Head.

(** The members that repositioning a cursor leaves alone. *)
Definition same_control (h h' : Head) : Prop :=
  type_ h' = type_ h
  /\ maxBufferSamples_ h' = maxBufferSamples_ h
  /\ bufferSamples_ h' = bufferSamples_ h
  /\ loopStart_ h' = loopStart_ h
  /\ loopEnd_ h' = loopEnd_ h
  /\ loopLength_ h' = loopLength_ h
  /\ direction_ h' = direction_ h
  /\ run_ h' = run_ h
  /\ looping_ h' = looping_ h
  /\ mustFade_ h' = mustFade_ h
  /\ fadeIndex_ h' = fadeIndex_ h
  /\ snapshotValue_ h' = snapshotValue_ h
  /\ isStopping_ h' = isStopping_ h.

Definition same_extent (h h' : Head) : Prop :=
  loopStart_ h' = loopStart_ h /\ bufferSamples_ h' = bufferSamples_ h.

(** The invariant [0 <= loopStart < bufferedLength]. *)
Definition loopStart_valid (h : Head) : Prop :=
  0 <= loopStart_ h < bufferSamples_ h.

(** The geometry of the data model: the buffered length is an [int32_t],
    and the loop starts and ends inside the buffered region. *)
Definition geometry_valid (h : Head) : Prop :=
  bufferSamples_ h <= Int32.max_signed
  /\ 0 <= loopStart_ h < bufferSamples_ h
  /\ 0 <= loopEnd_ h < bufferSamples_ h.

(** The active loop region: from [loopStart] to [loopEnd], through the
    physical end of the buffer when [loopEnd] comes before [loopStart]. *)
Definition in_loop_region (h : Head) (index : Z) : Prop :=
  (loopStart_ h <= loopEnd_ h /\ loopStart_ h <= index <= loopEnd_ h)
  \/ (loopEnd_ h < loopStart_ h
      /\ (0 <= index <= loopEnd_ h
          \/ loopStart_ h <= index <= bufferSamples_ h - 1)).

(** The public calls that assign [bufferSamples_]. *)
Definition sets_bufferSamples (c : Call) : bool :=
  match c with
  | CBuffer _ | CInitBuffer _ => true
  | _ => false
  end.

(** The position a cursor moves to when it is advanced. *)
Definition advanced (h : Head) : float :=
  F32.add (index_ h) (F32.mul (rate_ h) (F32.of_int (direction_ h))).

(** Where [ResetPosition] puts a cursor: the start of the loop in its
    direction of travel. *)
Definition natural_start (h : Head) : Z :=
  if Direction_eqb FORWARD (direction_ h) then loopStart_ h else loopEnd_ h.

(** A cursor over a fully captured 48000-sample buffer, with the given loop
    and placed at the given index, set up through the public calls. *)
Definition cursor_at (type : HeadType) (movement : Movement)
  (start length index : Z) : Head :=
  let h := Init 48000 (new type) in
  let h := InitBuffer 48000 h in
  let h := snd (SetLoopStart start h) in
  let h := snd (SetLoopLength length h) in
  let h := SetMovement movement h in
  SetIndex (F32.of_int index) h.

(** The cursor of the scenarios: [loopStart = 1000], [loopLength = 500], at
    index 1499. *)
Definition scenario (type : HeadType) (movement : Movement) : Head :=
  cursor_at type movement 1000 500 1499.

(** The cursor of the inverted scenario: [loopStart = 47500],
    [loopLength = 1000], at index 47999. *)
Definition inverted_scenario (type : HeadType) (movement : Movement) : Head :=
  cursor_at type movement 47500 1000 47999.

(** A cursor over the largest buffer an [int32_t] length can describe, with
    the loop starting at its last sample. *)
Definition overflowing : Head :=
  let h := Init Int32.max_signed (new READ) in
  let h := InitBuffer Int32.max_signed h in
  snd (SetLoopStart (Int32.max_signed - 1) h).

(** [n] consecutive calls of [Buffer(value)]. *)
Definition buffer_calls (value : float) (n : nat) : list Call :=
  repeat (CBuffer value) n.

(** The indices [i, i+1, ..., i+n-1]. *)
Definition indices (i : Z) (n : nat) : list Z :=
  map (fun k => i + Z.of_nat k) (seq 0 n).

End HeadSpec.

(** ** Notions used in the statements about the engine *)

Module EngineSpec.

Import StereoLooper.

Section Logic.

Context {L CF SVF : Type}.

(** [c], started in a state where [P] holds, returns a value and ends in a
    state that [Q] relates. *)
Definition hoare {A : Type} (P : Engine L CF SVF -> Prop)
  (c : ST (Engine L CF SVF) A) (Q : A -> Engine L CF SVF -> Prop) : Prop :=
  forall e, P e -> Q (fst (c e)) (snd (c e)).

(** [c] leaves the member [F] alone and only adds to the list of calls. *)
Definition quiet {A X : Type} (F : Engine L CF SVF -> X)
  (c : ST (Engine L CF SVF) A) : Prop :=
  forall e,
    F (snd (c e)) = F e /\ exists l, calls_ (snd (c e)) = calls_ e ++ l.

(** A property of a member and of the list of calls that further calls do
    not invalidate. *)
Definition lasting {X : Type} (J : X -> list Invocation -> Prop) : Prop :=
  forall v l l', J v l -> J v (l ++ l').

(** The list of calls [l] extends [l0]. *)
Definition extends (l0 l : list Invocation) : Prop :=
  exists a, l = l0 ++ a.

(** The call [x] is in [l], after the calls of [l0]. *)
Definition made (l0 l : list Invocation) (x : Invocation) : Prop :=
  exists a b, l = l0 ++ a ++ x :: b.

(** The call [c] is made on both channel loopers in [l], after [l0]. *)
Definition applied_in {R : Type} (l0 l : list Invocation) (c : LooperCall R)
  : Prop :=
  (exists r, made l0 l (Invoked LEFT R c r))
  /\ (exists r, made l0 l (Invoked RIGHT R c r)).

(** The call [c] is made on both channel loopers in [l], after [l0], and
    both reported completion exactly when [done] is true. *)
Definition reported_in (l0 l : list Invocation) (c : LooperCall bool)
  (done : bool) : Prop :=
  exists doneLeft doneRight,
    made l0 l (Invoked LEFT bool c doneLeft)
    /\ made l0 l (Invoked RIGHT bool c doneRight)
    /\ done = doneLeft && doneRight.

(** The same, between the states [e] and [e'] of the engine. *)
Definition applied {R : Type} (e e' : Engine L CF SVF) (c : LooperCall R)
  : Prop :=
  applied_in (calls_ e) (calls_ e') c.

Definition reported (e e' : Engine L CF SVF) (c : LooperCall bool)
  (done : bool) : Prop :=
  reported_in (calls_ e) (calls_ e') c done.

(** The states in which [Process] runs the looper. *)
Definition running (e : Engine L CF SVF) : Prop :=
  state_ e = RECORDING \/ state_ e = FROZEN.

End Logic.

(** A channel looper without audio, whose calls never report completion. *)
Definition idle_call (R : Type) (c : LooperCall R) (l : unit) : R * unit :=
  (match c in LooperCall R return R with
   | Looper_Buffer _ => false
   | Looper_StopBuffering => tt
   | Looper_ClearBuffer => tt
   | Looper_Reset => tt
   | Looper_Start _ => false
   | Looper_Stop _ => false
   | Looper_Trigger => tt
   | Looper_Read _ => F32.zero
   | Looper_Write _ => tt
   | Looper_UpdateReadPos => tt
   | Looper_UpdateWritePos => tt
   | Looper_HandleFade => false
   | Looper_GetTriggerMode => LOOP
   | Looper_SetTriggerMode _ => tt
   | Looper_GetDirection => Head.FORWARD
   | Looper_SetDirection _ => tt
   | Looper_GetLoopLength => 0
   | Looper_SetLoopLength _ => tt
   | Looper_GetLoopStart => 0
   | Looper_SetLoopStart _ => tt
   | Looper_GetReadRate => F32.one
   | Looper_SetReadRate _ => tt
   end, l).

Definition Idle : LooperImpl unit := idle_call.

(** Collaborators that pass the signal through: no clipping, no smoothing,
    the dry signal at the output, silent filters. *)
Definition Bypass : DaisySP unit unit :=
  {| SoftClip := fun x => x;
     fonepole := fun out x coeff => x;
     fclamp := fun x lo hi => F32.min (F32.max x lo) hi;
     cf_SetPos := fun pos c => c;
     cf_Process := fun a b c => (a, c);
     svf_Process := fun x f => f;
     svf_Low := fun f => F32.zero;
     svf_Band := fun f => F32.zero;
     svf_High := fun f => F32.zero |}.

(** The engine over these, with the default member initializers of the
    source, after [Start()]. *)
Definition started : Engine unit unit unit :=
  let half := binary_normalize F32.prec F32.emax 1 (-1) false in
  let e := mkEngine false false false true
             F32.one half F32.zero F32.one
             0 0 0 0 0 0 F32.zero F32.zero
             NONE F32.zero LOOP LOOP
             false false false
             F32.one F32.one BP
             tt tt STARTUP tt tt tt
             0 F32.zero F32.zero 0 [] in
  snd (@Start unit unit unit e).

End EngineSpec.

(** ** Notions used in the statements about binary32 *)

Module F32Spec.

(** The integer [z] is exactly representable in binary32: converting it to
    [float] and back gives [z] again. *)
Definition exact_in_binary32 (z : Z) : Prop :=
  F32.floor_to_int32 (F32.of_int z) = z.

End F32Spec.

(** ** Further notions about the cursor *)

Module CursorSpec.

Import Head.

(** An index of the buffered region. *)
Definition buffered (h : Head) (i : Z) : Prop := 0 <= i < bufferSamples_ h.

(** The cursor travels in one of the two directions. *)
Definition directed (h : Head) : Prop :=
  direction_ h = FORWARD \/ direction_ h = BACKWARDS.

(** The public calls that store into the buffer. *)
Definition stores (c : Call) : bool :=
  match c with
  | CWrite _ | CBuffer _ | CClearBuffer => true
  | _ => false
  end.

(** The initial capture of [n] samples of value [value] into a buffer of
    [capacity] samples, ended by [StopBuffering]. *)
Definition capture (capacity : Z) (value : float) (n : nat) : list Call :=
  CInit capacity :: HeadSpec.buffer_calls value n ++ [CStopBuffering].

(** A capture that fills a buffer of [capacity] samples, then a Reset and
    [k] more calls of Buffer. *)
Definition recapture (capacity : Z) (value : float) (k : nat) : list Call :=
  CInit capacity
    :: HeadSpec.buffer_calls value (Z.to_nat capacity)
    ++ CReset :: HeadSpec.buffer_calls value k.

(** A sequence of calls none of which stores into the buffer. *)
Definition reading (cs : list Call) : bool :=
  forallb (fun c => negb (stores c)) cs.

(** The cursor sits on a sample of its active loop region: its integer
    position is the floor of its position, and lies in the region. *)
Definition on_loop (h : Head) : Prop :=
  intIndex_ h = F32.floor_to_int32 (index_ h)
  /\ HeadSpec.in_loop_region h (intIndex_ h).

End CursorSpec.

(** ** [stereo_looper.h]: freezing *)

Module Freeze.

Import StereoLooper.

(** [Looper::SetWriting], which [SetFreeze] calls on both channel loopers;
    [Process] never calls it, and it is not recorded in [calls_]. *)
Class LooperWriting (L : Type) : Type :=
  looper_SetWriting : float -> L -> L.

Section Freeze.

Context {L CF SVF : Type} {looper : LooperImpl L}
  {writing : LooperWriting L} {dsp : DaisySP CF SVF}.

Definition set_freeze_ (v : float) (e : Engine L CF SVF) : Engine L CF SVF :=
  mkEngine (mustResetLooper e) (mustClearBuffer e) (mustStopBuffering e)
    (resetPosition e) (gain e) (mix e) (feedback e) (rateSlew e)
    (nextLeftLoopStart e) (nextRightLoopStart e) (leftDirection e)
    (rightDirection e) (nextLeftLoopLength e) (nextRightLoopLength e)
    (nextLeftReadRate e) (nextRightReadRate e) (mustSetChannelWriteRate e)
    (nextWriteRate e) (leftTriggerMode e) (rightTriggerMode e) (mustStart e)
    (mustStop e) (mustRestart e) (stereoImage e) (dryLevel e) (filterType e)
    (loopers_LEFT e) (loopers_RIGHT e) (state_ e) (cf_ e)
    (feedbackFilter_ e) (outputFilter_ e) (sampleRate_ e) v
    (filterValue_ e) (fadeIndex e) (calls_ e).

(** The literal [0.5f]. *)
Definition half : float := binary_normalize F32.prec F32.emax 1 (-1) false.

Local Open Scope state_scope.

Definition SetFreeze (value : float) : ST (Engine L CF SVF) unit :=
  e <- this ;;
  (if F32.ltb value half && IsFrozen e then
     assign (set_state_ RECORDING)
   else if F32.leb half value && negb (IsFrozen e) then
     assign (set_state_ FROZEN)
   else ret tt) ;;;
  assign (fun e =>
            set_loopers_LEFT (looper_SetWriting value (loopers_LEFT e)) e) ;;;
  assign (fun e =>
            set_loopers_RIGHT (looper_SetWriting value (loopers_RIGHT e))
              e) ;;;
  assign (set_freeze_ value).

(** [SetFreeze(!frozen)]: the [bool] converts to [1.f] or [0.f]. *)
Definition ToggleFreeze : ST (Engine L CF SVF) unit :=
  e <- this ;;
  let frozen := IsFrozen e in
  SetFreeze (if negb frozen then F32.one else F32.zero).

Local Close Scope state_scope.

End Freeze.

End Freeze.

(** ** Further notions about the engine *)

Module EngineRun.

Import StereoLooper.

Section Run.

Context {L CF SVF : Type} {looper : LooperImpl L} {dsp : DaisySP CF SVF}.

(** The engine after [Process] has been called once for each frame of
    [inputs], in order, as the audio callback does. *)
Fixpoint process_all (inputs : list (float * float)) (e : Engine L CF SVF)
  : Engine L CF SVF :=
  match inputs with
  | [] => e
  | (leftIn, rightIn) :: rest =>
      process_all rest (snd (Process leftIn rightIn e))
  end.

(** The request flags of the engine. *)
Definition requests (e : Engine L CF SVF) : list bool :=
  [mustClearBuffer e; mustResetLooper e; mustStopBuffering e;
   mustRestart e; mustStart e; mustStop e].


End Run.

(** The engine of [EngineSpec.started] before [Start()], in the given state
    and with the given sample rate. *)
Definition powered (state : State) (sampleRate : Z) : Engine unit unit unit :=
  let e := EngineSpec.started in
  mkEngine (mustResetLooper e) (mustClearBuffer e) (mustStopBuffering e)
    (resetPosition e) (gain e) (mix e) (feedback e) (rateSlew e)
    (nextLeftLoopStart e) (nextRightLoopStart e) (leftDirection e)
    (rightDirection e) (nextLeftLoopLength e) (nextRightLoopLength e)
    (nextLeftReadRate e) (nextRightReadRate e) (mustSetChannelWriteRate e)
    (nextWriteRate e) (leftTriggerMode e) (rightTriggerMode e) (mustStart e)
    (mustStop e) (mustRestart e) (stereoImage e) (dryLevel e) (filterType e)
    (loopers_LEFT e) (loopers_RIGHT e) state (cf_ e)
    (feedbackFilter_ e) (outputFilter_ e) sampleRate (freeze_ e)
    (filterValue_ e) (fadeIndex e) (calls_ e).

End EngineRun.

(** * Properties *)

(** ** 32-bit arithmetic *)

Lemma wrap32_id (z : Z) : Int32.in_range z -> Int32.wrap32 z = z.
Proof.
  unfold Int32.in_range, Int32.min_signed, Int32.max_signed, Int32.wrap32.
  intros Hz. rewrite Z.mod_small by lia. lia.
Qed.

Lemma add32_exact (a b : Z) : Int32.in_range (a + b) -> Int32.add a b = a + b.
Proof. apply wrap32_id. Qed.

Lemma sub32_exact (a b : Z) : Int32.in_range (a - b) -> Int32.sub a b = a - b.
Proof. apply wrap32_id. Qed.

(** Proves that an expression over hypotheses in range is in range. *)
Ltac in_range :=
  unfold Int32.in_range, Int32.min_signed, Int32.max_signed in *; lia.

(** ** Integers that binary32 represents exactly *)

Section ExactIntegers.

Lemma digits2_pos_below (p : positive) :
  forall k : Z, 0 <= k -> Z.pos p < 2 ^ k -> Z.pos (digits2_pos p) <= k.
Proof.
  induction p as [p IH | p IH | ]; intros k Hk Hp; cbn [digits2_pos].
  - assert (Hk1 : 1 <= k)
      by (destruct (Z.eq_dec k 0) as [-> | ]; [cbn in Hp; lia | lia]).
    replace k with (Z.succ (k - 1)) in Hp by lia.
    rewrite Z.pow_succ_r in Hp by lia.
    specialize (IH (k - 1)). lia.
  - assert (Hk1 : 1 <= k)
      by (destruct (Z.eq_dec k 0) as [-> | ]; [cbn in Hp; lia | lia]).
    replace k with (Z.succ (k - 1)) in Hp by lia.
    rewrite Z.pow_succ_r in Hp by lia.
    specialize (IH (k - 1)). lia.
  - destruct (Z.eq_dec k 0) as [-> | ]; [cbn in Hp; lia | lia].
Qed.

(** A positive number below 2^24 has at most 24 binary digits. *)
Lemma digits2_pos_small (p : positive) :
  Z.pos p < 2 ^ 24 -> 1 <= Z.pos (digits2_pos p) <= 24.
Proof.
  intros Hp. split; [lia | apply digits2_pos_below; [lia | exact Hp]].
Qed.

Lemma iter_xO_mul (p k : positive) :
  Z.pos (Pos.iter xO p k) = Z.pos p * 2 ^ Z.pos k.
Proof.
  induction k as [ | k IH] using Pos.peano_ind.
  - cbn [Pos.iter]. change (2 ^ 1) with 2. lia.
  - rewrite Pos.iter_succ, Pos2Z.inj_succ, Z.pow_succ_r by lia.
    rewrite Pos2Z.inj_xO, IH. lia.
Qed.

Lemma iter_xO_digits (p k : positive) :
  Z.pos (digits2_pos (Pos.iter xO p k)) = Z.pos (digits2_pos p) + Z.pos k.
Proof.
  induction k as [ | k IH] using Pos.peano_ind.
  - cbn. lia.
  - rewrite Pos.iter_succ. cbn [digits2_pos]. lia.
Qed.

(** A number of 24 digits, with an exponent that its magnitude asks for,
    is kept by rounding. *)
Lemma binary_round_aux_24 (s : bool) (m : positive) (e : Z) :
  Z.pos (digits2_pos m) = 24 ->
  -149 <= e <= 104 ->
  binary_round_aux F32.prec F32.emax s (Z.pos m) e loc_Exact
  = S754_finite s m e.
Proof.
  intros Hd He.
  unfold binary_round_aux, shr_fexp, shr_record_of_loc, Zdigits2, fexp, emin,
    F32.prec, F32.emax.
  rewrite Hd.
  replace (Z.max (24 + e - 24) (3 - 128 - 24) - e) with 0 by lia.
  cbn [shr shr_m loc_of_shr_record round_nearest_even Zdigits2].
  rewrite Hd.
  replace (Z.max (24 + e - 24) (3 - 128 - 24) - e) with 0 by lia.
  cbn [shr shr_m].
  destruct (Z.leb_spec e (128 - 24)); [reflexivity | lia].
Qed.

(** The conversion of a positive integer below 2^24. *)
Lemma binary_round_small (s : bool) (p : positive) :
  Z.pos p < 2 ^ 24 ->
  exists (m : positive) (k : Z),
    binary_round F32.prec F32.emax s p 0 = S754_finite s m (- k)
    /\ 0 <= k /\ Z.pos m = Z.pos p * 2 ^ k.
Proof.
  intros Hp. destruct (digits2_pos_small p Hp) as [Hd1 Hd24].
  unfold binary_round, shl_align, fexp, emin, F32.prec, F32.emax.
  rewrite Z.add_0_r, Z.sub_0_r.
  rewrite Z.max_l by lia.
  destruct (Z.pos (digits2_pos p) - 24) as [ | d | d] eqn:Hd.
  - exists p, 0. rewrite binary_round_aux_24 by lia.
    repeat split; [lia | lia].
  - lia.
  - exists (Pos.iter xO p d), (Z.pos d).
    rewrite binary_round_aux_24.
    + repeat split; [lia | apply iter_xO_mul].
    + rewrite iter_xO_digits. lia.
    + lia.
Qed.

(** Every integer of magnitude up to 2^24 is exactly representable. *)
Lemma small_exact_in_binary32 (z : Z) :
  - 2 ^ 24 <= z <= 2 ^ 24 -> F32Spec.exact_in_binary32 z.
Proof.
  intros Hz. unfold F32Spec.exact_in_binary32.
  destruct (Z.eq_dec z (2 ^ 24)) as [-> | Hhi]; [vm_compute; reflexivity | ].
  destruct (Z.eq_dec z (- 2 ^ 24)) as [-> | Hlo]; [vm_compute; reflexivity | ].
  destruct z as [ | p | p]; [reflexivity | | ];
    unfold F32.of_int, binary_normalize.
  - destruct (binary_round_small false p) as (m & k & -> & Hk & Hm); [lia | ].
    unfold F32.floor_to_int32, F32.floorZ, Int32.min_signed, Int32.max_signed.
    rewrite Z.opp_involutive, Hm.
    destruct (Z.leb_spec 0 (- k)).
    + replace k with 0 by lia. change (2 ^ 0) with 1.
      change (2 ^ (- 0)) with 1. lia.
    + rewrite Z.div_mul by lia. lia.
  - destruct (binary_round_small true p) as (m & k & -> & Hk & Hm); [lia | ].
    unfold F32.floor_to_int32, F32.floorZ, Int32.min_signed, Int32.max_signed.
    rewrite Z.opp_involutive.
    replace (Z.neg m) with (Z.neg p * 2 ^ k) by lia.
    destruct (Z.leb_spec 0 (- k)).
    + replace k with 0 by lia. change (2 ^ 0) with 1.
      change (2 ^ (- 0)) with 1. lia.
    + rewrite Z.div_mul by lia. lia.
Qed.

End ExactIntegers.

(** ** Tactics for the cursor *)

(** Projections of member assignments, and of pairs. *)
Ltac head_simpl :=
  cbn [Head.type_ Head.maxBufferSamples_ Head.bufferSamples_ Head.intIndex_
       Head.index_ Head.rate_ Head.fadeIndex_ Head.loopStart_ Head.loopEnd_
       Head.loopLength_ Head.run_ Head.looping_ Head.movement_
       Head.direction_ Head.mustFade_ Head.snapshotValue_
       Head.currentValue_ Head.isStopping_
       Head.set_maxBufferSamples_ Head.set_bufferSamples_
       Head.set_intIndex_ Head.set_index_ Head.set_rate_
       Head.set_fadeIndex_ Head.set_loopStart_ Head.set_loopEnd_
       Head.set_loopLength_ Head.set_run_ Head.set_looping_
       Head.set_movement_ Head.set_direction_ Head.set_mustFade_
       Head.set_snapshotValue_ Head.set_currentValue_ Head.set_isStopping_
       fst snd andb negb].

Ltac head_unfold :=
  cbv [Head.Read Head.Write Head.UpdatePosition Head.Stop Head.Run
       Head.SetUpFade Head.Buffer Head.ClearBuffer Head.ToggleDirection
       Head.ToggleRun Head.SetLoopStart Head.SetLoopLength
       Head.CalculateLoopEnd Head.StopBuffering Head.InitBuffer Head.Reset
       Head.Init Head.SetRate Head.SetMovement Head.SetDirection
       Head.SetLooping Head.SetIndex Head.ResetPosition bind ret store];
  head_simpl.

(** Destructs a condition the goal branches on, innermost scrutinee first. *)
Ltac break_step :=
  match goal with
  | |- context [if ?b then _ else _] =>
      lazymatch b with
      | context [if _ then _ else _] => fail
      | context [match _ with _ => _ end] => fail
      | _ => destruct b
      end
  | |- context [match ?x with _ => _ end] =>
      lazymatch x with
      | context [if _ then _ else _] => fail
      | context [match _ with _ => _ end] => fail
      | _ => destruct x
      end
  end.

Ltac break_all := repeat (break_step; cbv beta iota; head_simpl).

Ltac frame_solve :=
  head_unfold; cbv beta iota; head_simpl; break_all; split; reflexivity.

(** ** Loop geometry *)

Section LoopGeometry.

Import Head HeadSpec.

Variable h : Head.

(** C7, as amended: for every pair with 0 <= loopStart <= bufferedLength-1
    and kMinLoopLengthSamples <= loopLength <= bufferedLength whose sum
    loopStart + loopLength is representable as an int32_t, the loopEnd
    computed by CalculateLoopEnd lies in [0, bufferedLength-1]. *)
Theorem CalculateLoopEnd_in_buffer :
  0 <= loopStart_ h <= bufferSamples_ h - 1 ->
  kMinLoopLengthSamples <= loopLength_ h <= bufferSamples_ h ->
  loopStart_ h + loopLength_ h <= Int32.max_signed ->
  0 <= loopEnd_ (CalculateLoopEnd h) <= bufferSamples_ h - 1.
Proof.
  unfold kMinLoopLengthSamples. intros Hs Hl Hfit.
  unfold CalculateLoopEnd.
  rewrite (add32_exact (loopStart_ h) (loopLength_ h)) by in_range.
  destruct (Z.gtb_spec (loopStart_ h + loopLength_ h) (bufferSamples_ h));
    head_simpl.
  - rewrite (sub32_exact (_ + _) (bufferSamples_ h)) by in_range.
    rewrite sub32_exact by in_range. lia.
  - rewrite sub32_exact by in_range. lia.
Qed.

(** C8, as amended: WrapIndex returns unchanged every index inside the
    active loop region (loopStart <= index <= loopEnd in the normal regime;
    0 <= index <= loopEnd or loopStart <= index <= bufferedLength-1 in the
    inverted regime) that is also inside the buffered region,
    0 <= index <= bufferedLength-1; while loopEnd > loopStart it does so for
    every index of the region.  Hence WrapIndex(WrapIndex(i)) = WrapIndex(i)
    for such indices. *)
Theorem WrapIndex_inside_region (index : Z) :
  bufferSamples_ h <= Int32.max_signed ->
  in_loop_region h index ->
  loopEnd_ h > loopStart_ h \/ 0 <= index <= bufferSamples_ h - 1 ->
  WrapIndex h index = index
  /\ WrapIndex h (WrapIndex h index) = WrapIndex h index.
Proof.
  intros Hbs Hin Hsafe. unfold in_loop_region in Hin.
  assert (Hfix : WrapIndex h index = index).
  { unfold WrapIndex.
    destruct (Z.gtb_spec (loopEnd_ h) (loopStart_ h)) as [Hn | Hi].
    - destruct (Z.gtb_spec index (loopEnd_ h)); [lia | ].
      destruct (Z.ltb_spec index (loopStart_ h)); [lia | reflexivity].
    - destruct Hsafe as [Hsafe | Hsafe]; [lia | ].
      rewrite (sub32_exact (bufferSamples_ h) 1) by in_range.
      destruct (Z.gtb_spec index (bufferSamples_ h - 1)); [lia | ].
      destruct (Z.ltb_spec index 0); [lia | ].
      destruct (Z.gtb_spec index (loopEnd_ h));
        destruct (Z.ltb_spec index (loopStart_ h)); cbn [andb];
        solve [reflexivity | lia]. }
  split; [exact Hfix | rewrite Hfix; exact Hfix].
Qed.

End LoopGeometry.

(** The geometry of the scenarios satisfies the hypotheses of C7: loopEnd is
    1499, inside the buffer. *)
Lemma CalculateLoopEnd_in_buffer_witness :
  let h := HeadSpec.scenario Head.READ Head.NORMAL in
  (0 <= Head.loopStart_ h <= Head.bufferSamples_ h - 1)
  /\ (Head.kMinLoopLengthSamples <= Head.loopLength_ h <= Head.bufferSamples_ h)
  /\ Head.loopStart_ h + Head.loopLength_ h <= Int32.max_signed
  /\ 0 <= Head.loopEnd_ (Head.CalculateLoopEnd h) <= Head.bufferSamples_ h - 1.
Proof.
  cbv zeta.
  set (h := HeadSpec.scenario Head.READ Head.NORMAL).
  assert (H1 : 0 <= Head.loopStart_ h <= Head.bufferSamples_ h - 1)
    by (vm_compute; split; discriminate).
  assert (H2 : Head.kMinLoopLengthSamples <= Head.loopLength_ h
               <= Head.bufferSamples_ h)
    by (vm_compute; split; discriminate).
  assert (H3 : Head.loopStart_ h + Head.loopLength_ h <= Int32.max_signed)
    by (vm_compute; discriminate).
  exact (conj H1 (conj H2 (conj H3
           (CalculateLoopEnd_in_buffer h H1 H2 H3)))).
Defined.

(** C7 as stated fails when loopStart + loopLength exceeds the int32_t
    range: in a buffer of 2^31-1 samples, loopStart = 2^31-2 and
    loopLength = 2^31-1 are a valid pair, and loopEnd is -4. *)
Lemma CalculateLoopEnd_overflow :
  let h := HeadSpec.overflowing in
  (0 <= Head.loopStart_ h <= Head.bufferSamples_ h - 1)
  /\ (Head.kMinLoopLengthSamples <= Head.loopLength_ h <= Head.bufferSamples_ h)
  /\ 1 <= Head.bufferSamples_ h
  /\ Head.loopEnd_ (Head.CalculateLoopEnd h) = -4
  /\ ~ (0 <= Head.loopEnd_ (Head.CalculateLoopEnd h)
        <= Head.bufferSamples_ h - 1).
Proof.
  vm_compute. repeat split; try discriminate.
  intros [H _]. apply H. reflexivity.
Qed.

(** An index at the physical end of the buffer, inside an inverted loop
    (loopStart = 47500, loopEnd = 499), is returned unchanged. *)
Lemma WrapIndex_inside_region_witness :
  let h := HeadSpec.inverted_scenario Head.READ Head.NORMAL in
  Head.loopEnd_ h = 499
  /\ HeadSpec.in_loop_region h 47999
  /\ 0 <= 47999 <= Head.bufferSamples_ h - 1
  /\ Head.WrapIndex h 47999 = 47999
  /\ Head.WrapIndex h (Head.WrapIndex h 47999) = Head.WrapIndex h 47999.
Proof.
  cbv zeta.
  assert (Hbs : Head.bufferSamples_
                  (HeadSpec.inverted_scenario Head.READ Head.NORMAL)
                <= Int32.max_signed) by (vm_compute; discriminate).
  assert (Hin : HeadSpec.in_loop_region
                  (HeadSpec.inverted_scenario Head.READ Head.NORMAL) 47999).
  { right. vm_compute. split; [reflexivity | ].
    right. split; discriminate. }
  assert (Hsafe : 0 <= 47999
                  <= Head.bufferSamples_
                       (HeadSpec.inverted_scenario Head.READ Head.NORMAL) - 1)
    by (vm_compute; split; discriminate).
  split; [reflexivity | split; [exact Hin | split; [exact Hsafe | ]]].
  exact (WrapIndex_inside_region
           (HeadSpec.inverted_scenario Head.READ Head.NORMAL) 47999
           Hbs Hin (or_intror Hsafe)).
Defined.

(** C8 as stated fails.  Three samples are captured and the loop start is
    set to 2, which wraps the loop end to 1; one more call of Buffer then
    shrinks bufferedLength to 1 and leaves loopStart = 2 and loopEnd = 1
    beyond it.  Index 1 is inside the active loop region as the claim words
    it (0 <= 1 <= loopEnd), and WrapIndex maps it to 0. *)
Lemma WrapIndex_moves_region_index :
  let cs := [Head.CInit 4; Head.CBuffer F32.one; Head.CBuffer F32.one;
             Head.CBuffer F32.one; Head.CStopBuffering;
             Head.CSetLoopStart 2; Head.CBuffer F32.one] in
  let h := snd (fst (Head.run cs (Head.new Head.READ) (Buf.fresh 4))) in
  Head.bufferSamples_ h = 1
  /\ Head.loopStart_ h = 2
  /\ Head.loopEnd_ h = 1
  /\ Head.loopLength_ h = 3
  /\ HeadSpec.in_loop_region h 1
  /\ Head.WrapIndex h 1 = 0
  /\ Head.WrapIndex h 1 <> 1.
Proof.
  cbv zeta. repeat split; try (vm_compute; reflexivity).
  - right. vm_compute. split; [reflexivity | ].
    left. split; discriminate.
  - vm_compute. discriminate.
Qed.

(** ** What the cursor operations leave unchanged *)

Section Frames.

Import Head HeadSpec.

Lemma same_control_refl (h : Head) : same_control h h.
Proof. unfold same_control; intuition reflexivity. Qed.

Lemma SetIndex_same_control (x : float) (h : Head) :
  same_control h (SetIndex x h).
Proof. unfold same_control; cbn; intuition reflexivity. Qed.

(** [HandleLoopAction] changes a cursor by [SetIndex] only. *)
Lemma HandleLoopAction_reposition (h : Head) :
  snd (HandleLoopAction h) = h
  \/ exists x, snd (HandleLoopAction h) = SetIndex x h.
Proof.
  unfold HandleLoopAction.
  repeat break_step; cbn [snd];
    solve [left; reflexivity | right; eexists; reflexivity].
Qed.

Lemma HandleLoopAction_same_control (h : Head) :
  same_control h (snd (HandleLoopAction h)).
Proof.
  destruct (HandleLoopAction_reposition h) as [-> | [x ->]].
  - apply same_control_refl.
  - apply SetIndex_same_control.
Qed.

Lemma SetUpFade_extent f h m : same_extent h (fst (SetUpFade f h m)).
Proof. frame_solve. Qed.

Lemma Stop_extent b h m : same_extent h (fst (Stop b h m)).
Proof. frame_solve. Qed.

Lemma Run_extent b h m : same_extent h (fst (Run b h m)).
Proof. frame_solve. Qed.

Lemma Read_extent h m : same_extent h (snd (fst (Read h m))).
Proof. frame_solve. Qed.

Lemma Write_extent v h m : same_extent h (fst (Write v h m)).
Proof. frame_solve. Qed.

Lemma UpdatePosition_extent h m :
  same_extent h (snd (fst (UpdatePosition h m))).
Proof.
  unfold same_extent, UpdatePosition.
  destruct (run_ h); cbv [negb ret]; cbn [fst snd]; [ | split; reflexivity].
  set (moved := SetIndex _ _).
  change (loopStart_ h) with (loopStart_ moved).
  change (bufferSamples_ h) with (bufferSamples_ moved).
  clearbody moved.
  destruct (HandleLoopAction_same_control moved) as (_ & _ & Hb & Hs & _).
  destruct (HandleLoopAction moved) as [a h1]. cbn [snd] in *.
  destruct (type_ h1); [ destruct a | ]; cbv [bind ret ToggleDirection];
    head_simpl; try (split; congruence).
  destruct (Stop_extent true h1 m). split; congruence.
Qed.

(** Every public call other than [Buffer] and [InitBuffer] either leaves
    [loopStart_] and [bufferSamples_] alone, or is [SetLoopStart], or resets
    [loopStart_] to 0. *)
Lemma exec_extent (c : Call) (h : Head) (m : Buf.Mem) :
  sets_bufferSamples c = false ->
  let h' := snd (fst (exec c h m)) in
  same_extent h h'
  \/ (exists start, h' = snd (SetLoopStart start h))
  \/ (loopStart_ h' = 0 /\ bufferSamples_ h' = bufferSamples_ h).
Proof.
  destruct c; cbn [sets_bufferSamples]; intros Hc; try discriminate;
    cbv zeta; unfold exec; cbv [bind ret]; cbn [fst snd];
    lazymatch goal with
    | |- context [SetLoopStart ?s h] =>
        right; left; exists s; destruct (SetLoopStart s h); reflexivity
    | |- context [SetLoopLength ?s h] => left; frame_solve
    | |- context [UpdatePosition h m] => left; apply UpdatePosition_extent
    | |- context [SetUpFade ?f h m] => left; apply SetUpFade_extent
    | |- context [Read h m] => left; apply Read_extent
    | |- context [Write ?v h m] => left; apply Write_extent
    | |- context [Run ?b h m] => left; apply Run_extent
    | |- context [Stop ?b h m] => left; apply Stop_extent
    | |- context [StopBuffering h] => left; frame_solve
    | |- context [ToggleDirection h] => left; frame_solve
    | |- context [ToggleRun h] => left; frame_solve
    | |- context [Reset h] => right; right; split; reflexivity
    | |- context [Init ?n h] => right; right; split; reflexivity
    | |- _ => left; split; reflexivity
    end.
Qed.

End Frames.

(** ** The loop start *)

Section LoopStart.

Import Head HeadSpec.

Lemma SetLoopStart_applied (start : Z) (h : Head) :
  fst (SetLoopStart start h) = loopStart_ (snd (SetLoopStart start h))
  /\ loopStart_ (snd (SetLoopStart start h))
     = Z.min (Z.max start 0) (Int32.sub (bufferSamples_ h) 1)
  /\ bufferSamples_ (snd (SetLoopStart start h)) = bufferSamples_ h.
Proof.
  head_unfold. cbv beta iota. head_simpl. break_all. all: auto.
Qed.

(** C3, as amended: whenever bufferedLength >= 1, SetLoopStart(v) leaves
    loopStart in [0, bufferedLength-1] for every input v and returns that
    applied value; and once 0 <= loopStart < bufferedLength holds, every
    public operation of the cursor other than Buffer and InitBuffer
    preserves it. *)
Theorem loopStart_invariant (h : Head) (m : Buf.Mem) :
  1 <= bufferSamples_ h <= Int32.max_signed ->
  (forall start,
     let r := SetLoopStart start h in
     0 <= loopStart_ (snd r) <= bufferSamples_ (snd r) - 1
     /\ fst r = loopStart_ (snd r)
     /\ loopStart_ (snd r) = Z.min (Z.max start 0) (bufferSamples_ h - 1))
  /\ (forall c,
        sets_bufferSamples c = false ->
        loopStart_valid h ->
        loopStart_valid (snd (fst (exec c h m)))).
Proof.
  intros Hbs.
  assert (Hset : forall start,
             let r := SetLoopStart start h in
             0 <= loopStart_ (snd r) <= bufferSamples_ (snd r) - 1
             /\ fst r = loopStart_ (snd r)
             /\ loopStart_ (snd r)
                = Z.min (Z.max start 0) (bufferSamples_ h - 1)).
  { intros start r. subst r.
    destruct (SetLoopStart_applied start h) as (Hret & Hval & Hsame).
    rewrite sub32_exact in Hval by in_range.
    rewrite Hsame, Hval. repeat split; try assumption; lia. }
  split; [exact Hset | ].
  intros c Hc Hvalid. unfold loopStart_valid in *.
  destruct (exec_extent c h m Hc) as [[Hs Hb] | [[start Hstart] | [Hs Hb]]].
  - rewrite Hs, Hb. exact Hvalid.
  - rewrite Hstart. specialize (Hset start). cbv zeta in Hset. lia.
  - rewrite Hs, Hb. lia.
Qed.

End LoopStart.

(** In the 48000-sample buffer of the scenarios, SetLoopStart(50000) applies
    and returns 47999, and advancing the cursor keeps the invariant. *)
Lemma loopStart_invariant_witness :
  let h := HeadSpec.scenario Head.READ Head.NORMAL in
  (1 <= Head.bufferSamples_ h <= Int32.max_signed)
  /\ fst (Head.SetLoopStart 50000 h) = 47999
  /\ HeadSpec.loopStart_valid
       (snd (fst (Head.exec Head.CUpdatePosition h (Buf.fresh 0)))).
Proof.
  cbv zeta.
  set (h := HeadSpec.scenario Head.READ Head.NORMAL).
  assert (Hbs : 1 <= Head.bufferSamples_ h <= Int32.max_signed)
    by (vm_compute; split; discriminate).
  destruct (loopStart_invariant h (Buf.fresh 0) Hbs) as [Hset Hkeep].
  split; [exact Hbs | split].
  - destruct (Hset 50000) as (_ & -> & ->). reflexivity.
  - apply Hkeep; [reflexivity | ].
    vm_compute. split; [discriminate | reflexivity].
Defined.

(** C3 as stated fails: right after Init the buffered length is 0, the
    invariant does not hold, and SetLoopStart(5) applies and returns -1;
    InitBuffer and Buffer change the buffered length under a loop start
    that was valid. *)
Lemma loopStart_invariant_fails :
  (let h := Head.Init 48000 (Head.new Head.READ) in
   Head.bufferSamples_ h = 0
   /\ ~ HeadSpec.loopStart_valid h
   /\ fst (Head.SetLoopStart 5 h) = -1
   /\ Head.loopStart_ (snd (Head.SetLoopStart 5 h)) = -1
   /\ ~ (0 <= Head.loopStart_ (snd (Head.SetLoopStart 5 h))
         <= Head.bufferSamples_ (snd (Head.SetLoopStart 5 h)) - 1))
  /\ (let h := HeadSpec.scenario Head.READ Head.NORMAL in
      HeadSpec.loopStart_valid h
      /\ ~ HeadSpec.loopStart_valid (Head.InitBuffer 500 h))
  /\ (let v := F32.one in
      let h := Head.Init 48000 (Head.new Head.WRITE) in
      let r := Head.run [Head.CBuffer v; Head.CBuffer v; Head.CBuffer v;
                         Head.CStopBuffering; Head.CSetLoopStart 2]
                        h (Buf.fresh 3) in
      HeadSpec.loopStart_valid (snd (fst r))
      /\ ~ HeadSpec.loopStart_valid
             (snd (fst (Head.Buffer v (snd (fst r)) (snd r))))).
Proof.
  split; [ | split]; vm_compute; repeat split; try discriminate;
    try reflexivity;
    try (intros [H1 H2]; first [ now apply H1 | discriminate H2 ]).
Qed.

(** ** Advancing a cursor *)

Section Advance.

Import Head HeadSpec.

(** C9: UpdatePosition applies the boundary action only to a Read cursor.
    For a Write cursor the result is the cursor as HandleLoopAction
    repositioned it: the direction is not flipped by an Invert action, and a
    Stop action neither begins a fade-out nor disables the cursor, nor
    touches the buffer. *)
Theorem UpdatePosition_write_cursor (h : Head) (m : Buf.Mem) :
  type_ h = WRITE ->
  let h' := if run_ h
            then snd (HandleLoopAction (SetIndex (advanced h) h))
            else h in
  UpdatePosition h m = ((index_ h', h'), m)
  /\ direction_ h' = direction_ h
  /\ run_ h' = run_ h
  /\ mustFade_ h' = mustFade_ h
  /\ fadeIndex_ h' = fadeIndex_ h
  /\ isStopping_ h' = isStopping_ h.
Proof.
  intros Htype. unfold UpdatePosition, advanced.
  destruct (run_ h) eqn:Hrun; cbv [negb ret].
  - set (moved := SetIndex _ h).
    assert (Hm : same_control h moved) by apply SetIndex_same_control.
    pose proof (HandleLoopAction_same_control moved) as Hc.
    destruct (HandleLoopAction moved) as [action h1]. cbn [snd] in *.
    unfold same_control in Hm, Hc.
    destruct Hm
      as (Ht0 & _ & _ & _ & _ & _ & Hd0 & Hr0 & _ & Hf0 & Hi0 & _ & Hs0).
    destruct Hc
      as (Ht1 & _ & _ & _ & _ & _ & Hd1 & Hr1 & _ & Hf1 & Hi1 & _ & Hs1).
    assert (Hw : type_ h1 = WRITE) by congruence.
    rewrite Hw. cbv [bind ret]. cbn [fst snd].
    repeat split; congruence.
  - repeat split; congruence.
Qed.

(** For a Read cursor an Invert action flips the direction. *)
Lemma UpdatePosition_read_cursor_inverts (h : Head) (m : Buf.Mem) :
  type_ h = READ ->
  run_ h = true ->
  fst (HandleLoopAction (SetIndex (advanced h) h)) = INVERT ->
  direction_ (snd (fst (UpdatePosition h m)))
  = Int32.mul (direction_ h) (-1).
Proof.
  intros Htype Hrun. unfold UpdatePosition, advanced.
  rewrite Hrun. cbv [negb].
  set (moved := SetIndex _ h).
  assert (Hm : same_control h moved) by apply SetIndex_same_control.
  pose proof (HandleLoopAction_same_control moved) as Hc.
  destruct (HandleLoopAction moved) as [action h1]. cbn [fst snd] in *.
  intros ->.
  destruct Hm as (Ht0 & _ & _ & _ & _ & _ & Hd0 & _).
  destruct Hc as (Ht1 & _ & _ & _ & _ & _ & Hd1 & _).
  assert (Hr : type_ h1 = READ) by congruence.
  rewrite Hr. cbv [bind ret ToggleDirection]. head_simpl. congruence.
Qed.

(** C6, as amended: when a Read cursor with an Out fade in progress is read
    with fadeIndex no longer below samplesToFade-1, the fade completes: the
    call returns exactly 0, the cursor is disabled, and its position is
    reset to the natural start of the loop converted to float, the integer
    position being the floor of that float.  The integer position is the
    natural start itself whenever the natural start is exactly representable
    in binary32, as every integer of magnitude up to 2^24 is. *)
Theorem Read_completes_fade_out (h : Head) (m : Buf.Mem) :
  mustFade_ h = OUT ->
  F32.ltb (fadeIndex_ h) (F32.of_int (Int32.sub (SamplesToFade h) 1)) = false ->
  let r := Read h m in
  fst (fst r) = F32.zero
  /\ run_ (snd (fst r)) = false
  /\ mustFade_ (snd (fst r)) = NO_FADE
  /\ isStopping_ (snd (fst r)) = false
  /\ index_ (snd (fst r)) = F32.of_int (natural_start h)
  /\ intIndex_ (snd (fst r))
     = F32.floor_to_int32 (F32.of_int (natural_start h))
  /\ (F32Spec.exact_in_binary32 (natural_start h) ->
      intIndex_ (snd (fst r)) = natural_start h)
  /\ (- 2 ^ 24 <= natural_start h <= 2 ^ 24 ->
      intIndex_ (snd (fst r)) = natural_start h).
Proof.
  intros Hfade Hdone.
  assert (Hpos : index_ (snd (fst (Read h m))) = F32.of_int (natural_start h)
                 /\ intIndex_ (snd (fst (Read h m)))
                    = F32.floor_to_int32 (F32.of_int (natural_start h))).
  { unfold Read, natural_start.
    cbv [bind ret]. cbn [fst snd]. head_simpl.
    rewrite Hfade.
    change (SamplesToFade (set_currentValue_ _ h)) with (SamplesToFade h).
    rewrite Hdone.
    cbv [Stop bind ret ResetPosition SetIndex]. head_simpl.
    split; reflexivity. }
  destruct Hpos as [Hindex Hint]. cbv zeta.
  split; [ | split; [ | split; [ | split]]].
  5: { split; [exact Hindex | split; [exact Hint | split]].
       - intros Hexact. rewrite Hint. exact Hexact.
       - intros Hsmall. rewrite Hint.
         now apply small_exact_in_binary32. }
  all: unfold Read; cbv [bind ret]; cbn [fst snd]; head_simpl;
    rewrite Hfade;
    change (SamplesToFade (set_currentValue_ _ h)) with (SamplesToFade h);
    rewrite Hdone;
    cbv [Stop bind ret ResetPosition SetIndex]; head_simpl; reflexivity.
Qed.

End Advance.

(** The Write cursor of the Pendulum scenario, advanced past loopEnd: the
    action is Invert, the cursor is reflected to index 1498, and it still
    travels forward. *)
Lemma UpdatePosition_write_cursor_witness :
  let h := HeadSpec.scenario Head.WRITE Head.PENDULUM in
  let r := Head.UpdatePosition h (Buf.fresh 0) in
  Head.type_ h = Head.WRITE
  /\ fst (Head.HandleLoopAction (Head.SetIndex (HeadSpec.advanced h) h))
     = Head.INVERT
  /\ Head.intIndex_ (snd (fst r)) = 1498
  /\ Head.direction_ (snd (fst r)) = Head.FORWARD
  /\ Head.run_ (snd (fst r)) = true
  /\ Head.mustFade_ (snd (fst r)) = Head.NO_FADE.
Proof.
  cbv zeta.
  assert (Ht : Head.type_ (HeadSpec.scenario Head.WRITE Head.PENDULUM)
               = Head.WRITE) by reflexivity.
  destruct (UpdatePosition_write_cursor _ (Buf.fresh 0) Ht)
    as (Hupd & Hdir & Hrun & Hfade & _ & _).
  rewrite Hupd. cbn [fst snd].
  split; [exact Ht | split; [vm_compute; reflexivity | split]].
  - vm_compute; reflexivity.
  - split; [rewrite Hdir; reflexivity | split].
    + rewrite Hrun; reflexivity.
    + rewrite Hfade; reflexivity.
Defined.

(** A Read cursor over the shortest loop (48 samples from index 1000),
    stopped with a fade and read 47 times over a silent buffer: fadeIndex
    has reached samplesToFade-1 = 47, and the next Read returns 0, disables
    the cursor and puts it back at loopStart = 1000, which is exact in
    binary32. *)
Lemma Read_completes_fade_out_witness :
  let r := Head.run (Head.CStop true :: repeat Head.CRead 47)
                    (HeadSpec.cursor_at Head.READ Head.NORMAL 1000 48 1020)
                    (Buf.fresh (Z.to_nat 48000)) in
  let h := snd (fst r) in
  Head.mustFade_ h = Head.OUT
  /\ Head.fadeIndex_ h = F32.of_int 47
  /\ HeadSpec.natural_start h = 1000
  /\ F32Spec.exact_in_binary32 (HeadSpec.natural_start h)
  /\ fst (fst (Head.Read h (snd r))) = F32.zero
  /\ Head.run_ (snd (fst (Head.Read h (snd r)))) = false
  /\ Head.intIndex_ (snd (fst (Head.Read h (snd r)))) = 1000.
Proof.
  cbv zeta.
  set (r := Head.run _ _ _).
  assert (Hfade : Head.mustFade_ (snd (fst r)) = Head.OUT)
    by (vm_compute; reflexivity).
  assert (Hindex : Head.fadeIndex_ (snd (fst r)) = F32.of_int 47)
    by (vm_compute; reflexivity).
  assert (Hdone : F32.ltb (Head.fadeIndex_ (snd (fst r)))
                    (F32.of_int
                       (Int32.sub (Head.SamplesToFade (snd (fst r))) 1))
                  = false)
    by (vm_compute; reflexivity).
  assert (Hstart : HeadSpec.natural_start (snd (fst r)) = 1000)
    by (vm_compute; reflexivity).
  assert (Hexact : F32Spec.exact_in_binary32
                     (HeadSpec.natural_start (snd (fst r))))
    by (rewrite Hstart; vm_compute; reflexivity).
  destruct (Read_completes_fade_out _ (snd r) Hfade Hdone)
    as (Hzero & Hrun & _ & _ & _ & _ & Hpos & _).
  split; [exact Hfade | split; [exact Hindex | split; [exact Hstart | ]]].
  split; [exact Hexact | split; [exact Hzero | split; [exact Hrun | ]]].
  rewrite <- Hstart. exact (Hpos Hexact).
Defined.

(** C6 as stated fails.  16777217 = 2^24 + 1 is not exactly representable
    in binary32: it converts to the same float as 16777216.  Over any
    buffer, a Read cursor whose loop of 48 samples starts at 16777217, in
    33554432 buffered samples, is stopped with a fade at rate 47 and read
    once, which brings fadeIndex to samplesToFade-1 = 47; the next Read
    completes the fade and disables the cursor, but leaves it at index
    16777216, one sample before the natural start of the loop and outside
    the loop. *)
Lemma Read_fade_out_misses_start :
  let cs := [Head.CInit (2 ^ 25); Head.CInitBuffer (2 ^ 25);
             Head.CSetLoopStart 16777217; Head.CSetLoopLength 48;
             Head.CSetRate (F32.of_int 47); Head.CStop true; Head.CRead] in
  F32.of_int 16777217 = F32.of_int 16777216
  /\ forall m : Buf.Mem,
      let r := Head.run cs (Head.new Head.READ) m in
      let h := snd (fst r) in
      let h' := snd (fst (Head.Read h (snd r))) in
      Head.type_ h = Head.READ
      /\ Head.mustFade_ h = Head.OUT
      /\ F32.ltb (Head.fadeIndex_ h)
           (F32.of_int (Int32.sub (Head.SamplesToFade h) 1)) = false
      /\ Head.bufferSamples_ h = 33554432
      /\ Head.loopStart_ h = 16777217
      /\ Head.loopEnd_ h = 16777264
      /\ HeadSpec.natural_start h = 16777217
      /\ Head.run_ h' = false
      /\ Head.intIndex_ h' = 16777216
      /\ Head.intIndex_ h' <> HeadSpec.natural_start h
      /\ ~ (Head.loopStart_ h <= Head.intIndex_ h' <= Head.loopEnd_ h).
Proof.
  cbv zeta. split; [vm_compute; reflexivity | ].
  intros m. repeat split; try (lazy; reflexivity).
  - lazy. discriminate.
  - lazy. intros [H _]. apply H. reflexivity.
Qed.

(** C4, as amended: in the scenario (loopStart = 1000, loopLength = 500,
    loopEnd = 1499, a forward Read cursor at integer index 1499 with
    rate = 1, looping and movement = Pendulum), one advance reflects the
    cursor about loopEnd to integer index 1498 and flips its direction to
    backward. *)
Theorem UpdatePosition_pendulum_scenario (m : Buf.Mem) :
  let h := HeadSpec.scenario Head.READ Head.PENDULUM in
  let r := Head.UpdatePosition h m in
  (Head.bufferSamples_ h = 48000
   /\ Head.loopStart_ h = 1000
   /\ Head.loopLength_ h = 500
   /\ Head.loopEnd_ h = 1499
   /\ Head.intIndex_ h = 1499
   /\ Head.direction_ h = Head.FORWARD
   /\ Head.rate_ h = F32.one
   /\ Head.looping_ h = true
   /\ Head.run_ h = true)
  /\ Head.intIndex_ (snd (fst r)) = 1498
  /\ Head.index_ (snd (fst r)) = F32.of_int 1498
  /\ fst (fst r) = F32.of_int 1498
  /\ Head.direction_ (snd (fst r)) = Head.BACKWARDS
  /\ snd r = m.
Proof.
  cbv zeta. split.
  - vm_compute. repeat split; reflexivity.
  - vm_compute. repeat split; reflexivity.
Qed.

(** C4 as stated fails: the advanced cursor is not at integer index 1499;
    and the direction of a Write cursor is not flipped. *)
Lemma UpdatePosition_pendulum_not_1499 :
  Head.intIndex_
    (snd (fst (Head.UpdatePosition
                 (HeadSpec.scenario Head.READ Head.PENDULUM) (Buf.fresh 0))))
  <> 1499
  /\ Head.direction_
       (snd (fst (Head.UpdatePosition
                    (HeadSpec.scenario Head.WRITE Head.PENDULUM)
                    (Buf.fresh 0))))
     <> Head.BACKWARDS.
Proof. vm_compute. split; discriminate. Qed.

(** ** Initial capture *)

Section Capture.

Import Head HeadSpec.

Lemma indices_cons (i : Z) (n : nat) :
  indices i (S n) = i :: indices (i + 1) n.
Proof.
  unfold indices. cbn [seq map]. rewrite Z.add_0_r. f_equal.
  rewrite <- seq_shift, map_map. apply map_ext. intros k. lia.
Qed.

(** Below capacity [Buffer] stores at the cursor, advances it, and returns
    false. *)
Lemma Buffer_below_capacity (v : float) (h : Head) (m : Buf.Mem) :
  intIndex_ h = bufferSamples_ h ->
  0 <= bufferSamples_ h < maxBufferSamples_ h ->
  maxBufferSamples_ h <= Int32.max_signed ->
  let r := Buffer v h m in
  fst (fst r) = false
  /\ intIndex_ (snd (fst r)) = intIndex_ h + 1
  /\ bufferSamples_ (snd (fst r)) = bufferSamples_ h + 1
  /\ maxBufferSamples_ (snd (fst r)) = maxBufferSamples_ h
  /\ Buf.accesses (snd r) = Buf.accesses m ++ [intIndex_ h].
Proof.
  intros Hidx Hbs Hmax. unfold Buffer. cbv [bind ret store]. cbn [fst snd].
  rewrite sub32_exact by in_range.
  destruct (Z.gtb_spec (bufferSamples_ h) (maxBufferSamples_ h - 1)); [lia | ].
  head_simpl. cbn [Buf.accesses].
  rewrite add32_exact by in_range.
  repeat split; lia.
Qed.

(** At capacity [Buffer] still stores at the cursor, and returns true. *)
Lemma Buffer_at_capacity (v : float) (h : Head) (m : Buf.Mem) :
  bufferSamples_ h = maxBufferSamples_ h ->
  Int32.min_signed < maxBufferSamples_ h <= Int32.max_signed ->
  let r := Buffer v h m in
  fst (fst r) = true
  /\ snd (fst r) = h
  /\ Buf.accesses (snd r) = Buf.accesses m ++ [intIndex_ h].
Proof.
  intros Hbs Hmax. unfold Buffer. cbv [bind ret store]. cbn [fst snd].
  rewrite sub32_exact by in_range.
  destruct (Z.gtb_spec (bufferSamples_ h) (maxBufferSamples_ h - 1)); [ | lia].
  repeat split; reflexivity.
Qed.

Lemma run_buffer_calls (v : float) (n : nat) :
  forall (h : Head) (m : Buf.Mem),
    intIndex_ h = bufferSamples_ h ->
    0 <= bufferSamples_ h ->
    bufferSamples_ h + Z.of_nat n <= maxBufferSamples_ h ->
    maxBufferSamples_ h <= Int32.max_signed ->
    let r := run (buffer_calls v n) h m in
    fst (fst r) = repeat (RBool false) n
    /\ intIndex_ (snd (fst r)) = intIndex_ h + Z.of_nat n
    /\ bufferSamples_ (snd (fst r)) = bufferSamples_ h + Z.of_nat n
    /\ maxBufferSamples_ (snd (fst r)) = maxBufferSamples_ h
    /\ Buf.accesses (snd r) = Buf.accesses m ++ indices (intIndex_ h) n.
Proof.
  induction n as [ | n IH]; intros h m Hidx Hbs Hroom Hmax.
  - cbn. rewrite app_nil_r. repeat split; lia.
  - destruct (Buffer_below_capacity v h m Hidx) as (Hr & Hi & Hb & Hm & Ha);
      [lia | exact Hmax | ].
    cbv zeta. unfold buffer_calls. cbn [repeat run exec].
    cbv [bind ret]. cbn [fst snd].
    fold (buffer_calls v n).
    specialize (IH (snd (fst (Buffer v h m))) (snd (Buffer v h m))).
    destruct IH as (IHr & IHi & IHb & IHm & IHa); try lia.
    rewrite Hr, IHr, IHi, IHb, IHm, IHa, Ha, Hi, Hb, Hm.
    rewrite indices_cons, <- app_assoc.
    repeat split; try reflexivity; lia.
Qed.

(** C2 fails on the code: from a freshly initialized cursor, each of the
    first [capacity] calls of Buffer returns false, the capacity-th call
    included; it is one more call that returns true. *)
Theorem Buffer_calls_up_to_capacity
  (capacity : Z) (type : HeadType) (v : float) (m : Buf.Mem) :
  0 <= capacity <= Int32.max_signed ->
  let r := run (buffer_calls v (Z.to_nat capacity))
               (Init capacity (new type)) m in
  fst (fst r) = repeat (RBool false) (Z.to_nat capacity)
  /\ bufferSamples_ (snd (fst r)) = capacity
  /\ fst (fst (Buffer v (snd (fst r)) (snd r))) = true.
Proof.
  intros Hcap.
  pose proof (run_buffer_calls v (Z.to_nat capacity)
                (Init capacity (new type)) m) as H.
  cbn [Init new Reset bufferSamples_ intIndex_ maxBufferSamples_
       set_maxBufferSamples_ set_intIndex_ set_index_ set_rate_
       set_loopStart_ set_loopEnd_ set_loopLength_ set_run_ set_looping_
       set_movement_ set_direction_] in H.
  destruct H as (Hr & Hi & Hb & Hm & Ha); [lia | lia | lia | lia | ].
  cbv zeta. split; [exact Hr | split; [lia | ]].
  apply Buffer_at_capacity; [lia | in_range].
Qed.

(** C1 fails on the code: after Init with a buffer of [capacity] samples,
    [capacity + 1] calls of Buffer access the indices 0, ..., capacity, the
    last of which is outside the buffer. *)
Theorem Buffer_stores_past_capacity
  (capacity : Z) (type : HeadType) (v : float) (m : Buf.Mem) :
  0 <= capacity <= Int32.max_signed ->
  let r := run (CInit capacity :: buffer_calls v (S (Z.to_nat capacity)))
               (new type) m in
  maxBufferSamples_ (snd (fst r)) = capacity
  /\ Buf.accesses (snd r) = Buf.accesses m ++ indices 0 (Z.to_nat capacity)
                            ++ [capacity]
  /\ last (Buf.accesses (snd r)) 0 = capacity.
Proof.
  intros Hcap.
  pose proof (run_buffer_calls v (Z.to_nat capacity)
                (Init capacity (new type)) m) as H.
  cbn [Init new Reset bufferSamples_ intIndex_ maxBufferSamples_
       set_maxBufferSamples_ set_intIndex_ set_index_ set_rate_
       set_loopStart_ set_loopEnd_ set_loopLength_ set_run_ set_looping_
       set_movement_ set_direction_] in H.
  destruct H as (Hr & Hi & Hb & Hm & Ha); [lia | lia | lia | lia | ].
  set (r0 := run (buffer_calls v (Z.to_nat capacity))
                 (Init capacity (new type)) m) in *.
  destruct (Buffer_at_capacity v (snd (fst r0)) (snd r0))
    as (Ht & Hh & Hacc); [lia | in_range | ].
  assert (Hrun : forall cs h0 m0,
             snd (run (cs ++ [CBuffer v]) h0 m0)
             = snd (Buffer v (snd (fst (run cs h0 m0))) (snd (run cs h0 m0)))
             /\ snd (fst (run (cs ++ [CBuffer v]) h0 m0))
                = snd (fst (Buffer v (snd (fst (run cs h0 m0)))
                                   (snd (run cs h0 m0))))).
  { induction cs as [ | c cs IHcs]; intros h0 m0.
    - split; reflexivity.
    - cbn [app run]. cbv [bind ret]. cbn [fst snd].
      apply IHcs. }
  cbv zeta.
  replace (buffer_calls v (S (Z.to_nat capacity)))
    with (buffer_calls v (Z.to_nat capacity) ++ [CBuffer v])
    by (unfold buffer_calls; rewrite <- repeat_cons; reflexivity).
  cbn [run exec]. cbv [bind ret]. cbn [fst snd].
  destruct (Hrun (buffer_calls v (Z.to_nat capacity))
              (Init capacity (new type)) m) as [-> ->].
  fold r0. rewrite Hh, Hacc, Ha, Hi, Hm, <- app_assoc.
  replace (0 + Z.of_nat (Z.to_nat capacity)) with capacity by lia.
  repeat split; try reflexivity.
  rewrite app_assoc. apply last_last.
Qed.

End Capture.

(** The scenario of the specification: with capacity 48000, the 48000th
    call of Buffer returns false like the ones before it. *)
Lemma Buffer_calls_up_to_capacity_witness :
  let r := Head.run (HeadSpec.buffer_calls F32.one (Z.to_nat 48000))
                    (Head.Init 48000 (Head.new Head.WRITE))
                    (Buf.fresh (Z.to_nat 48000)) in
  0 <= 48000 <= Int32.max_signed
  /\ fst (fst r) = repeat (Head.RBool false) (Z.to_nat 48000)
  /\ fst (fst (Head.Buffer F32.one (snd (fst r)) (snd r))) = true.
Proof.
  cbv zeta.
  assert (Hcap : 0 <= 48000 <= Int32.max_signed)
    by (vm_compute; split; discriminate).
  destruct (Buffer_calls_up_to_capacity 48000 Head.WRITE F32.one
              (Buf.fresh (Z.to_nat 48000)) Hcap) as (Hr & _ & Ht).
  exact (conj Hcap (conj Hr Ht)).
Defined.

(** With capacity 48000, the 48001st call of Buffer stores at index 48000 of
    a buffer whose last sample has index 47999. *)
Lemma Buffer_stores_past_capacity_witness :
  let r := Head.run (Head.CInit 48000
                       :: HeadSpec.buffer_calls F32.one (S (Z.to_nat 48000)))
                    (Head.new Head.WRITE) (Buf.fresh (Z.to_nat 48000)) in
  0 <= 48000 <= Int32.max_signed
  /\ Head.maxBufferSamples_ (snd (fst r)) = 48000
  /\ last (Buf.accesses (snd r)) 0 = 48000.
Proof.
  cbv zeta.
  assert (Hcap : 0 <= 48000 <= Int32.max_signed)
    by (vm_compute; split; discriminate).
  destruct (Buffer_stores_past_capacity 48000 Head.WRITE F32.one
              (Buf.fresh (Z.to_nat 48000)) Hcap) as (Hm & _ & Hl).
  exact (conj Hcap (conj Hm Hl)).
Defined.

(** ** Clearing the buffer *)

Section Clear.

Import Head.

Lemma memset_length (bs : list byte) (c : byte) (n : nat) :
  length (Buf.memset bs c n) = length bs.
Proof.
  unfold Buf.memset. rewrite length_app, repeat_length, length_skipn. lia.
Qed.

Lemma memset_below (bs : list byte) (c : byte) (n k : nat) :
  (k < n)%nat -> (n <= length bs)%nat ->
  nth_error (Buf.memset bs c n) k = Some c.
Proof.
  intros Hk Hn. unfold Buf.memset.
  rewrite Nat.min_l by exact Hn.
  rewrite nth_error_app1 by (rewrite repeat_length; exact Hk).
  apply nth_error_repeat. exact Hk.
Qed.

Lemma memset_skipn (bs : list byte) (c : byte) (n k : nat) :
  (n <= k)%nat -> (n <= length bs)%nat ->
  skipn k (Buf.memset bs c n) = skipn k bs.
Proof.
  intros Hk Hn. unfold Buf.memset.
  rewrite Nat.min_l by exact Hn.
  rewrite skipn_app, repeat_length.
  rewrite skipn_all2 by (rewrite repeat_length; exact Hk).
  rewrite skipn_skipn. cbn [app]. f_equal. lia.
Qed.

Lemma memset_above (bs : list byte) (c : byte) (n k : nat) :
  (n <= k)%nat -> (n <= length bs)%nat ->
  nth_error (Buf.memset bs c n) k = nth_error bs k.
Proof.
  intros Hk Hn.
  rewrite <- (Nat.add_0_r k) at 1 2.
  rewrite <- !nth_error_skipn. rewrite memset_skipn by assumption. reflexivity.
Qed.

Lemma memset_firstn_zero (bs : list byte) (n k : nat) :
  (k + 4 <= n)%nat -> (n <= length bs)%nat ->
  firstn 4 (skipn k (Buf.memset bs x00 n)) = repeat x00 4.
Proof.
  intros Hk Hn. unfold Buf.memset.
  rewrite Nat.min_l by exact Hn.
  assert (Hr : repeat x00 n ++ skipn n bs
               = repeat x00 k
                 ++ repeat x00 4 ++ repeat x00 (n - k - 4) ++ skipn n bs).
  { replace n with (k + (4 + (n - k - 4)))%nat at 1 by lia.
    rewrite !repeat_app, <- !app_assoc. reflexivity. }
  rewrite Hr, skipn_app, repeat_length, Nat.sub_diag.
  rewrite skipn_all2 by (rewrite repeat_length; lia).
  reflexivity.
Qed.

(** C10: over a buffer of maxBufferSamples samples of four bytes,
    ClearBuffer zeroes the first maxBufferSamples bytes and no others: the
    samples that lie entirely below byte maxBufferSamples become 0, and
    every sample at an index i with i >= maxBufferSamples/4 (that is,
    4*i >= maxBufferSamples) is unchanged. *)
Theorem ClearBuffer_clears_leading_bytes (h : Head) (m : Buf.Mem) :
  Z.of_nat (length (Buf.bytes m)) = 4 * maxBufferSamples_ h ->
  maxBufferSamples_ h <= Int32.max_signed ->
  let m' := snd (ClearBuffer h m) in
  length (Buf.bytes m') = length (Buf.bytes m)
  /\ (forall k, Z.of_nat k < maxBufferSamples_ h ->
        nth_error (Buf.bytes m') k = Some x00)
  /\ (forall k, maxBufferSamples_ h <= Z.of_nat k ->
        nth_error (Buf.bytes m') k = nth_error (Buf.bytes m) k)
  /\ (forall i, 0 <= i -> 4 * i + 4 <= maxBufferSamples_ h ->
        Buf.sample (Buf.bytes m') i = F32.zero)
  /\ (forall i, maxBufferSamples_ h <= 4 * i ->
        Buf.sample (Buf.bytes m') i = Buf.sample (Buf.bytes m) i)
  /\ Buf.accesses m' = Buf.accesses m.
Proof.
  intros Hlen Hmax. cbv zeta. unfold ClearBuffer.
  cbn [snd Buf.bytes Buf.accesses].
  assert (Hcount : size_t_of_int32 (maxBufferSamples_ h) = maxBufferSamples_ h).
  { unfold size_t_of_int32. apply Z.mod_small. in_range. }
  rewrite Hcount.
  set (n := Z.to_nat (maxBufferSamples_ h)).
  assert (Hn : (n <= length (Buf.bytes m))%nat) by lia.
  split; [apply memset_length | ].
  split; [intros k Hk; apply memset_below; lia | ].
  split; [intros k Hk; apply memset_above; lia | ].
  split; [ | split; [ | reflexivity]].
  - intros i Hi0 Hi. unfold Buf.sample, Buf.in_bounds.
    rewrite memset_length.
    destruct (Z.leb_spec 0 i); [ | lia].
    destruct (Z.leb_spec (4 * i + 4) (Z.of_nat (length (Buf.bytes m))));
      [ | lia].
    cbn [andb]. rewrite memset_firstn_zero by lia. reflexivity.
  - intros i Hi. unfold Buf.sample, Buf.in_bounds.
    rewrite memset_length, memset_skipn by lia. reflexivity.
Qed.

End Clear.

(** A buffer of 8 samples holding 1.0 everywhere: ClearBuffer zeroes bytes
    0 to 7, that is samples 0 and 1, and samples 2 to 7 still hold 1.0. *)
Lemma ClearBuffer_clears_leading_bytes_witness :
  let h := Head.Init 8 (Head.new Head.WRITE) in
  let m := snd (Head.run (HeadSpec.buffer_calls F32.one 8) h (Buf.fresh 8)) in
  let m' := snd (Head.ClearBuffer h m) in
  Z.of_nat (length (Buf.bytes m)) = 4 * Head.maxBufferSamples_ h
  /\ map (Buf.sample (Buf.bytes m)) [0; 1; 2; 7]
     = [F32.one; F32.one; F32.one; F32.one]
  /\ Buf.sample (Buf.bytes m') 0 = F32.zero
  /\ Buf.sample (Buf.bytes m') 1 = F32.zero
  /\ Buf.sample (Buf.bytes m') 2 = F32.one
  /\ Buf.sample (Buf.bytes m') 7 = F32.one.
Proof.
  cbv zeta.
  set (h := Head.Init 8 (Head.new Head.WRITE)).
  set (m := snd (Head.run _ h _)).
  assert (Hlen : Z.of_nat (length (Buf.bytes m)) = 4 * Head.maxBufferSamples_ h)
    by (vm_compute; reflexivity).
  assert (Hmax : Head.maxBufferSamples_ h <= Int32.max_signed)
    by (vm_compute; discriminate).
  destruct (ClearBuffer_clears_leading_bytes h m Hlen Hmax)
    as (_ & _ & _ & Hzero & Hsame & _).
  split; [exact Hlen | split; [vm_compute; reflexivity | ]].
  split; [apply Hzero; vm_compute; discriminate | ].
  split; [apply Hzero; vm_compute; discriminate | ].
  split; (rewrite Hsame by (vm_compute; discriminate); vm_compute; reflexivity).
Defined.

(** ** The stereo engine *)

Section EngineLogic.

Import StereoLooper EngineSpec.

Context {L CF SVF : Type} {looper : LooperImpl L} {dsp : DaisySP CF SVF}.

Lemma hoare_bind {A B : Type} (P R : Engine L CF SVF -> Prop)
  (Q : B -> Engine L CF SVF -> Prop)
  (c : ST (Engine L CF SVF) A) (k : A -> ST (Engine L CF SVF) B) :
  hoare P c (fun _ => R) ->
  (forall a, hoare R (k a) Q) ->
  hoare P (bind c k) Q.
Proof. intros Hc Hk e He. unfold bind. apply Hk, Hc, He. Qed.

Lemma hoare_this {B : Type} (P : Engine L CF SVF -> Prop)
  (Q : B -> Engine L CF SVF -> Prop)
  (k : Engine L CF SVF -> ST (Engine L CF SVF) B) :
  (forall e0, P e0 -> hoare (fun e => e = e0) (k e0) Q) ->
  hoare P (bind this k) Q.
Proof. intros Hk e He. unfold bind, this. cbn [fst snd]. now apply (Hk e). Qed.

Lemma hoare_this_any {B : Type} (P : Engine L CF SVF -> Prop)
  (Q : B -> Engine L CF SVF -> Prop)
  (k : Engine L CF SVF -> ST (Engine L CF SVF) B) :
  (forall e0, hoare P (k e0) Q) ->
  hoare P (bind this k) Q.
Proof. intros Hk e He. unfold bind, this. cbn [fst snd]. now apply Hk. Qed.

Lemma hoare_pre {A : Type} (P P' : Engine L CF SVF -> Prop)
  (Q : A -> Engine L CF SVF -> Prop)
  (c : ST (Engine L CF SVF) A) :
  (forall e, P e -> P' e) -> hoare P' c Q -> hoare P c Q.
Proof. intros HP Hc e He. apply Hc, HP, He. Qed.

Lemma hoare_quiet {A X : Type} (F : Engine L CF SVF -> X)
  (J : X -> list Invocation -> Prop) (c : ST (Engine L CF SVF) A) :
  quiet F c -> lasting J ->
  hoare (fun e => J (F e) (calls_ e)) c (fun _ e => J (F e) (calls_ e)).
Proof.
  intros Hq HJ e He. destruct (Hq e) as [HF [l Hl]].
  rewrite HF, Hl. now apply HJ.
Qed.

(** A command that is quiet for [F], followed by the rest. *)
Lemma hoare_skip {A B X : Type} (F : Engine L CF SVF -> X)
  (J : X -> list Invocation -> Prop) (Q : B -> Engine L CF SVF -> Prop)
  (c : ST (Engine L CF SVF) A) (k : A -> ST (Engine L CF SVF) B) :
  quiet F c -> lasting J ->
  (forall a, hoare (fun e => J (F e) (calls_ e)) (k a) Q) ->
  hoare (fun e => J (F e) (calls_ e)) (bind c k) Q.
Proof.
  intros Hq HJ Hk. eapply hoare_bind; [ | exact Hk].
  now apply hoare_quiet.
Qed.

Lemma quiet_ret {A X : Type} (F : Engine L CF SVF -> X) (a : A) :
  quiet F (ret a).
Proof.
  intros e. split; [reflexivity | exists []; symmetry; apply app_nil_r].
Qed.

Lemma quiet_this {X : Type} (F : Engine L CF SVF -> X) : quiet F this.
Proof.
  intros e. split; [reflexivity | exists []; symmetry; apply app_nil_r].
Qed.

Lemma quiet_bind {A B X : Type} (F : Engine L CF SVF -> X)
  (c : ST (Engine L CF SVF) A) (k : A -> ST (Engine L CF SVF) B) :
  quiet F c -> (forall a, quiet F (k a)) -> quiet F (bind c k).
Proof.
  intros Hc Hk e. unfold bind.
  destruct (Hc e) as [HF [l Hl]].
  destruct (Hk (fst (c e)) (snd (c e))) as [HF' [l' Hl']].
  split; [congruence | ].
  exists (l ++ l'). rewrite Hl', Hl. symmetry. apply app_assoc.
Qed.

Lemma quiet_if {A X : Type} (F : Engine L CF SVF -> X) (b : bool)
  (c1 c2 : ST (Engine L CF SVF) A) :
  quiet F c1 -> quiet F c2 -> quiet F (if b then c1 else c2).
Proof. destruct b; auto. Qed.

Lemma quiet_assign {X : Type} (F : Engine L CF SVF -> X)
  (f : Engine L CF SVF -> Engine L CF SVF) :
  (forall e, F (f e) = F e) ->
  (forall e, calls_ (f e) = calls_ e) ->
  quiet F (assign f).
Proof.
  intros HF Hl e. unfold assign. cbn [snd].
  split; [apply HF | exists []; rewrite Hl; symmetry; apply app_nil_r].
Qed.

Lemma quiet_on_left {R X : Type} (F : Engine L CF SVF -> X)
  (c : LooperCall R) :
  (forall e l r, F (set_calls_ l (set_loopers_LEFT r e)) = F e) ->
  quiet F (on_left c).
Proof.
  intros HF e. unfold on_left. cbn [snd].
  split; [apply HF | eexists; reflexivity].
Qed.

Lemma quiet_on_right {R X : Type} (F : Engine L CF SVF -> X)
  (c : LooperCall R) :
  (forall e l r, F (set_calls_ l (set_loopers_RIGHT r e)) = F e) ->
  quiet F (on_right c).
Proof.
  intros HF e. unfold on_right. cbn [snd].
  split; [apply HF | eexists; reflexivity].
Qed.

End EngineLogic.

(** Proves that a piece of the code of the engine is quiet for a member it does
    not assign, by the structure of the code. *)
Ltac quiet :=
  cbv zeta;
  lazymatch goal with
  | |- EngineSpec.quiet _ (bind _ _) =>
      apply quiet_bind; [quiet | intro; quiet]
  | |- EngineSpec.quiet _ (ret _) => apply quiet_ret
  | |- EngineSpec.quiet _ StereoLooper.this => apply quiet_this
  | |- EngineSpec.quiet _ (StereoLooper.assign _) =>
      apply quiet_assign; intros; reflexivity
  | |- EngineSpec.quiet _ (StereoLooper.on_left _) =>
      apply quiet_on_left; intros; reflexivity
  | |- EngineSpec.quiet _ (StereoLooper.on_right _) =>
      apply quiet_on_right; intros; reflexivity
  | |- EngineSpec.quiet _ (if _ then _ else _) => apply quiet_if; quiet
  | |- EngineSpec.quiet _ (match ?x with _ => _ end) => destruct x; quiet
  | |- EngineSpec.quiet _ StereoLooper.UpdateParameters =>
      unfold StereoLooper.UpdateParameters; quiet
  | |- EngineSpec.quiet _ StereoLooper.Reset =>
      unfold StereoLooper.Reset; quiet
  | |- EngineSpec.quiet _ (StereoLooper.Filter _ _ _) =>
      unfold StereoLooper.Filter; quiet
  end.

(** Steps over a command that is quiet for the member the precondition
    speaks of. *)
Ltac skip F J HJ :=
  lazymatch goal with
  | |- EngineSpec.hoare _ (bind StereoLooper.this _) _ =>
      apply hoare_this_any; intro
  | |- EngineSpec.hoare _ (bind _ _) _ =>
      apply (hoare_skip F J); [quiet | exact HJ | intro]
  | |- EngineSpec.hoare _ (match ?x with _ => _ end) _ => destruct x
  | |- EngineSpec.hoare _ _ _ => apply (hoare_quiet F J); [quiet | exact HJ]
  end.

Ltac skips F J HJ n :=
  lazymatch n with
  | O => idtac
  | S ?n' => skip F J HJ; skips F J HJ n'
  end.

(** Runs [Process] from a state [e0] in which the looper runs: [n] commands
    that are quiet for [F] under [Jpre], then the block that serves a
    request, left as a goal, then commands that are quiet under [Jpost]. *)
Ltac serve F Jpre Hpre Jpost Hpost Hrunning n :=
  unfold StereoLooper.Process; apply hoare_this; intros ? ->;
  apply (hoare_pre _ (fun e => Jpre (F e) (StereoLooper.calls_ e)));
  [ intros ? -> |
    apply (hoare_bind _ (fun e => Jpost (F e) (StereoLooper.calls_ e)));
    [ destruct Hrunning as [-> | ->];
      (skips F Jpre Hpre n;
       apply hoare_this; intros ? ?;
       apply (hoare_bind _ (fun e => Jpost (F e) (StereoLooper.calls_ e)));
       [ intros ? -> | intro; repeat (skip F Jpost Hpost) ])
    | intro; repeat (skip F Jpost Hpost) ] ].

Ltac engine_simpl :=
  cbv [bind ret StereoLooper.assign StereoLooper.on_left
       StereoLooper.on_right StereoLooper.Reset];
  cbn [fst snd StereoLooper.calls_ StereoLooper.set_calls_
       StereoLooper.loopers_LEFT StereoLooper.loopers_RIGHT
       StereoLooper.set_loopers_LEFT StereoLooper.set_loopers_RIGHT
       StereoLooper.mustClearBuffer StereoLooper.set_mustClearBuffer
       StereoLooper.mustResetLooper StereoLooper.set_mustResetLooper
       StereoLooper.mustRestart StereoLooper.set_mustRestart
       StereoLooper.mustStart StereoLooper.set_mustStart
       StereoLooper.mustStop StereoLooper.set_mustStop
       StereoLooper.state_ StereoLooper.set_state_].

Section Calls.

Import StereoLooper EngineSpec.

Lemma extends_refl (l : list Invocation) : extends l l.
Proof. exists []. symmetry. apply app_nil_r. Qed.

Lemma extends_app (l0 l l' : list Invocation) :
  extends l0 l -> extends l0 (l ++ l').
Proof. intros [a ->]. exists (a ++ l'). symmetry. apply app_assoc. Qed.

Lemma made_last (l0 l : list Invocation) (x : Invocation) :
  extends l0 l -> made l0 (l ++ [x]) x.
Proof. intros [a ->]. exists a, []. symmetry. apply app_assoc. Qed.

Lemma made_app (l0 l l' : list Invocation) (x : Invocation) :
  made l0 l x -> made l0 (l ++ l') x.
Proof.
  intros (a & b & ->). exists a, (b ++ l').
  rewrite <- !app_assoc. reflexivity.
Qed.

Lemma lasting_flag {X : Type} (v0 : X) :
  lasting (fun v (_ : list Invocation) => v = v0).
Proof. intros v l l' H. exact H. Qed.

Lemma lasting_pending {X : Type} (P : X -> Prop) (l0 : list Invocation) :
  lasting (fun v l => P v /\ extends l0 l).
Proof.
  intros v l l' [Hv Hl]. split; [exact Hv | now apply extends_app].
Qed.

Lemma applied_in_app {R : Type} (l0 l l' : list Invocation)
  (c : LooperCall R) :
  applied_in l0 l c -> applied_in l0 (l ++ l') c.
Proof.
  intros [[r Hl] [r' Hr]].
  split; eexists; apply made_app; eassumption.
Qed.

Lemma lasting_applied {R X : Type} (l0 : list Invocation) (c : LooperCall R) :
  lasting (fun (_ : X) l => applied_in l0 l c).
Proof. intros v l l'. apply applied_in_app. Qed.

Lemma lasting_reported (l0 : list Invocation) (c : LooperCall bool) :
  lasting (fun (v : bool) l => reported_in l0 l c (negb v)).
Proof.
  intros v l l' (dl & dr & Hl & Hr & Hd).
  exists dl, dr. repeat split; try apply made_app; assumption.
Qed.

End Calls.

(** Finds a call among the last ones of a list. *)
Ltac made :=
  first [ apply made_last; repeat apply extends_app; assumption
        | apply made_app; made ].

(** The flag [F] of a one-shot request is false after [Process]; [n] is the
    number of commands before the block that serves the request. *)
Ltac cleared F n :=
  let Jpre := fresh "Jpre" in
  let Jpost := fresh "Jpost" in
  let Hpre := fresh "Hpre" in
  let Hpost := fresh "Hpost" in
  let H := fresh "H" in
  let Hflag := fresh "Hflag" in
  pose (Jpre := fun (_ : bool) (_ : list StereoLooper.Invocation) => True);
  pose (Jpost := fun (v : bool) (_ : list StereoLooper.Invocation) =>
                   v = false);
  assert (Hpre : EngineSpec.lasting Jpre) by (intros ? ? ? H; exact H);
  assert (Hpost : EngineSpec.lasting Jpost) by apply lasting_flag;
  lazymatch goal with
  | Hrunning : EngineSpec.running ?e0
    |- _ (snd (StereoLooper.Process ?l ?r ?e0)) = false =>
      enough (H : EngineSpec.hoare (fun e => e = e0)
                    (StereoLooper.Process l r)
                    (fun _ e => Jpost (F e) (StereoLooper.calls_ e)))
        by exact (H e0 eq_refl);
      serve F Jpre Hpre Jpost Hpost Hrunning n;
      [ exact I
      | subst Jpost; cbv beta; destruct (F _) eqn:Hflag; engine_simpl;
        [reflexivity | exact Hflag] .. ]
  end.

Section EngineRequests.

Import StereoLooper EngineSpec.

Context {L CF SVF : Type} {looper : LooperImpl L} {dsp : DaisySP CF SVF}.

Variables leftIn rightIn : float.
Variable e0 : Engine L CF SVF.
Hypothesis Hrunning : running e0.

Lemma Process_clears_mustClearBuffer :
  mustClearBuffer (snd (Process leftIn rightIn e0)) = false.
Proof. cleared (@mustClearBuffer L CF SVF) 1%nat. Qed.

Lemma Process_clears_mustResetLooper :
  mustResetLooper (snd (Process leftIn rightIn e0)) = false.
Proof. cleared (@mustResetLooper L CF SVF) 3%nat. Qed.

Lemma Process_clears_mustRestart :
  mustRestart (snd (Process leftIn rightIn e0)) = false.
Proof. cleared (@mustRestart L CF SVF) 5%nat. Qed.

Lemma Process_applies_mustClearBuffer :
  mustClearBuffer e0 = true ->
  applied e0 (snd (Process leftIn rightIn e0)) Looper_ClearBuffer.
Proof.
  intros Hpending.
  pose (Jpre := fun (v : bool) l => v = true /\ extends (calls_ e0) l).
  pose (Jpost := fun (_ : bool) l =>
                   applied_in (calls_ e0) l Looper_ClearBuffer).
  assert (Hpre : lasting Jpre) by apply lasting_pending.
  assert (Hpost : lasting Jpost) by apply lasting_applied.
  enough (H : hoare (fun e => e = e0) (Process leftIn rightIn)
                (fun _ e => Jpost (mustClearBuffer e) (calls_ e)))
    by exact (H e0 eq_refl).
  serve (@mustClearBuffer L CF SVF) Jpre Hpre Jpost Hpost Hrunning 1%nat.
  - split; [exact Hpending | apply extends_refl].
  - destruct H as [Hflag Hext]. rewrite Hflag. subst Jpost. engine_simpl.
    split; eexists; made.
  - destruct H as [Hflag Hext]. rewrite Hflag. subst Jpost. engine_simpl.
    split; eexists; made.
Qed.

Lemma Process_applies_mustResetLooper :
  mustResetLooper e0 = true ->
  let e' := snd (Process leftIn rightIn e0) in
  applied e0 e' (Looper_Stop true)
  /\ applied e0 e' Looper_Reset
  /\ state_ e' = BUFFERING.
Proof.
  intros Hpending.
  pose (F := fun e : Engine L CF SVF => (mustResetLooper e, state_ e)).
  pose (Jpre := fun (v : bool * State) l =>
                  fst v = true /\ extends (calls_ e0) l).
  pose (Jpost := fun (v : bool * State) l =>
                   (applied_in (calls_ e0) l (Looper_Stop true)
                    /\ applied_in (calls_ e0) l Looper_Reset)
                   /\ snd v = BUFFERING).
  assert (Hpre : lasting Jpre) by apply lasting_pending.
  assert (Hpost : lasting Jpost).
  { intros v l l' [[Hs Hr] Hv].
    split; [split; now apply applied_in_app | exact Hv]. }
  enough (H : hoare (fun e => e = e0) (Process leftIn rightIn)
                (fun _ e => Jpost (F e) (calls_ e))).
  { destruct (H e0 eq_refl) as [[Hs Hr] Hv].
    split; [exact Hs | split; [exact Hr | exact Hv]]. }
  serve F Jpre Hpre Jpost Hpost Hrunning 3%nat.
  - split; [exact Hpending | apply extends_refl].
  - destruct H as [Hflag Hext]. cbn [F fst] in Hflag. rewrite Hflag.
    subst Jpost F. engine_simpl.
    repeat split; try (eexists; made).
  - destruct H as [Hflag Hext]. cbn [F fst] in Hflag. rewrite Hflag.
    subst Jpost F. engine_simpl.
    repeat split; try (eexists; made).
Qed.

Lemma Process_applies_mustRestart :
  mustRestart e0 = true ->
  applied e0 (snd (Process leftIn rightIn e0)) Looper_Trigger.
Proof.
  intros Hpending.
  pose (Jpre := fun (v : bool) l => v = true /\ extends (calls_ e0) l).
  pose (Jpost := fun (_ : bool) l => applied_in (calls_ e0) l Looper_Trigger).
  assert (Hpre : lasting Jpre) by apply lasting_pending.
  assert (Hpost : lasting Jpost) by apply lasting_applied.
  enough (H : hoare (fun e => e = e0) (Process leftIn rightIn)
                (fun _ e => Jpost (mustRestart e) (calls_ e)))
    by exact (H e0 eq_refl).
  serve (@mustRestart L CF SVF) Jpre Hpre Jpost Hpost Hrunning 5%nat.
  - split; [exact Hpending | apply extends_refl].
  - destruct H as [Hflag Hext]. rewrite Hflag. subst Jpost. engine_simpl.
    split; eexists; made.
  - destruct H as [Hflag Hext]. rewrite Hflag. subst Jpost. engine_simpl.
    split; eexists; made.
Qed.

Lemma Process_reports_mustStart :
  mustStart e0 = true ->
  let e' := snd (Process leftIn rightIn e0) in
  reported e0 e' (Looper_Start false) (negb (mustStart e')).
Proof.
  intros Hpending.
  pose (Jpre := fun (v : bool) l => v = true /\ extends (calls_ e0) l).
  pose (Jpost := fun (v : bool) l =>
                   reported_in (calls_ e0) l (Looper_Start false) (negb v)).
  assert (Hpre : lasting Jpre) by apply lasting_pending.
  assert (Hpost : lasting Jpost) by apply lasting_reported.
  enough (H : hoare (fun e => e = e0) (Process leftIn rightIn)
                (fun _ e => Jpost (mustStart e) (calls_ e)))
    by exact (H e0 eq_refl).
  serve (@mustStart L CF SVF) Jpre Hpre Jpost Hpost Hrunning 7%nat.
  - split; [exact Hpending | apply extends_refl].
  - destruct H as [Hflag Hext]. rewrite Hflag. subst Jpost. engine_simpl.
    match goal with
    | |- context [if ?b then _ else _] => destruct b eqn:Hdone
    end; cbv beta; engine_simpl;
      (eexists _, _; split; [made | split; [made | ]]);
      rewrite ?Hflag; symmetry; exact Hdone.
  - destruct H as [Hflag Hext]. rewrite Hflag. subst Jpost. engine_simpl.
    match goal with
    | |- context [if ?b then _ else _] => destruct b eqn:Hdone
    end; cbv beta; engine_simpl;
      (eexists _, _; split; [made | split; [made | ]]);
      rewrite ?Hflag; symmetry; exact Hdone.
Qed.

Lemma Process_reports_mustStop :
  mustStop e0 = true ->
  let e' := snd (Process leftIn rightIn e0) in
  reported e0 e' (Looper_Stop false) (negb (mustStop e')).
Proof.
  intros Hpending.
  pose (Jpre := fun (v : bool) l => v = true /\ extends (calls_ e0) l).
  pose (Jpost := fun (v : bool) l =>
                   reported_in (calls_ e0) l (Looper_Stop false) (negb v)).
  assert (Hpre : lasting Jpre) by apply lasting_pending.
  assert (Hpost : lasting Jpost) by apply lasting_reported.
  enough (H : hoare (fun e => e = e0) (Process leftIn rightIn)
                (fun _ e => Jpost (mustStop e) (calls_ e)))
    by exact (H e0 eq_refl).
  serve (@mustStop L CF SVF) Jpre Hpre Jpost Hpost Hrunning 9%nat.
  - split; [exact Hpending | apply extends_refl].
  - destruct H as [Hflag Hext]. rewrite Hflag. subst Jpost. engine_simpl.
    match goal with
    | |- context [if ?b then _ else _] => destruct b eqn:Hdone
    end; cbv beta; engine_simpl;
      (eexists _, _; split; [made | split; [made | ]]);
      rewrite ?Hflag; symmetry; exact Hdone.
  - destruct H as [Hflag Hext]. rewrite Hflag. subst Jpost. engine_simpl.
    match goal with
    | |- context [if ?b then _ else _] => destruct b eqn:Hdone
    end; cbv beta; engine_simpl;
      (eexists _, _; split; [made | split; [made | ]]);
      rewrite ?Hflag; symmetry; exact Hdone.
Qed.

(** No state of [Process] reads or clears the write-rate request. *)
Lemma Process_keeps_mustSetChannelWriteRate (e : Engine L CF SVF) :
  mustSetChannelWriteRate (snd (Process leftIn rightIn e))
  = mustSetChannelWriteRate e.
Proof.
  assert (H : quiet (@mustSetChannelWriteRate L CF SVF)
                (Process leftIn rightIn))
    by (unfold Process; quiet).
  apply H.
Qed.

End EngineRequests.

(** C5, as amended: whenever Process is called in the Recording or Frozen
    state, a pending clear-buffer, reset or restart request is applied to
    both channel loopers during that call (a reset also returns the engine
    to Buffering) and its flag is cleared by the end of the call; a pending
    start or stop request is passed to both channel loopers during that
    call, and its flag is cleared by the end of the call exactly when both
    report completion. *)
Theorem Process_serves_requests
  {L CF SVF : Type} (looper : StereoLooper.LooperImpl L)
  (dsp : StereoLooper.DaisySP CF SVF)
  (leftIn rightIn : float) (e : StereoLooper.Engine L CF SVF) :
  EngineSpec.running e ->
  let e' := snd (StereoLooper.Process leftIn rightIn e) in
  (StereoLooper.mustClearBuffer e' = false
   /\ (StereoLooper.mustClearBuffer e = true ->
       EngineSpec.applied e e' StereoLooper.Looper_ClearBuffer))
  /\ (StereoLooper.mustResetLooper e' = false
      /\ (StereoLooper.mustResetLooper e = true ->
          EngineSpec.applied e e' (StereoLooper.Looper_Stop true)
          /\ EngineSpec.applied e e' StereoLooper.Looper_Reset
          /\ StereoLooper.state_ e' = StereoLooper.BUFFERING))
  /\ (StereoLooper.mustRestart e' = false
      /\ (StereoLooper.mustRestart e = true ->
          EngineSpec.applied e e' StereoLooper.Looper_Trigger))
  /\ (StereoLooper.mustStart e = true ->
      EngineSpec.reported e e' (StereoLooper.Looper_Start false)
        (negb (StereoLooper.mustStart e')))
  /\ (StereoLooper.mustStop e = true ->
      EngineSpec.reported e e' (StereoLooper.Looper_Stop false)
        (negb (StereoLooper.mustStop e'))).
Proof.
  intros Hrunning. cbv zeta.
  split; [split | split; [split | split; [split | split]]].
  - now apply Process_clears_mustClearBuffer.
  - now apply Process_applies_mustClearBuffer.
  - now apply Process_clears_mustResetLooper.
  - now apply Process_applies_mustResetLooper.
  - now apply Process_clears_mustRestart.
  - now apply Process_applies_mustRestart.
  - now apply Process_reports_mustStart.
  - now apply Process_reports_mustStop.
Qed.

(** The engine in Gate mode, where SetTriggerMode has requested a restart,
    over the idle looper: Process triggers both loopers and clears the
    flag. *)
Lemma Process_serves_requests_witness :
  let e := snd (StereoLooper.SetTriggerMode StereoLooper.GATE
                  EngineSpec.started) in
  let e' := snd (@StereoLooper.Process unit unit unit EngineSpec.Idle
                   EngineSpec.Bypass F32.one F32.one e) in
  EngineSpec.running e
  /\ StereoLooper.mustRestart e = true
  /\ StereoLooper.mustRestart e' = false
  /\ EngineSpec.applied e e' StereoLooper.Looper_Trigger.
Proof.
  cbv zeta.
  assert (Hrunning : EngineSpec.running
            (snd (StereoLooper.SetTriggerMode StereoLooper.GATE
                    EngineSpec.started)))
    by (left; reflexivity).
  destruct (Process_serves_requests EngineSpec.Idle EngineSpec.Bypass
              F32.one F32.one _ Hrunning)
    as (_ & _ & [Hflag Happlied] & _).
  split; [exact Hrunning | split; [reflexivity | split]].
  - exact Hflag.
  - apply Happlied. reflexivity.
Defined.

(** C5 as stated fails: a write-rate request set by SetWriteRate is still
    pending after Process, and so is a start request when a channel looper
    does not report completion. *)
Lemma Process_leaves_requests_pending :
  (let e := snd (StereoLooper.SetWriteRate StereoLooper.LEFT F32.one
                   EngineSpec.started) in
   let e' := snd (@StereoLooper.Process unit unit unit EngineSpec.Idle
                    EngineSpec.Bypass F32.one F32.one e) in
   EngineSpec.running e
   /\ StereoLooper.mustSetChannelWriteRate e = StereoLooper.LEFT
   /\ StereoLooper.mustSetChannelWriteRate e' = StereoLooper.LEFT
   /\ StereoLooper.mustSetChannelWriteRate e' <> StereoLooper.NONE)
  /\ (let e := snd (StereoLooper.SetTriggerMode StereoLooper.LOOP
                      EngineSpec.started) in
      let e' := snd (@StereoLooper.Process unit unit unit EngineSpec.Idle
                       EngineSpec.Bypass F32.one F32.one e) in
      EngineSpec.running e
      /\ StereoLooper.mustStart e = true
      /\ StereoLooper.mustStart e' = true).
Proof.
  split; cbv zeta.
  - split; [left; reflexivity | ].
    split; [reflexivity | ].
    split; [vm_compute; reflexivity | vm_compute; discriminate].
  - split; [left; reflexivity | ].
    split; [reflexivity | vm_compute; reflexivity].
Qed.

(** * Further properties of the cursor *)

Section Setters.

Import Head HeadSpec CursorSpec.

(** What SetLoopLength assigns and returns. *)
Lemma SetLoopLength_applied (length : Z) (h : Head) :
  let r := SetLoopLength length h in
  fst r = loopLength_ (snd r)
  /\ fst r = Z.min (Z.max length kMinLoopLengthSamples) (bufferSamples_ h)
  /\ loopStart_ (snd r) = loopStart_ h
  /\ bufferSamples_ (snd r) = bufferSamples_ h.
Proof.
  cbv zeta. unfold SetLoopLength, CalculateLoopEnd.
  head_simpl. destruct (_ >? _); head_simpl; repeat split; reflexivity.
Qed.

(** X1: SetLoopLength applies and returns min(max(length, 48),
    bufferedLength): a value in [48, bufferedLength] when at least 48
    samples are buffered, and bufferedLength itself, below the minimum,
    when fewer are.  It leaves loopStart and bufferedLength alone. *)
Theorem SetLoopLength_clamps (length : Z) (h : Head) :
  let r := SetLoopLength length h in
  fst r = loopLength_ (snd r)
  /\ fst r = Z.min (Z.max length kMinLoopLengthSamples) (bufferSamples_ h)
  /\ (kMinLoopLengthSamples <= bufferSamples_ h ->
      kMinLoopLengthSamples <= fst r <= bufferSamples_ h)
  /\ (bufferSamples_ h < kMinLoopLengthSamples -> fst r = bufferSamples_ h)
  /\ loopStart_ (snd r) = loopStart_ h
  /\ bufferSamples_ (snd r) = bufferSamples_ h.
Proof.
  destruct (SetLoopLength_applied length h) as (Hret & Hval & Hs & Hb).
  cbv zeta in *. unfold kMinLoopLengthSamples in *.
  repeat split; try assumption; lia.
Qed.

(** X2: the loop setters are idempotent: SetLoopStart and SetLoopLength
    applied to the value they returned return it again and leave the
    cursor as it is. *)
Theorem loop_setters_idempotent (v : Z) (h : Head) :
  SetLoopStart (fst (SetLoopStart v h)) (snd (SetLoopStart v h))
  = SetLoopStart v h
  /\ SetLoopLength (fst (SetLoopLength v h)) (snd (SetLoopLength v h))
     = SetLoopLength v h.
Proof.
  destruct h as [ty mx bs ii ix rt fi ls le ll rn lp mv dr mf sv fa sa pd
                   cv iv st].
  split.
  - unfold SetLoopStart.
    cbv [set_loopStart_ bufferSamples_ type_ maxBufferSamples_ intIndex_
         index_ rate_ fadeIndex_ loopStart_ loopEnd_ loopLength_ run_
         looping_ movement_ direction_ mustFade_ snapshotValue_ fastAvg
         slowAvg prevDifference currentValue_ inputValue_ isStopping_].
    set (b := Int32.sub bs 1).
    set (c := Z.min (Z.max v 0) b).
    assert (Hc : Z.min (Z.max c 0) b = c) by lia.
    unfold CalculateLoopEnd. head_simpl.
    destruct (Int32.add c ll >? bs) eqn:Hgt;
      cbv [set_loopEnd_ set_loopStart_ set_index_ set_intIndex_
           ResetPosition SetIndex bufferSamples_ type_ maxBufferSamples_
           intIndex_ index_ rate_ fadeIndex_ loopStart_ loopEnd_
           loopLength_ run_ looping_ movement_ direction_ mustFade_
           snapshotValue_ fastAvg slowAvg prevDifference currentValue_
           inputValue_ isStopping_ fst snd negb];
      destruct lp; cbv iota; fold b; rewrite ?Hc, ?Hgt; reflexivity.
  - unfold SetLoopLength.
    cbv [set_loopLength_ bufferSamples_ type_ maxBufferSamples_ intIndex_
         index_ rate_ fadeIndex_ loopStart_ loopEnd_ loopLength_ run_
         looping_ movement_ direction_ mustFade_ snapshotValue_ fastAvg
         slowAvg prevDifference currentValue_ inputValue_ isStopping_].
    set (c := Z.min (Z.max v kMinLoopLengthSamples) bs).
    assert (Hc : Z.min (Z.max c kMinLoopLengthSamples) bs = c)
      by (unfold kMinLoopLengthSamples in *; lia).
    unfold CalculateLoopEnd. head_simpl.
    destruct (Int32.add ls c >? bs) eqn:Hgt;
      cbv [set_loopEnd_ set_loopLength_ bufferSamples_ type_
           maxBufferSamples_ intIndex_ index_ rate_ fadeIndex_ loopStart_
           loopEnd_ loopLength_ run_ looping_ movement_ direction_
           mustFade_ snapshotValue_ fastAvg slowAvg prevDifference
           currentValue_ inputValue_ isStopping_ fst snd];
      rewrite ?Hc, ?Hgt; reflexivity.
Qed.

End Setters.


Section Geometry.

Import Head HeadSpec CursorSpec.

(** The loop end computed from a loop start inside the buffered region and
    a loop length between 1 and the buffered length. *)
Lemma CalculateLoopEnd_buffered (h : Head) :
  bufferSamples_ h <= 2 ^ 30 ->
  0 <= loopStart_ h < bufferSamples_ h ->
  1 <= loopLength_ h <= bufferSamples_ h ->
  0 <= loopEnd_ (CalculateLoopEnd h) < bufferSamples_ h
  /\ loopEnd_ (CalculateLoopEnd h)
     = (loopStart_ h + loopLength_ h - 1) mod bufferSamples_ h.
Proof.
  intros Hbs Hs Hl. unfold CalculateLoopEnd.
  rewrite (add32_exact (loopStart_ h) (loopLength_ h)) by in_range.
  destruct (Z.gtb_spec (loopStart_ h + loopLength_ h) (bufferSamples_ h));
    head_simpl.
  - rewrite (sub32_exact (_ + _) (bufferSamples_ h)) by in_range.
    rewrite sub32_exact by in_range.
    split; [lia | ].
    apply Z.mod_unique with (q := 1); lia.
  - rewrite sub32_exact by in_range.
    split; [lia | ].
    symmetry. apply Z.mod_small. lia.
Qed.

(** X3: over a buffered region of 1 to 2^30 samples, SetLoopStart followed
    by SetLoopLength, in either order and for any arguments, leaves a valid
    geometry: loopStart and loopEnd inside the buffered region, with
    loopEnd = (loopStart + loopLength - 1) mod bufferedLength. *)
Theorem loop_setters_establish_geometry (start length : Z) (h : Head) :
  1 <= bufferSamples_ h <= 2 ^ 30 ->
  let h1 := snd (SetLoopLength length (snd (SetLoopStart start h))) in
  let h2 := snd (SetLoopStart start (snd (SetLoopLength length h))) in
  (geometry_valid h1
   /\ loopEnd_ h1 = (loopStart_ h1 + loopLength_ h1 - 1) mod bufferSamples_ h1)
  /\ (geometry_valid h2
      /\ loopEnd_ h2
         = (loopStart_ h2 + loopLength_ h2 - 1) mod bufferSamples_ h2).
Proof.
  intros Hbs. cbv zeta.
  assert (Hgeo : forall h0 : Head,
             bufferSamples_ h0 = bufferSamples_ h ->
             0 <= loopStart_ h0 < bufferSamples_ h0 ->
             1 <= loopLength_ h0 <= bufferSamples_ h0 ->
             geometry_valid (CalculateLoopEnd h0)
             /\ loopEnd_ (CalculateLoopEnd h0)
                = (loopStart_ (CalculateLoopEnd h0)
                   + loopLength_ (CalculateLoopEnd h0) - 1)
                  mod bufferSamples_ (CalculateLoopEnd h0)).
  { intros h0 Hb Hs Hl.
    destruct (CalculateLoopEnd_buffered h0) as [Hin Hmod]; try lia.
    assert (Hf : loopStart_ (CalculateLoopEnd h0) = loopStart_ h0
                 /\ loopLength_ (CalculateLoopEnd h0) = loopLength_ h0
                 /\ bufferSamples_ (CalculateLoopEnd h0) = bufferSamples_ h0)
      by (unfold CalculateLoopEnd; destruct (_ >? _); auto).
    destruct Hf as (Hf1 & Hf2 & Hf3).
    unfold geometry_valid. rewrite Hf1, Hf2, Hf3.
    unfold Int32.max_signed. repeat split; try lia; exact Hmod. }
  split.
  - unfold SetLoopLength. cbn [snd].
    destruct (SetLoopStart_applied start h) as (_ & Hval & Hsame).
    rewrite sub32_exact in Hval by in_range.
    apply Hgeo; head_simpl; unfold kMinLoopLengthSamples; lia.
  - unfold SetLoopStart. head_simpl.
    destruct (SetLoopLength_applied length h) as (Hret & Hval & Hs & Hb).
    cbv zeta in *. rewrite Hret in Hval.
    unfold kMinLoopLengthSamples in Hval.
    set (h0 := set_loopStart_ _ _).
    assert (Hh0 : bufferSamples_ h0 = bufferSamples_ h
                  /\ 0 <= loopStart_ h0 < bufferSamples_ h0
                  /\ 1 <= loopLength_ h0 <= bufferSamples_ h0).
    { subst h0. head_simpl. rewrite Hb, Hval.
      rewrite sub32_exact by in_range. lia. }
    destruct Hh0 as (Hb0 & Hs0 & Hl0).
    destruct (Hgeo h0 Hb0 Hs0 Hl0) as [Hg Hm].
    destruct (negb (looping_ (CalculateLoopEnd h0))).
    + unfold ResetPosition, SetIndex, geometry_valid in *. head_simpl.
      split; assumption.
    + split; assumption.
Qed.

End Geometry.


Section CaptureEnd.

Import Head HeadSpec CursorSpec.

Lemma run_app (cs cs' : list Call) :
  forall (h : Head) (m : Buf.Mem),
    run (cs ++ cs') h m
    = (fst (fst (run cs h m))
         ++ fst (fst (run cs' (snd (fst (run cs h m))) (snd (run cs h m)))),
       snd (fst (run cs' (snd (fst (run cs h m))) (snd (run cs h m)))),
       snd (run cs' (snd (fst (run cs h m))) (snd (run cs h m)))).
Proof.
  induction cs as [ | c cs IH]; intros h m.
  - cbn [app run]. cbv [ret]. cbn [fst snd app].
    destruct (run cs' h m) as [[rs h'] m']. reflexivity.
  - cbn [app run]. cbv [bind ret]. cbn [fst snd].
    rewrite IH. cbn [fst snd app]. reflexivity.
Qed.

(** X4: the initial capture.  After Init with a buffer of [capacity]
    samples, [n <= capacity] calls of Buffer store at the indices
    0, ..., n-1 and nowhere else, and StopBuffering then returns [n] and
    leaves bufferedLength = n, the loop spanning the captured region
    (loopStart = 0, loopLength = n, loopEnd = n-1) and the cursor rewound
    to index 0. *)
Theorem capture_then_StopBuffering
  (capacity : Z) (n : nat) (type : HeadType) (v : float) (m : Buf.Mem) :
  Z.of_nat n <= capacity <= Int32.max_signed ->
  let r := run (capture capacity v n) (new type) m in
  let h := snd (fst r) in
  last (fst (fst r)) RVoid = RInt (Z.of_nat n)
  /\ bufferSamples_ h = Z.of_nat n
  /\ loopStart_ h = 0
  /\ loopLength_ h = Z.of_nat n
  /\ loopEnd_ h = Z.of_nat n - 1
  /\ intIndex_ h = 0
  /\ index_ h = F32.zero
  /\ Buf.accesses (snd r) = Buf.accesses m ++ indices 0 n.
Proof.
  intros Hn.
  pose proof (run_buffer_calls v n (Init capacity (new type)) m) as H.
  cbn [Init new Reset bufferSamples_ intIndex_ maxBufferSamples_
       set_maxBufferSamples_ set_intIndex_ set_index_ set_rate_
       set_loopStart_ set_loopEnd_ set_loopLength_ set_run_ set_looping_
       set_movement_ set_direction_] in H.
  destruct H as (Hr & Hi & Hb & Hm & Ha); [lia | lia | lia | lia | ].
  cbv zeta. unfold capture.
  cbn [run exec]. cbv [bind ret]. cbn [fst snd].
  rewrite run_app. cbn [fst snd].
  set (r0 := run (buffer_calls v n) (Init capacity (new type)) m) in *.
  assert (Hdir : direction_ (snd (fst r0)) = FORWARD
                 /\ loopStart_ (snd (fst r0)) = 0).
  { assert (Hgen : forall k (h0 : Head) (m0 : Buf.Mem),
               direction_ (snd (fst (run (buffer_calls v k) h0 m0)))
               = direction_ h0
               /\ loopStart_ (snd (fst (run (buffer_calls v k) h0 m0)))
                  = loopStart_ h0).
    { induction k as [ | k IHk]; intros h0 m0; [split; reflexivity | ].
      unfold buffer_calls. cbn [repeat run exec]. cbv [bind ret].
      cbn [fst snd]. fold (buffer_calls v k).
      destruct (IHk (snd (fst (Buffer v h0 m0))) (snd (Buffer v h0 m0)))
        as [-> ->].
      unfold Buffer. cbv [bind ret store]. cbn [fst snd].
      destruct (_ >? _); split; reflexivity. }
    subst r0. destruct (Hgen n (Init capacity (new type)) m) as [-> ->].
    split; reflexivity. }
  destruct Hdir as [Hdir Hstart].
  cbn [run exec]. cbv [bind ret]. cbn [fst snd].
  unfold StopBuffering, ResetPosition, SetIndex. head_simpl.
  rewrite Hdir, Hstart, Hb, Ha. cbn [Direction_eqb FORWARD Z.eqb Pos.eqb].
  rewrite sub32_exact by in_range.
  change (RVoid :: fst (fst r0) ++ [RInt (0 + Z.of_nat n)])
    with ((RVoid :: fst (fst r0)) ++ [RInt (0 + Z.of_nat n)]).
  rewrite last_last.
  repeat split; try reflexivity; try lia; f_equal; lia.
Qed.

End CaptureEnd.


Section Boundary.

Import Head HeadSpec CursorSpec.

Lemma Movement_eqb_PENDULUM (mv : Movement) :
  Movement_eqb PENDULUM mv = true -> mv = PENDULUM.
Proof. destruct mv; cbn; congruence. Qed.

(** X5: what each boundary action tells about the cursor.  NO_ACTION leaves
    the cursor as it is; LOOP is only returned for a looping cursor, INVERT
    only for a looping cursor in Pendulum movement, STOP only for a cursor
    that does not loop; while loopEnd > loopStart a STOP does not move the
    cursor and is never returned for a cursor that is already stopping. *)
Theorem HandleLoopAction_classified (h : Head) :
  match fst (HandleLoopAction h) with
  | NO_ACTION => snd (HandleLoopAction h) = h
  | LOOP => looping_ h = true
  | INVERT => looping_ h = true /\ movement_ h = PENDULUM
  | STOP =>
      looping_ h = false
      /\ (loopEnd_ h > loopStart_ h ->
          isStopping_ h = false /\ snd (HandleLoopAction h) = h)
  end.
Proof.
  unfold HandleLoopAction. cbv zeta.
  destruct (Z.gtb_spec (loopEnd_ h) (loopStart_ h)) as [Hn | Hi];
    destruct (looping_ h) eqn:Hl;
    destruct (isStopping_ h) eqn:Hs;
    destruct (Movement_eqb PENDULUM (movement_ h)) eqn:Hm;
    try apply Movement_eqb_PENDULUM in Hm;
    cbn [andb negb];
    repeat (match goal with
            | |- context [if ?b then _ else _] => destruct b
            end; cbn [fst snd andb negb]);
    repeat split; try reflexivity; try assumption; try lia.
Qed.

End Boundary.

Section LoopingAdvance.

Import Head HeadSpec CursorSpec.

(** The boundary actions of a looping cursor. *)
Lemma HandleLoopAction_looping (h : Head) :
  looping_ h = true ->
  fst (HandleLoopAction h) <> STOP
  /\ (fst (HandleLoopAction h) = INVERT -> movement_ h = PENDULUM).
Proof.
  intros Hl. unfold HandleLoopAction. cbv zeta. rewrite Hl.
  destruct (isStopping_ h);
    destruct (Movement_eqb PENDULUM (movement_ h)) eqn:Hm;
    try apply Movement_eqb_PENDULUM in Hm;
    cbn [andb negb];
    repeat (match goal with
            | |- context [if ?b then _ else _] => destruct b
            end; cbn [fst snd andb negb]);
    split; congruence.
Qed.

(** X6: advancing a looping cursor.  Whatever its type, movement and
    position, UpdatePosition on a cursor that loops never touches the
    buffer, never disables the cursor and never begins a fade; it flips the
    direction only in Pendulum movement. *)
Theorem UpdatePosition_looping (h : Head) (m : Buf.Mem) :
  looping_ h = true ->
  let r := UpdatePosition h m in
  let h' := snd (fst r) in
  snd r = m
  /\ fst (fst r) = index_ h'
  /\ run_ h' = run_ h
  /\ isStopping_ h' = isStopping_ h
  /\ mustFade_ h' = mustFade_ h
  /\ fadeIndex_ h' = fadeIndex_ h
  /\ (movement_ h <> PENDULUM -> direction_ h' = direction_ h).
Proof.
  intros Hloop. cbv zeta. unfold UpdatePosition.
  destruct (run_ h) eqn:Hrun; cbv [negb ret]; cbn [fst snd];
    [ | repeat split; congruence].
  set (moved := SetIndex _ h).
  assert (Hm : same_control h moved) by apply SetIndex_same_control.
  assert (Hmv : movement_ moved = movement_ h) by reflexivity.
  pose proof (HandleLoopAction_same_control moved) as Hc.
  destruct (HandleLoopAction_looping moved Hloop) as [Hstop Hinv].
  destruct (HandleLoopAction moved) as [action h1]. cbn [fst snd] in *.
  unfold same_control in Hm, Hc.
  destruct Hm
    as (Ht0 & _ & _ & _ & _ & _ & Hd0 & Hr0 & Hl0 & Hf0 & Hi0 & _ & Hs0).
  destruct Hc
    as (Ht1 & _ & _ & _ & _ & _ & Hd1 & Hr1 & Hl1 & Hf1 & Hi1 & _ & Hs1).
  destruct (type_ h1); destruct action;
    cbv [bind ret ToggleDirection]; head_simpl;
    try congruence; repeat split; try congruence.
  intros Hp. elim Hp. rewrite <- Hmv. now apply Hinv.
Qed.

End LoopingAdvance.

Section Accesses.

Import Head HeadSpec CursorSpec.

(** WrapIndex maps every index of the active loop region, and each of its
    two neighbours, to an index of the buffered region. *)
Lemma WrapIndex_step_buffered (h : Head) (index step : Z) :
  geometry_valid h ->
  bufferSamples_ h <= 2 ^ 30 ->
  in_loop_region h index ->
  -1 <= step <= 1 ->
  buffered h (WrapIndex h (index + step)).
Proof.
  intros (Hmax & Hs & He) Hbs Hin Hstep.
  unfold in_loop_region in Hin. unfold buffered, WrapIndex.
  destruct (Z.gtb_spec (loopEnd_ h) (loopStart_ h)) as [Hn | Hi].
  - destruct (Z.gtb_spec (index + step) (loopEnd_ h)).
    + destruct (Movement_eqb PENDULUM (movement_ h)).
      * rewrite (sub32_exact (index + step)) by in_range.
        rewrite sub32_exact by in_range. lia.
      * destruct (Direction_eqb FORWARD (direction_ h)); [ | lia].
        rewrite (sub32_exact (index + step)) by in_range.
        rewrite add32_exact by in_range.
        rewrite sub32_exact by in_range. lia.
    + destruct (Z.ltb_spec (index + step) (loopStart_ h)); [ | lia].
      destruct (Movement_eqb PENDULUM (movement_ h)).
      * rewrite sub32_exact by in_range.
        rewrite add32_exact by in_range. lia.
      * destruct (Direction_eqb BACKWARDS (direction_ h)); [ | lia].
        rewrite (sub32_exact (loopStart_ h)) by in_range.
        unfold Int32.abs. rewrite (wrap32_id (Z.abs _)) by in_range.
        rewrite sub32_exact by in_range.
        rewrite add32_exact by in_range. lia.
  - rewrite (sub32_exact (bufferSamples_ h) 1) by in_range.
    destruct (Z.gtb_spec (index + step) (bufferSamples_ h - 1)).
    + rewrite (sub32_exact (index + step)) by in_range.
      rewrite sub32_exact by in_range. lia.
    + destruct (Z.ltb_spec (index + step) 0).
      * unfold Int32.abs. rewrite (wrap32_id (Z.abs _)) by in_range.
        rewrite sub32_exact by in_range.
        rewrite add32_exact by in_range. lia.
      * destruct (Z.gtb_spec (index + step) (loopEnd_ h));
          destruct (Z.ltb_spec (index + step) (loopStart_ h));
          cbn [andb]; try lia.
        destruct (Direction_eqb FORWARD (direction_ h));
          destruct (Movement_eqb PENDULUM (movement_ h)).
        -- rewrite (sub32_exact (index + step)) by in_range.
           rewrite sub32_exact by in_range. lia.
        -- rewrite (sub32_exact (index + step)) by in_range.
           rewrite add32_exact by in_range.
           rewrite sub32_exact by in_range. lia.
        -- rewrite sub32_exact by in_range.
           rewrite add32_exact by in_range. lia.
        -- rewrite (sub32_exact (loopStart_ h)) by in_range.
           rewrite sub32_exact by in_range.
           rewrite add32_exact by in_range. lia.
Qed.

(** ReadAt loads one or two samples and leaves the bytes alone. *)
Lemma ReadAt_memory (h : Head) (index : float) (m : Buf.Mem) :
  let i := F32.floor_to_int32 index in
  Buf.bytes (snd (ReadAt h index m)) = Buf.bytes m
  /\ (Buf.accesses (snd (ReadAt h index m)) = Buf.accesses m ++ [i]
      \/ Buf.accesses (snd (ReadAt h index m))
         = Buf.accesses m
             ++ [i; WrapIndex h (Int32.add i (direction_ h))]).
Proof.
  cbv zeta. unfold ReadAt. cbv [bind ret load]. cbn [fst snd].
  destruct (F32.gtb _ _); cbn [fst snd Buf.bytes Buf.accesses].
  - split; [reflexivity | right]. rewrite <- app_assoc. reflexivity.
  - split; [reflexivity | left; reflexivity].
Qed.

(** The loads of ReadAt at the position of a cursor on its loop. *)
Lemma ReadAt_buffered (h : Head) (m : Buf.Mem) :
  geometry_valid h ->
  bufferSamples_ h <= 2 ^ 30 ->
  directed h ->
  on_loop h ->
  exists l,
    Buf.accesses (snd (ReadAt h (index_ h) m)) = Buf.accesses m ++ l
    /\ Forall (buffered h) l /\ (length l <= 2)%nat.
Proof.
  intros Hgeo Hbs Hdir [Hfloor Hin].
  assert (Hhere : buffered h (intIndex_ h)).
  { pose proof (WrapIndex_step_buffered h (intIndex_ h) 0 Hgeo Hbs Hin) as H.
    rewrite Z.add_0_r in H.
    destruct Hgeo as (Hmax & Hs & He).
    unfold buffered, in_loop_region in *. lia. }
  destruct (ReadAt_memory h (index_ h) m) as [_ [Ha | Ha]];
    cbv zeta in Ha; rewrite <- Hfloor in Ha; rewrite Ha.
  - exists [intIndex_ h]. repeat split; [ | cbn; lia].
    constructor; [exact Hhere | constructor].
  - eexists. split; [reflexivity | ]. split; [ | cbn; lia].
    constructor; [exact Hhere | ]. constructor; [ | constructor].
    assert (Hstep : -1 <= direction_ h <= 1)
      by (destruct Hdir as [-> | ->]; unfold FORWARD, BACKWARDS; lia).
    rewrite add32_exact
      by (destruct Hgeo as (? & ? & ?); unfold buffered in Hhere; in_range).
    now apply WrapIndex_step_buffered.
Qed.

(** Read touches the buffer through ReadAt only. *)
Lemma Read_memory (h : Head) (m : Buf.Mem) :
  snd (Read h m) = snd (ReadAt h (index_ h) m).
Proof.
  unfold Read. cbv [bind ret Run Stop]. cbn [fst snd]. head_simpl.
  destruct (mustFade_ h); cbn [fst snd]; try reflexivity;
    destruct (F32.ltb _ _); reflexivity.
Qed.

(** X7: a Read on a cursor with a valid geometry over at most 2^30
    buffered samples, travelling in one of the two directions and sitting on
    its loop, loads at most two samples, all of them inside the buffered
    region, and changes no byte of the buffer. *)
Theorem Read_accesses_buffered (h : Head) (m : Buf.Mem) :
  geometry_valid h ->
  bufferSamples_ h <= 2 ^ 30 ->
  directed h ->
  on_loop h ->
  Buf.bytes (snd (Read h m)) = Buf.bytes m
  /\ exists l,
      Buf.accesses (snd (Read h m)) = Buf.accesses m ++ l
      /\ Forall (buffered h) l /\ (length l <= 2)%nat.
Proof.
  intros Hgeo Hbs Hdir Hon. rewrite Read_memory. split.
  - apply ReadAt_memory.
  - now apply ReadAt_buffered.
Qed.

(** Write touches the buffer through ReadAt and at most one store, made at
    the wrapped integer position; a cursor that is disabled and not fading
    in stores nothing. *)
Lemma Write_memory (v : float) (h : Head) (m : Buf.Mem) :
  let m1 := snd (ReadAt h (index_ h) m) in
  (snd (Write v h m) = m1
   \/ exists v', snd (Write v h m)
                 = snd (store (WrapIndex h (intIndex_ h)) v' m1))
  /\ (run_ h = false -> mustFade_ h <> IN -> snd (Write v h m) = m1).
Proof.
  cbv zeta. unfold Write. cbv [bind ret Run Stop]. cbn [fst snd]. head_simpl.
  generalize (ReadAt h (index_ h) m). intros [x m1]. cbn [fst snd].
  destruct (mustFade_ h) eqn:Hf; cbn [fst snd]; head_simpl;
    try destruct (F32.ltb _ _); cbn [fst snd]; head_simpl;
    try destruct (run_ h) eqn:Hr; cbn [fst snd];
    unfold ResetPosition, SetIndex; head_simpl;
    (split; [ lazymatch goal with
              | |- m1 = m1 \/ _ => left; reflexivity
              | |- _ => right; eexists; reflexivity
              end
            | intros; congruence ]).
Qed.

(** X8: a Write on a cursor with a valid geometry over at most 2^30
    buffered samples, travelling in one of the two directions and sitting on
    its loop, loads at most two samples and stores at most one, all of them
    inside the buffered region. *)
Theorem Write_accesses_buffered (v : float) (h : Head) (m : Buf.Mem) :
  geometry_valid h ->
  bufferSamples_ h <= 2 ^ 30 ->
  directed h ->
  on_loop h ->
  exists l,
    Buf.accesses (snd (Write v h m)) = Buf.accesses m ++ l
    /\ Forall (buffered h) l /\ (length l <= 3)%nat.
Proof.
  intros Hgeo Hbs Hdir Hon.
  destruct (ReadAt_buffered h m Hgeo Hbs Hdir Hon) as (l & Hl & Hall & Hlen).
  destruct (Write_memory v h m) as [[-> | [v' ->]] _].
  - exists l. repeat split; [exact Hl | exact Hall | lia].
  - cbv [store]. cbn [snd Buf.accesses]. rewrite Hl.
    exists (l ++ [WrapIndex h (intIndex_ h)]).
    rewrite app_assoc. repeat split.
    + apply Forall_app. split; [exact Hall | ].
      constructor; [ | constructor].
      pose proof (WrapIndex_step_buffered h (intIndex_ h) 0 Hgeo Hbs) as H.
      rewrite Z.add_0_r in H. apply H; [apply Hon | lia].
    + rewrite length_app. cbn. lia.
Qed.

(** X9: a Write on a cursor that is disabled and is not fading in stores
    nothing: it changes no byte of the buffer, whatever the value and the
    position of the cursor. *)
Theorem Write_disabled_keeps_bytes (v : float) (h : Head) (m : Buf.Mem) :
  run_ h = false ->
  mustFade_ h <> IN ->
  Buf.bytes (snd (Write v h m)) = Buf.bytes m.
Proof.
  intros Hrun Hfade.
  destruct (Write_memory v h m) as [_ ->]; [ | exact Hrun | exact Hfade].
  apply ReadAt_memory.
Qed.

End Accesses.

Section Reading.

Import Head HeadSpec CursorSpec.

Lemma SetUpFade_bytes (f : Fade) (h : Head) (m : Buf.Mem) :
  Buf.bytes (snd (SetUpFade f h m)) = Buf.bytes m.
Proof.
  unfold SetUpFade. cbv [bind ret]. cbn [fst snd]. apply ReadAt_memory.
Qed.

Lemma Run_bytes (fade : bool) (h : Head) (m : Buf.Mem) :
  Buf.bytes (snd (Run fade h m)) = Buf.bytes m.
Proof.
  unfold Run. destruct fade; [apply SetUpFade_bytes | reflexivity].
Qed.

Lemma Stop_bytes (fade : bool) (h : Head) (m : Buf.Mem) :
  Buf.bytes (snd (Stop fade h m)) = Buf.bytes m.
Proof.
  unfold Stop. destruct (fade && negb (isStopping_ h));
    [apply SetUpFade_bytes | reflexivity].
Qed.

Lemma UpdatePosition_bytes (h : Head) (m : Buf.Mem) :
  Buf.bytes (snd (UpdatePosition h m)) = Buf.bytes m.
Proof.
  unfold UpdatePosition.
  destruct (negb (run_ h)); [reflexivity | ].
  destruct (HandleLoopAction _) as [action h1].
  destruct (type_ h1); [destruct action | ]; cbv [bind ret]; cbn [fst snd];
    try reflexivity.
  apply Stop_bytes.
Qed.

(** A call that is not Write, Buffer or ClearBuffer leaves the bytes. *)
Lemma exec_bytes (c : Call) (h : Head) (m : Buf.Mem) :
  stores c = false -> Buf.bytes (snd (exec c h m)) = Buf.bytes m.
Proof.
  destruct c; cbn [stores]; intros Hc; try discriminate;
    unfold exec; cbv [bind ret]; cbn [fst snd];
    lazymatch goal with
    | |- context [SetLoopStart ?s h] => destruct (SetLoopStart s h); reflexivity
    | |- context [SetLoopLength ?s h] =>
        destruct (SetLoopLength s h); reflexivity
    | |- context [StopBuffering h] => destruct (StopBuffering h); reflexivity
    | |- context [ToggleDirection h] =>
        destruct (ToggleDirection h); reflexivity
    | |- context [ToggleRun h] => destruct (ToggleRun h); reflexivity
    | |- context [UpdatePosition h m] => apply UpdatePosition_bytes
    | |- context [SetUpFade ?f h m] => apply SetUpFade_bytes
    | |- context [Read h m] => rewrite Read_memory; apply ReadAt_memory
    | |- context [ReadAt h ?i m] => apply ReadAt_memory
    | |- context [Run ?b h m] => apply Run_bytes
    | |- context [Stop ?b h m] => apply Stop_bytes
    | |- _ => reflexivity
    end.
Qed.

(** X10: only Write, Buffer and ClearBuffer change the buffer.  Any
    sequence of the other public calls, on any cursor and buffer, leaves
    every byte of the buffer as it was. *)
Theorem run_reading_keeps_bytes (cs : list Call) :
  reading cs = true ->
  forall (h : Head) (m : Buf.Mem),
    Buf.bytes (snd (run cs h m)) = Buf.bytes m.
Proof.
  induction cs as [ | c cs IH]; intros Hcs h m; [reflexivity | ].
  unfold reading in Hcs. cbn [forallb] in Hcs.
  apply andb_prop in Hcs. destruct Hcs as [Hc Hcs].
  apply negb_true_iff in Hc.
  cbn [run]. cbv [bind ret]. cbn [fst snd].
  rewrite (IH Hcs). now apply exec_bytes.
Qed.

End Reading.

Section Recapture.

Import Head HeadSpec CursorSpec.

(** Once the buffered length has reached the capacity, calls of Buffer
    store at the cursor without advancing it, and return true. *)
Lemma run_buffer_calls_full (v : float) (k : nat) :
  forall (h : Head) (m : Buf.Mem),
    bufferSamples_ h = maxBufferSamples_ h ->
    Int32.min_signed < maxBufferSamples_ h <= Int32.max_signed ->
    let r := run (buffer_calls v k) h m in
    fst (fst r) = repeat (RBool true) k
    /\ snd (fst r) = h
    /\ Buf.accesses (snd r) = Buf.accesses m ++ repeat (intIndex_ h) k.
Proof.
  induction k as [ | k IH]; intros h m Hbs Hmax.
  - cbn. rewrite app_nil_r. repeat split; reflexivity.
  - destruct (Buffer_at_capacity v h m Hbs Hmax) as (Hr & Hh & Ha).
    cbv zeta. unfold buffer_calls. cbn [repeat run exec].
    cbv [bind ret]. cbn [fst snd].
    fold (buffer_calls v k).
    specialize (IH (snd (fst (Buffer v h m))) (snd (Buffer v h m))).
    rewrite Hh in IH. destruct (IH Hbs Hmax) as (IHr & IHh & IHa).
    rewrite Hh, Hr, IHr, IHh, IHa, Ha, <- app_assoc.
    repeat split; reflexivity.
Qed.

(** X11: Reset does not restart a complete capture.  After Init with a
    buffer of [capacity] samples and [capacity] calls of Buffer, a Reset
    rewinds the cursor but leaves bufferedLength at the capacity: every
    later call of Buffer returns true at once, stores its sample at index
    0, and neither advances the cursor nor changes bufferedLength. *)
Theorem Reset_keeps_capture_complete
  (capacity : Z) (k : nat) (type : HeadType) (v : float) (m : Buf.Mem) :
  0 <= capacity <= Int32.max_signed ->
  let r := run (recapture capacity v k) (new type) m in
  let h := snd (fst r) in
  fst (fst r)
  = RVoid :: repeat (RBool false) (Z.to_nat capacity)
      ++ RVoid :: repeat (RBool true) k
  /\ bufferSamples_ h = capacity
  /\ intIndex_ h = 0
  /\ Buf.accesses (snd r)
     = Buf.accesses m ++ indices 0 (Z.to_nat capacity) ++ repeat 0 k.
Proof.
  intros Hcap.
  pose proof (run_buffer_calls v (Z.to_nat capacity)
                (Init capacity (new type)) m) as H.
  cbn [Init new Reset bufferSamples_ intIndex_ maxBufferSamples_
       set_maxBufferSamples_ set_intIndex_ set_index_ set_rate_
       set_loopStart_ set_loopEnd_ set_loopLength_ set_run_ set_looping_
       set_movement_ set_direction_] in H.
  destruct H as (Hr & Hi & Hb & Hm & Ha); [lia | lia | lia | lia | ].
  cbv zeta. unfold recapture.
  cbn [run exec]. cbv [bind ret]. cbn [fst snd].
  rewrite run_app. cbn [fst snd].
  set (r0 := run (buffer_calls v (Z.to_nat capacity))
                 (Init capacity (new type)) m) in *.
  cbn [run exec]. cbv [bind ret]. cbn [fst snd].
  destruct (run_buffer_calls_full v k (Reset (snd (fst r0))) (snd r0))
    as (Hr' & Hh' & Ha').
  - cbn [Reset bufferSamples_ maxBufferSamples_ set_intIndex_ set_index_
         set_rate_ set_loopStart_ set_loopEnd_ set_loopLength_ set_run_
         set_looping_ set_movement_ set_direction_]. lia.
  - cbn [Reset bufferSamples_ maxBufferSamples_ set_intIndex_ set_index_
         set_rate_ set_loopStart_ set_loopEnd_ set_loopLength_ set_run_
         set_looping_ set_movement_ set_direction_]. in_range.
  - rewrite Hr', Hh', Ha', Hr, Ha.
    cbn [Reset bufferSamples_ intIndex_ set_intIndex_ set_index_
         set_rate_ set_loopStart_ set_loopEnd_ set_loopLength_ set_run_
         set_looping_ set_movement_ set_direction_].
    rewrite <- app_assoc.
    repeat split; try reflexivity; lia.
Qed.

End Recapture.

Section Toggle.

Import Head HeadSpec CursorSpec.

(** X12: ToggleDirection negates the direction and returns the new one;
    for every direction other than the smallest [int32_t], the two proper
    directions included, a second call restores the cursor. *)
Theorem ToggleDirection_involutive (h : Head) :
  Int32.min_signed < direction_ h <= Int32.max_signed ->
  fst (ToggleDirection h) = - direction_ h
  /\ direction_ (snd (ToggleDirection h)) = - direction_ h
  /\ snd (ToggleDirection (snd (ToggleDirection h))) = h
  /\ (directed h -> directed (snd (ToggleDirection h))).
Proof.
  intros Hd. destruct h. unfold ToggleDirection, directed in *.
  cbn [direction_ set_direction_ fst snd type_ maxBufferSamples_
       bufferSamples_ intIndex_ index_ rate_ fadeIndex_ loopStart_ loopEnd_
       loopLength_ run_ looping_ movement_ mustFade_ snapshotValue_ fastAvg
       slowAvg prevDifference currentValue_ inputValue_ isStopping_] in *.
  unfold Int32.mul.
  rewrite (wrap32_id (_ * -1)) by in_range.
  rewrite wrap32_id by in_range.
  repeat split; try lia.
  - cbv [set_direction_ type_ maxBufferSamples_ bufferSamples_ intIndex_
         index_ rate_ fadeIndex_ loopStart_ loopEnd_ loopLength_ run_
         looping_ movement_ mustFade_ snapshotValue_ fastAvg slowAvg
         prevDifference currentValue_ inputValue_ isStopping_].
    f_equal. lia.
  - unfold FORWARD, BACKWARDS. lia.
Qed.

End Toggle.

(** ** The further properties on concrete cursors *)

(** Over the 48000 buffered samples of the scenario, a requested loop length
    of 10 is raised to the minimum of 48. *)
Lemma SetLoopLength_clamps_witness :
  let h := HeadSpec.scenario Head.READ Head.NORMAL in
  Head.kMinLoopLengthSamples <= Head.bufferSamples_ h
  /\ Head.kMinLoopLengthSamples <= fst (Head.SetLoopLength 10 h)
     <= Head.bufferSamples_ h.
Proof.
  cbv zeta.
  assert (Hbs : Head.kMinLoopLengthSamples
                <= Head.bufferSamples_
                     (HeadSpec.scenario Head.READ Head.NORMAL))
    by (vm_compute; discriminate).
  destruct (SetLoopLength_clamps 10
              (HeadSpec.scenario Head.READ Head.NORMAL))
    as (_ & _ & Hin & _).
  exact (conj Hbs (Hin Hbs)).
Defined.

(** A loop of 2000 samples starting at 47000 in 48000 buffered samples: the
    geometry is valid, with the loop end wrapped to 999. *)
Lemma loop_setters_establish_geometry_witness :
  let h := Head.InitBuffer 48000 (Head.Init 48000 (Head.new Head.READ)) in
  let h1 := snd (Head.SetLoopLength 2000 (snd (Head.SetLoopStart 47000 h))) in
  1 <= Head.bufferSamples_ h <= 2 ^ 30
  /\ HeadSpec.geometry_valid h1
  /\ Head.loopEnd_ h1 = 999.
Proof.
  cbv zeta.
  assert (Hbs : 1 <= Head.bufferSamples_
                       (Head.InitBuffer 48000
                          (Head.Init 48000 (Head.new Head.READ)))
                <= 2 ^ 30)
    by (vm_compute; split; discriminate).
  destruct (loop_setters_establish_geometry 47000 2000 _ Hbs)
    as [[Hgeo _] _].
  split; [exact Hbs | split; [exact Hgeo | vm_compute; reflexivity]].
Defined.

(** Three samples captured into a buffer of four. *)
Lemma capture_then_StopBuffering_witness :
  let r := Head.run (CursorSpec.capture 4 F32.one 3)
                    (Head.new Head.WRITE) (Buf.fresh 4) in
  Z.of_nat 3 <= 4 <= Int32.max_signed
  /\ Head.bufferSamples_ (snd (fst r)) = Z.of_nat 3
  /\ Head.loopEnd_ (snd (fst r)) = Z.of_nat 3 - 1.
Proof.
  cbv zeta.
  assert (Hn : Z.of_nat 3 <= 4 <= Int32.max_signed)
    by (vm_compute; split; discriminate).
  destruct (capture_then_StopBuffering 4 3 Head.WRITE F32.one
              (Buf.fresh 4) Hn) as (_ & Hb & _ & _ & He & _).
  exact (conj Hn (conj Hb He)).
Defined.

(** The Read cursor of the scenario, no longer looping, at the end of its
    loop: the action is STOP, and the cursor was not stopping. *)
Lemma HandleLoopAction_classified_witness :
  let h := Head.SetLooping false (HeadSpec.scenario Head.READ Head.NORMAL) in
  fst (Head.HandleLoopAction h) = Head.STOP
  /\ Head.looping_ h = false
  /\ Head.isStopping_ h = false.
Proof.
  cbv zeta.
  pose proof (HandleLoopAction_classified
                (Head.SetLooping false
                   (HeadSpec.scenario Head.READ Head.NORMAL))) as H.
  assert (E : fst (Head.HandleLoopAction
                     (Head.SetLooping false
                        (HeadSpec.scenario Head.READ Head.NORMAL)))
              = Head.STOP) by (vm_compute; reflexivity).
  rewrite E in H. destruct H as [Hl Hs].
  split; [exact E | split; [exact Hl | ]].
  apply Hs. vm_compute. reflexivity.
Defined.

(** The looping Read cursor of the Pendulum scenario is advanced without
    touching the buffer, and keeps running. *)
Lemma UpdatePosition_looping_witness :
  let h := HeadSpec.scenario Head.READ Head.PENDULUM in
  let r := Head.UpdatePosition h (Buf.fresh 4) in
  Head.looping_ h = true
  /\ snd r = Buf.fresh 4
  /\ Head.run_ (snd (fst r)) = Head.run_ h.
Proof.
  cbv zeta.
  assert (Hl : Head.looping_ (HeadSpec.scenario Head.READ Head.PENDULUM)
               = true) by (vm_compute; reflexivity).
  destruct (UpdatePosition_looping _ (Buf.fresh 4) Hl)
    as (Hm & _ & Hr & _).
  exact (conj Hl (conj Hm Hr)).
Defined.

(** The cursor of the scenario sits on its loop, in 48000 buffered
    samples. *)
Lemma scenario_on_loop (type : Head.HeadType) :
  let h := HeadSpec.scenario type Head.NORMAL in
  HeadSpec.geometry_valid h
  /\ Head.bufferSamples_ h <= 2 ^ 30
  /\ CursorSpec.directed h
  /\ CursorSpec.on_loop h.
Proof.
  cbv zeta. split; [ | split; [ | split; [ | split]]].
  - destruct type; vm_compute; repeat split;
      first [reflexivity | discriminate].
  - destruct type; vm_compute; discriminate.
  - left. destruct type; reflexivity.
  - destruct type; vm_compute; reflexivity.
  - left. destruct type; vm_compute; repeat split;
      first [reflexivity | discriminate].
Defined.

(** A Read on the cursor of the scenario loads inside the 48000 buffered
    samples. *)
Lemma Read_accesses_buffered_witness :
  let h := HeadSpec.scenario Head.READ Head.NORMAL in
  let m := Buf.fresh 4 in
  HeadSpec.geometry_valid h
  /\ CursorSpec.on_loop h
  /\ Buf.bytes (snd (Head.Read h m)) = Buf.bytes m
  /\ exists l,
      Buf.accesses (snd (Head.Read h m)) = Buf.accesses m ++ l
      /\ Forall (CursorSpec.buffered h) l /\ (length l <= 2)%nat.
Proof.
  cbv zeta.
  destruct (scenario_on_loop Head.READ) as (Hgeo & Hbs & Hdir & Hon).
  destruct (Read_accesses_buffered _ (Buf.fresh 4) Hgeo Hbs Hdir Hon)
    as [Hbytes Hacc].
  exact (conj Hgeo (conj Hon (conj Hbytes Hacc))).
Defined.

(** A Write on the cursor of the scenario loads and stores inside the
    48000 buffered samples. *)
Lemma Write_accesses_buffered_witness :
  let h := HeadSpec.scenario Head.WRITE Head.NORMAL in
  let m := Buf.fresh 4 in
  HeadSpec.geometry_valid h
  /\ CursorSpec.on_loop h
  /\ exists l,
      Buf.accesses (snd (Head.Write F32.one h m)) = Buf.accesses m ++ l
      /\ Forall (CursorSpec.buffered h) l /\ (length l <= 3)%nat.
Proof.
  cbv zeta.
  destruct (scenario_on_loop Head.WRITE) as (Hgeo & Hbs & Hdir & Hon).
  exact (conj Hgeo
           (conj Hon
              (Write_accesses_buffered F32.one _ (Buf.fresh 4)
                 Hgeo Hbs Hdir Hon))).
Defined.

(** A Write cursor as constructed is disabled: its Write stores nothing. *)
Lemma Write_disabled_keeps_bytes_witness :
  let h := Head.new Head.WRITE in
  Head.run_ h = false
  /\ Head.mustFade_ h <> Head.IN
  /\ Buf.bytes (snd (Head.Write F32.one h (Buf.fresh 4)))
     = Buf.bytes (Buf.fresh 4).
Proof.
  cbv zeta.
  assert (Hrun : Head.run_ (Head.new Head.WRITE) = false) by reflexivity.
  assert (Hfade : Head.mustFade_ (Head.new Head.WRITE) <> Head.IN)
    by (cbn; discriminate).
  exact (conj Hrun
           (conj Hfade
              (Write_disabled_keeps_bytes F32.one _ (Buf.fresh 4)
                 Hrun Hfade))).
Defined.

(** Advancing, reading and stopping the Read cursor of the scenario leaves
    the bytes of the buffer. *)
Lemma run_reading_keeps_bytes_witness :
  let cs := [Head.CUpdatePosition; Head.CRead; Head.CStop true; Head.CRead;
             Head.CSetLoopStart 10; Head.CToggleDirection] in
  CursorSpec.reading cs = true
  /\ Buf.bytes (snd (Head.run cs (HeadSpec.scenario Head.READ Head.NORMAL)
                       (Buf.fresh 4)))
     = Buf.bytes (Buf.fresh 4).
Proof.
  cbv zeta.
  assert (Hcs : CursorSpec.reading
                  [Head.CUpdatePosition; Head.CRead; Head.CStop true;
                   Head.CRead; Head.CSetLoopStart 10; Head.CToggleDirection]
                = true) by reflexivity.
  exact (conj Hcs
           (run_reading_keeps_bytes _ Hcs
              (HeadSpec.scenario Head.READ Head.NORMAL) (Buf.fresh 4))).
Defined.

(** A buffer of four samples, captured in full and reset: three more calls
    of Buffer all return true and store at index 0. *)
Lemma Reset_keeps_capture_complete_witness :
  let r := Head.run (CursorSpec.recapture 4 F32.one 3)
                    (Head.new Head.WRITE) (Buf.fresh 4) in
  0 <= 4 <= Int32.max_signed
  /\ Head.bufferSamples_ (snd (fst r)) = 4
  /\ Buf.accesses (snd r) = [0; 1; 2; 3; 0; 0; 0].
Proof.
  cbv zeta.
  assert (Hcap : 0 <= 4 <= Int32.max_signed)
    by (vm_compute; split; discriminate).
  destruct (Reset_keeps_capture_complete 4 3 Head.WRITE F32.one
              (Buf.fresh 4) Hcap) as (_ & Hb & _ & Ha).
  exact (conj Hcap (conj Hb Ha)).
Defined.

(** A cursor travelling forward travels backwards after ToggleDirection. *)
Lemma ToggleDirection_involutive_witness :
  let h := HeadSpec.scenario Head.READ Head.NORMAL in
  Int32.min_signed < Head.direction_ h <= Int32.max_signed
  /\ fst (Head.ToggleDirection h) = Head.BACKWARDS
  /\ snd (Head.ToggleDirection (snd (Head.ToggleDirection h))) = h.
Proof.
  cbv zeta.
  assert (Hd : Int32.min_signed
               < Head.direction_ (HeadSpec.scenario Head.READ Head.NORMAL)
               <= Int32.max_signed)
    by (vm_compute; split; [reflexivity | discriminate]).
  destruct (ToggleDirection_involutive _ Hd) as (Hr & _ & Hi & _).
  exact (conj Hd (conj Hr Hi)).
Defined.

(** * Further properties of the engine *)

(** ** Tactics for the states of the engine *)

(** Evaluates the code of the engine on a known state: the monad, and the
    members read and assigned. *)
Ltac engine_run :=
  cbv [bind ret StereoLooper.this StereoLooper.assign StereoLooper.on_left
       StereoLooper.on_right StereoLooper.Reset StereoLooper.Start
       StereoLooper.SetTriggerMode StereoLooper.SetWriteRate
       StereoLooper.IsFrozen fst snd
       StereoLooper.mustResetLooper StereoLooper.mustClearBuffer
       StereoLooper.mustStopBuffering StereoLooper.resetPosition
       StereoLooper.gain StereoLooper.mix StereoLooper.feedback
       StereoLooper.rateSlew StereoLooper.nextLeftLoopStart
       StereoLooper.nextRightLoopStart StereoLooper.leftDirection
       StereoLooper.rightDirection StereoLooper.nextLeftLoopLength
       StereoLooper.nextRightLoopLength StereoLooper.nextLeftReadRate
       StereoLooper.nextRightReadRate StereoLooper.mustSetChannelWriteRate
       StereoLooper.nextWriteRate StereoLooper.leftTriggerMode
       StereoLooper.rightTriggerMode StereoLooper.mustStart
       StereoLooper.mustStop StereoLooper.mustRestart
       StereoLooper.stereoImage StereoLooper.dryLevel
       StereoLooper.filterType StereoLooper.loopers_LEFT
       StereoLooper.loopers_RIGHT StereoLooper.state_ StereoLooper.cf_
       StereoLooper.feedbackFilter_ StereoLooper.outputFilter_
       StereoLooper.sampleRate_ StereoLooper.freeze_
       StereoLooper.filterValue_ StereoLooper.fadeIndex
       StereoLooper.calls_
       StereoLooper.set_mustResetLooper StereoLooper.set_mustClearBuffer
       StereoLooper.set_mustStopBuffering StereoLooper.set_resetPosition
       StereoLooper.set_nextLeftLoopStart
       StereoLooper.set_nextRightLoopStart
       StereoLooper.set_nextLeftLoopLength
       StereoLooper.set_nextRightLoopLength
       StereoLooper.set_nextLeftReadRate StereoLooper.set_nextRightReadRate
       StereoLooper.set_mustSetChannelWriteRate
       StereoLooper.set_nextWriteRate StereoLooper.set_leftTriggerMode
       StereoLooper.set_rightTriggerMode StereoLooper.set_mustStart
       StereoLooper.set_mustStop StereoLooper.set_mustRestart
       StereoLooper.set_dryLevel StereoLooper.set_loopers_LEFT
       StereoLooper.set_loopers_RIGHT StereoLooper.set_state_
       StereoLooper.set_cf_ StereoLooper.set_feedbackFilter_
       StereoLooper.set_outputFilter_ StereoLooper.set_fadeIndex
       StereoLooper.set_calls_].

Section EngineStates.

Import StereoLooper EngineSpec EngineRun.

Context {L CF SVF : Type} {looper : LooperImpl L} {dsp : DaisySP CF SVF}.

Variables leftIn rightIn : float.

(** One call of Process during start-up. *)
Lemma Process_STARTUP (e : Engine L CF SVF) :
  state_ e = STARTUP ->
  let e' := snd (Process leftIn rightIn e) in
  calls_ e' = calls_ e
  /\ sampleRate_ e' = sampleRate_ e
  /\ requests e' = requests e
  /\ state_ e'
     = (if fadeIndex e >? sampleRate_ e then BUFFERING else STARTUP)
  /\ fadeIndex e'
     = Int32.add (if fadeIndex e >? sampleRate_ e then 0 else fadeIndex e) 1.
Proof.
  destruct e. cbn [state_ fadeIndex sampleRate_ calls_]. intros ->.
  cbv zeta. unfold Process, requests. engine_run.
  destruct (_ >? _); repeat split; reflexivity.
Qed.

(** One call of Process during the capture. *)
Lemma Process_BUFFERING (e : Engine L CF SVF) :
  state_ e = BUFFERING ->
  let dl := looper_call bool
              (Looper_Buffer (SoftClip (F32.mul leftIn (gain e))))
              (loopers_LEFT e) in
  let dr := looper_call bool
              (Looper_Buffer (SoftClip (F32.mul rightIn (gain e))))
              (loopers_RIGHT e) in
  let done := fst dl && fst dr || mustStopBuffering e in
  let e' := snd (Process leftIn rightIn e) in
  state_ e' = (if done then READY else BUFFERING)
  /\ mustStopBuffering e' = false
  /\ mustClearBuffer e' = mustClearBuffer e
  /\ mustResetLooper e' = mustResetLooper e
  /\ mustRestart e' = mustRestart e
  /\ mustStart e' = mustStart e
  /\ mustStop e' = mustStop e
  /\ calls_ e'
     = calls_ e
         ++ [Invoked LEFT bool
               (Looper_Buffer (SoftClip (F32.mul leftIn (gain e)))) (fst dl);
             Invoked RIGHT bool
               (Looper_Buffer (SoftClip (F32.mul rightIn (gain e))))
               (fst dr)]
         ++ (if done
             then [Invoked LEFT unit Looper_StopBuffering
                     (fst (looper_call unit Looper_StopBuffering (snd dl)));
                   Invoked RIGHT unit Looper_StopBuffering
                     (fst (looper_call unit Looper_StopBuffering (snd dr)))]
             else []).
Proof.
  destruct e. cbn [state_ mustStopBuffering calls_ gain loopers_LEFT
                   loopers_RIGHT mustClearBuffer mustResetLooper mustRestart
                   mustStart mustStop]. intros ->.
  cbv zeta. unfold Process. engine_run.
  repeat match goal with
         | |- context [looper_call bool ?c ?l] =>
             destruct (looper_call bool c l) as [[ | ] ?]
         end;
    match goal with
    | |- context [_ || ?b] => destruct b
    end;
    cbn [fst snd andb orb]; rewrite <- ?app_assoc;
    repeat split; reflexivity.
Qed.

(** One call of Process once the capture is complete. *)
Lemma Process_READY (e : Engine L CF SVF) :
  state_ e = READY ->
  let e' := snd (Process leftIn rightIn e) in
  state_ e' = READY
  /\ nextLeftReadRate e' = F32.one
  /\ nextRightReadRate e' = F32.one
  /\ requests e' = requests e
  /\ exists ll lr sl sr,
      calls_ e'
      = calls_ e ++ [Invoked LEFT Z Looper_GetLoopLength ll;
                     Invoked RIGHT Z Looper_GetLoopLength lr;
                     Invoked LEFT Z Looper_GetLoopStart sl;
                     Invoked RIGHT Z Looper_GetLoopStart sr]
      /\ nextLeftLoopLength e' = ll
      /\ nextRightLoopLength e' = lr
      /\ nextLeftLoopStart e' = sl
      /\ nextRightLoopStart e' = sr.
Proof.
  destruct e. cbn [state_ calls_]. intros ->.
  cbv zeta. unfold Process, requests. engine_run.
  repeat split. do 4 eexists. rewrite <- !app_assoc.
  repeat split; reflexivity.
Qed.

End EngineStates.

Section EngineRunning.

Import StereoLooper EngineSpec EngineRun.

Context {L CF SVF : Type} {looper : LooperImpl L} {dsp : DaisySP CF SVF}.

Variables leftIn rightIn : float.
Variable e0 : Engine L CF SVF.
Hypothesis Hrunning : running e0.

(** While the looper runs, Process changes the state only to serve a
    reset. *)
Lemma Process_running_state :
  state_ (snd (Process leftIn rightIn e0))
  = (if mustResetLooper e0 then BUFFERING else state_ e0).
Proof.
  remember (state_ e0) as s0 eqn:Hs0 in |- *.
  remember (mustResetLooper e0) as b0 eqn:Hb0 in |- *.
  pose (F := fun e : Engine L CF SVF => (mustResetLooper e, state_ e)).
  pose (Jpre := fun (v : bool * State) (_ : list Invocation) =>
                  v = (b0, s0)).
  pose (Jpost := fun (v : bool * State) (_ : list Invocation) =>
                   snd v = (if b0 then BUFFERING else s0)).
  assert (Hpre : lasting Jpre) by (intros ? ? ? H; exact H).
  assert (Hpost : lasting Jpost) by (intros ? ? ? H; exact H).
  enough (H : hoare (fun e => e = e0) (Process leftIn rightIn)
                (fun _ e => Jpost (F e) (calls_ e)))
    by exact (H e0 eq_refl).
  serve F Jpre Hpre Jpost Hpost Hrunning 3%nat.
  - subst Jpre F. cbv beta. congruence.
  - subst Jpre Jpost F. cbv beta in *. injection H as Hb Hs.
    rewrite Hb. destruct b0; engine_simpl; [reflexivity | exact Hs].
  - subst Jpre Jpost F. cbv beta in *. injection H as Hb Hs.
    rewrite Hb. destruct b0; engine_simpl; [reflexivity | exact Hs].
Qed.

(** A flag that is down stays down: the blocks that serve the start and
    stop requests are skipped. *)
Lemma Process_leaves_mustStart_down :
  mustStart e0 = false -> mustStart (snd (Process leftIn rightIn e0)) = false.
Proof.
  intros Hdown.
  pose (J := fun (v : bool) (_ : list Invocation) => v = false).
  assert (HJ : lasting J) by apply lasting_flag.
  enough (H : hoare (fun e => e = e0) (Process leftIn rightIn)
                (fun _ e => J (mustStart e) (calls_ e)))
    by exact (H e0 eq_refl).
  serve (@mustStart L CF SVF) J HJ J HJ Hrunning 7%nat.
  - exact Hdown.
  - subst J. cbv beta in *. rewrite H. engine_simpl. exact H.
  - subst J. cbv beta in *. rewrite H. engine_simpl. exact H.
Qed.

Lemma Process_leaves_mustStop_down :
  mustStop e0 = false -> mustStop (snd (Process leftIn rightIn e0)) = false.
Proof.
  intros Hdown.
  pose (J := fun (v : bool) (_ : list Invocation) => v = false).
  assert (HJ : lasting J) by apply lasting_flag.
  enough (H : hoare (fun e => e = e0) (Process leftIn rightIn)
                (fun _ e => J (mustStop e) (calls_ e)))
    by exact (H e0 eq_refl).
  serve (@mustStop L CF SVF) J HJ J HJ Hrunning 9%nat.
  - exact Hdown.
  - subst J. cbv beta in *. rewrite H. engine_simpl. exact H.
  - subst J. cbv beta in *. rewrite H. engine_simpl. exact H.
Qed.

(** While the looper runs, Process does not assign the request to end the
    capture. *)
Lemma Process_running_mustStopBuffering :
  mustStopBuffering (snd (Process leftIn rightIn e0)) = mustStopBuffering e0.
Proof.
  pose (J := fun (v : bool) (_ : list Invocation) =>
               v = mustStopBuffering e0).
  assert (HJ : lasting J) by (intros ? ? ? H; exact H).
  enough (H : hoare (fun e => e = e0) (Process leftIn rightIn)
                (fun _ e => J (mustStopBuffering e) (calls_ e)))
    by exact (H e0 eq_refl).
  unfold Process. apply hoare_this. intros ? ->.
  apply (hoare_pre _ (fun e => J (mustStopBuffering e) (calls_ e)));
    [intros ? ->; reflexivity | ].
  destruct Hrunning as [-> | ->];
    repeat (skip (@mustStopBuffering L CF SVF) J HJ).
Qed.


End EngineRunning.

Section EngineMachine.

Import StereoLooper EngineSpec EngineRun.

Context {L CF SVF : Type} {looper : LooperImpl L} {dsp : DaisySP CF SVF}.

(** X13: the state machine of Process.  Start-up ends when the counter of
    Process calls has passed the sample rate; the capture ends when both
    channel loopers report a full buffer or the end of the capture was
    requested; Ready is never left by Process; Recording and Frozen are left,
    for Buffering, exactly when a reset was requested, so that Process never
    freezes or unfreezes the engine. *)
Theorem Process_next_state (leftIn rightIn : float) (e : Engine L CF SVF) :
  state_ (snd (Process leftIn rightIn e))
  = match state_ e with
    | STARTUP => if fadeIndex e >? sampleRate_ e then BUFFERING else STARTUP
    | BUFFERING =>
        let dry x := SoftClip (F32.mul x (gain e)) in
        let doneLeft :=
          fst (looper_call bool (Looper_Buffer (dry leftIn))
                 (loopers_LEFT e)) in
        let doneRight :=
          fst (looper_call bool (Looper_Buffer (dry rightIn))
                 (loopers_RIGHT e)) in
        if doneLeft && doneRight || mustStopBuffering e
        then READY else BUFFERING
    | READY => READY
    | RECORDING => if mustResetLooper e then BUFFERING else RECORDING
    | FROZEN => if mustResetLooper e then BUFFERING else FROZEN
    end.
Proof.
  destruct (state_ e) eqn:Hstate.
  - now apply Process_STARTUP.
  - now apply Process_BUFFERING.
  - now apply Process_READY.
  - rewrite <- Hstate. apply Process_running_state. now left.
  - rewrite <- Hstate. apply Process_running_state. now right.
Qed.

(** X14: how long start-up lasts.  From the Startup state with the
    counter of Process calls at [fadeIndex], the engine is still in Startup
    after every call up to the one that brings the counter to
    [sampleRate + 1], and the next call moves it to Buffering and leaves
    the counter at 1; no call is made on the channel loopers meanwhile.
    From a counter of 0 the engine thus enters Buffering on call number
    [sampleRate + 2], whatever the input. *)
Theorem Startup_duration (inputs : list (float * float))
  (e : Engine L CF SVF) :
  state_ e = STARTUP ->
  0 <= fadeIndex e <= sampleRate_ e + 1 ->
  sampleRate_ e + 1 < Int32.max_signed ->
  let n := Z.of_nat (length inputs) in
  let e' := process_all inputs e in
  (fadeIndex e + n <= sampleRate_ e + 1 ->
   state_ e' = STARTUP /\ fadeIndex e' = fadeIndex e + n
   /\ calls_ e' = calls_ e)
  /\ (fadeIndex e + n = sampleRate_ e + 2 ->
      state_ e' = BUFFERING /\ fadeIndex e' = 1 /\ calls_ e' = calls_ e).
Proof.
  revert e. induction inputs as [ | [leftIn rightIn] rest IH];
    intros e Hstate Hidx Hrate; cbv zeta.
  - cbn [length process_all Z.of_nat]. split; intros Hn.
    + repeat split; [exact Hstate | lia].
    + lia.
  - cbn [process_all].
    destruct (Process_STARTUP leftIn rightIn e Hstate)
      as (Hcalls & Hsr & _ & Hst & Hfi).
    set (e1 := snd (Process leftIn rightIn e)) in *.
    replace (Z.of_nat (length ((leftIn, rightIn) :: rest)))
      with (1 + Z.of_nat (length rest)) by (cbn [length]; lia).
    destruct (Z.gtb_spec (fadeIndex e) (sampleRate_ e)) as [Hlast | Hmore].
    + rewrite add32_exact in Hfi by in_range.
      split; intros Hn; [lia | ].
      assert (Hrest : rest = []) by (destruct rest; [reflexivity | ];
                                     cbn [length] in Hn; lia).
      subst rest. cbn [process_all].
      repeat split; [exact Hst | exact Hfi | exact Hcalls].
    + rewrite add32_exact in Hfi by in_range.
      specialize (IH e1 Hst). cbv zeta in IH.
      rewrite Hsr, Hfi, Hcalls in IH.
      destruct IH as [IH1 IH2]; [lia | lia | ].
      split; intros Hn.
      * destruct IH1 as (H1 & H2 & H3); [lia | ].
        repeat split; [exact H1 | lia | exact H3].
      * apply IH2. lia.
Qed.


(** X15: the calls of the capture.  In the Buffering state Process passes
    the gain-staged input of each channel to Buffer on its looper; it calls
    StopBuffering on both, once, exactly when both report a full buffer or
    the end of the capture was requested, and that request is down
    afterwards in either case. *)
Theorem Process_capture_calls (leftIn rightIn : float)
  (e : Engine L CF SVF) :
  state_ e = BUFFERING ->
  let dl := looper_call bool
              (Looper_Buffer (SoftClip (F32.mul leftIn (gain e))))
              (loopers_LEFT e) in
  let dr := looper_call bool
              (Looper_Buffer (SoftClip (F32.mul rightIn (gain e))))
              (loopers_RIGHT e) in
  let e' := snd (Process leftIn rightIn e) in
  mustStopBuffering e' = false
  /\ calls_ e'
     = calls_ e
         ++ [Invoked LEFT bool
               (Looper_Buffer (SoftClip (F32.mul leftIn (gain e)))) (fst dl);
             Invoked RIGHT bool
               (Looper_Buffer (SoftClip (F32.mul rightIn (gain e))))
               (fst dr)]
         ++ (if fst dl && fst dr || mustStopBuffering e
             then [Invoked LEFT unit Looper_StopBuffering
                     (fst (looper_call unit Looper_StopBuffering (snd dl)));
                   Invoked RIGHT unit Looper_StopBuffering
                     (fst (looper_call unit Looper_StopBuffering (snd dr)))]
             else []).
Proof.
  intros Hstate. cbv zeta.
  destruct (Process_BUFFERING leftIn rightIn e Hstate)
    as (_ & Hflag & _ & _ & _ & _ & _ & Hcalls).
  split; [exact Hflag | exact Hcalls].
Qed.

(** X17: Process raises no request.  In every state, each of the six
    request flags that is down before a call of Process is down after
    it. *)
Theorem Process_raises_no_request (leftIn rightIn : float)
  (e : Engine L CF SVF) :
  let e' := snd (Process leftIn rightIn e) in
  (mustClearBuffer e = false -> mustClearBuffer e' = false)
  /\ (mustResetLooper e = false -> mustResetLooper e' = false)
  /\ (mustStopBuffering e = false -> mustStopBuffering e' = false)
  /\ (mustRestart e = false -> mustRestart e' = false)
  /\ (mustStart e = false -> mustStart e' = false)
  /\ (mustStop e = false -> mustStop e' = false).
Proof.
  cbv zeta.
  destruct (state_ e) eqn:Hstate.
  - destruct (Process_STARTUP leftIn rightIn e Hstate) as (_ & _ & Hreq & _).
    unfold requests in Hreq. injection Hreq as -> -> -> -> -> ->.
    repeat split; trivial.
  - destruct (Process_BUFFERING leftIn rightIn e Hstate)
      as (_ & -> & -> & -> & -> & -> & -> & _).
    repeat split; trivial.
  - destruct (Process_READY leftIn rightIn e Hstate)
      as (_ & _ & _ & Hreq & _).
    unfold requests in Hreq. injection Hreq as -> -> -> -> -> ->.
    repeat split; trivial.
  - assert (Hrunning : running e) by now left.
    rewrite (Process_clears_mustClearBuffer leftIn rightIn e Hrunning).
    rewrite (Process_clears_mustResetLooper leftIn rightIn e Hrunning).
    rewrite (Process_clears_mustRestart leftIn rightIn e Hrunning).
    rewrite (Process_running_mustStopBuffering leftIn rightIn e Hrunning).
    repeat split; trivial.
    + now apply Process_leaves_mustStart_down.
    + now apply Process_leaves_mustStop_down.
  - assert (Hrunning : running e) by now right.
    rewrite (Process_clears_mustClearBuffer leftIn rightIn e Hrunning).
    rewrite (Process_clears_mustResetLooper leftIn rightIn e Hrunning).
    rewrite (Process_clears_mustRestart leftIn rightIn e Hrunning).
    rewrite (Process_running_mustStopBuffering leftIn rightIn e Hrunning).
    repeat split; trivial.
    + now apply Process_leaves_mustStart_down.
    + now apply Process_leaves_mustStop_down.
Qed.


End EngineMachine.

Section Freezing.

Import StereoLooper EngineSpec Freeze.

Context {L CF SVF : Type} {looper : LooperImpl L}
  {writing : LooperWriting L} {dsp : DaisySP CF SVF}.

(** X19: ToggleFreeze.  From the Frozen state it moves the engine to
    Recording and passes 0 to both channel loopers as their writing amount;
    from every other state, Startup, Buffering and Ready included, it moves
    the engine to Frozen and passes 1. *)
Theorem ToggleFreeze_state (e : Engine L CF SVF) :
  let e' := snd (ToggleFreeze e) in
  let value := if IsFrozen e then F32.zero else F32.one in
  state_ e' = (if IsFrozen e then RECORDING else FROZEN)
  /\ freeze_ e' = value
  /\ loopers_LEFT e' = looper_SetWriting value (loopers_LEFT e)
  /\ loopers_RIGHT e' = looper_SetWriting value (loopers_RIGHT e)
  /\ calls_ e' = calls_ e.
Proof.
  assert (H0 : F32.ltb F32.zero half = true) by (vm_compute; reflexivity).
  assert (H1 : F32.ltb F32.one half = false) by (vm_compute; reflexivity).
  assert (H2 : F32.leb half F32.one = true) by (vm_compute; reflexivity).
  cbv zeta. unfold ToggleFreeze, SetFreeze.
  remember (state_ e) as s eqn:Hs.
  destruct e. cbn [state_] in Hs. engine_run. cbv [set_freeze_]. engine_run.
  destruct s; subst; cbv [negb andb]; rewrite ?H0, ?H1, ?H2;
    repeat split; reflexivity.
Qed.

End Freezing.

(** ** The further properties on a concrete engine *)

(** At a sample rate of 48000, with the idle looper, the engine is still
    starting up after 48001 calls of Process and enters Buffering on call
    number 48002. *)
Lemma Startup_duration_witness :
  let e := EngineRun.powered StereoLooper.STARTUP 48000 in
  let frames := repeat (F32.one, F32.one) (Z.to_nat 48002) in
  StereoLooper.state_ e = StereoLooper.STARTUP
  /\ StereoLooper.state_
       (@EngineRun.process_all unit unit unit EngineSpec.Idle
          EngineSpec.Bypass frames e)
     = StereoLooper.BUFFERING.
Proof.
  cbv zeta.
  assert (Hstate : StereoLooper.state_
                     (EngineRun.powered StereoLooper.STARTUP 48000)
                   = StereoLooper.STARTUP) by reflexivity.
  assert (Hidx : 0 <= StereoLooper.fadeIndex
                        (EngineRun.powered StereoLooper.STARTUP 48000)
                 <= StereoLooper.sampleRate_
                      (EngineRun.powered StereoLooper.STARTUP 48000) + 1)
    by (vm_compute; split; discriminate).
  assert (Hrate : StereoLooper.sampleRate_
                    (EngineRun.powered StereoLooper.STARTUP 48000) + 1
                  < Int32.max_signed) by (vm_compute; reflexivity).
  destruct (@Startup_duration unit unit unit EngineSpec.Idle
              EngineSpec.Bypass (repeat (F32.one, F32.one) (Z.to_nat 48002))
              _ Hstate Hidx Hrate) as [_ Hlast].
  split; [exact Hstate | ].
  apply Hlast. vm_compute. reflexivity.
Defined.


(** The engine in the Buffering state, with the idle looper, whose Buffer
    never reports a full buffer: both loopers are given the input, and the
    capture goes on. *)
Lemma Process_capture_calls_witness :
  let e := EngineRun.powered StereoLooper.BUFFERING 48000 in
  let e' := snd (@StereoLooper.Process unit unit unit EngineSpec.Idle
                   EngineSpec.Bypass F32.one F32.one e) in
  StereoLooper.state_ e = StereoLooper.BUFFERING
  /\ StereoLooper.mustStopBuffering e' = false
  /\ length (StereoLooper.calls_ e') = 2%nat.
Proof.
  cbv zeta.
  assert (Hstate : StereoLooper.state_
                     (EngineRun.powered StereoLooper.BUFFERING 48000)
                   = StereoLooper.BUFFERING) by reflexivity.
  destruct (@Process_capture_calls unit unit unit EngineSpec.Idle
              EngineSpec.Bypass F32.one F32.one _ Hstate) as [Hflag Hcalls].
  split; [exact Hstate | split; [exact Hflag | ]].
  rewrite Hcalls. reflexivity.
Defined.

(** The started engine has no request pending, and none after Process. *)
Lemma Process_raises_no_request_witness :
  let e := EngineSpec.started in
  let e' := snd (@StereoLooper.Process unit unit unit EngineSpec.Idle
                   EngineSpec.Bypass F32.one F32.one e) in
  StereoLooper.mustStart e = false
  /\ StereoLooper.mustStop e = false
  /\ StereoLooper.mustStart e' = false
  /\ StereoLooper.mustStop e' = false.
Proof.
  cbv zeta.
  assert (Hstart : StereoLooper.mustStart EngineSpec.started = false)
    by reflexivity.
  assert (Hstop : StereoLooper.mustStop EngineSpec.started = false)
    by reflexivity.
  destruct (@Process_raises_no_request unit unit unit EngineSpec.Idle
              EngineSpec.Bypass F32.one F32.one EngineSpec.started)
    as (_ & _ & _ & _ & H1 & H2).
  exact (conj Hstart (conj Hstop (conj (H1 Hstart) (H2 Hstop)))).
Defined.
